(** * Hall of Fame enhancer dashboard: data wrangling and track layout

    A shallow embedding of the Python sources [data_processor.py]
    (the two [DataProcessor] classes and [VisualizationGenerator]) and of
    the Streamlit application module, with the properties of the
    specification stated over it.

    Conventions of the embedding.
    - A pandas table is the list of its rows, in index order; a row is a
      record with one field per column.  A missing value (NaN / None) in an
      object column is [None].  The column-less frame [pd.DataFrame()] that
      the loaders return on failure is kept apart from a frame that has
      columns and no rows (see [DataFrame]).
    - A Python [str] is a [string]; comparison is code-point order, which
      is what [String.compare] computes on UTF-8 bytes.  Labels are taken
      to be ASCII where a digit test is involved.
    - A [float64] column is a column of rationals: the order, the maximum
      and the product by [1.1] are the exact ones, rounding is not
      modelled.
    - A Python [dict] that is iterated is the list of its items in
      insertion order. *)

From Stdlib Require Import List Bool Arith ZArith QArith Qround Lia.
From Stdlib Require Import String Ascii DecimalString.
From Stdlib Require Import Sorted Permutation.
Import ListNotations.

Open Scope string_scope.
Open Scope list_scope.

(** * Python and pandas primitives *)

(** [str(n)] and [f"{n}"] for a non-negative integer. *)
Definition str_of_nat (n : nat) : string :=
  NilZero.string_of_uint (Nat.to_uint n).

(** [int(s)] on a string of decimal digits; [None] is [ValueError]. *)
Definition py_int (s : string) : option nat :=
  option_map Nat.of_uint (NilZero.uint_of_string s).

(** [s.split(sep)] for a one-character separator. *)
Fixpoint split_on (sep : ascii) (s : string) : list string :=
  match s with
  | EmptyString => [EmptyString]
  | String c s' =>
      if Ascii.eqb c sep then EmptyString :: split_on sep s'
      else match split_on sep s' with
           | [] => [String c EmptyString]
           | w :: ws => String c w :: ws
           end
  end.

Definition is_nil {A : Type} (l : list A) : bool :=
  match l with [] => true | _ :: _ => false end.

Definition option_eq_dec {A : Type}
  (dec : forall x y : A, {x = y} + {x <> y})
  (x y : option A) : {x = y} + {x <> y}.
Proof. decide equality. Defined.

Definition Q_eq_dec (x y : Q) : {x = y} + {x <> y}.
Proof. decide equality; [apply Pos.eq_dec | apply Z.eq_dec]. Defined.

(** The mask of the values that differ from [r]. *)
Definition other_than {A : Type} (eq_dec : forall x y : A, {x = y} + {x <> y})
  (r x : A) : bool :=
  if eq_dec r x then false else true.

(** [Series.unique()] and [DataFrame.drop_duplicates()] (keep first): the
    distinct values, each at the place of its first occurrence. *)
Fixpoint unique {A : Type} (eq_dec : forall x y : A, {x = y} + {x <> y})
  (l : list A) : list A :=
  match l with
  | [] => []
  | x :: l' => x :: filter (other_than eq_dec x) (unique eq_dec l')
  end.

(** [Series.dropna()]. *)
Fixpoint dropna {A : Type} (l : list (option A)) : list A :=
  match l with
  | [] => []
  | Some x :: l' => x :: dropna l'
  | None :: l' => dropna l'
  end.

(** The mask [column == value] on an object column: a missing value
    compares unequal to everything. *)
Definition cell_is (c : option string) (v : string) : bool :=
  match c with
  | Some s => s =? v
  | None => false
  end.

(** ** [sorted(l, key=...)]

    Python's [sorted] is stable: elements with equal keys keep their
    relative order.  The result of a stable sort is determined by its input
    ([sorted_by_stable], [sorted_by_sorted]), so a stable insertion sort
    computes the list that Timsort computes. *)
Section SortedBy.
Context {A K : Type}.
Variable key : A -> K.
Variable leb : K -> K -> bool.

Fixpoint insert_by (x : A) (l : list A) : list A :=
  match l with
  | [] => [x]
  | y :: l' => if leb (key x) (key y) then x :: y :: l' else y :: insert_by x l'
  end.

Definition sorted_by (l : list A) : list A := fold_right insert_by [] l.

Definition key_le (a b : A) : Prop := leb (key a) (key b) = true.

(** The elements whose key is equivalent to [k]. *)
Definition same_key (k : K) (a : A) : bool := leb (key a) k && leb k (key a).
End SortedBy.

(** [sorted(l)] on a list of strings. *)
Definition sorted (l : list string) : list string :=
  sorted_by (fun s => s) String.leb l.

Definition str_lt (s1 s2 : string) : Prop := String.compare s1 s2 = Lt.
Definition str_le (s1 s2 : string) : Prop := String.leb s1 s2 = true.

(** ** Frames *)

(** A pandas frame whose rows have type [R].  [NoColumns] is
    [pd.DataFrame()], the frame without columns (and without rows) that the
    loaders and the reconciler return when they have nothing; reading a
    column of it raises [KeyError]. *)
Inductive DataFrame (R : Type) : Type :=
| NoColumns : DataFrame R
| Frame (rows : list R) : DataFrame R.
Arguments NoColumns {R}.
Arguments Frame {R} rows.

Definition rows_of {R : Type} (df : DataFrame R) : list R :=
  match df with
  | NoColumns => []
  | Frame rows => rows
  end.

(** [df.empty]. *)
Definition empty {R : Type} (df : DataFrame R) : bool := is_nil (rows_of df).

(** * The metadata table *)

(** One row of the enhancer and experiment metadata.  The columns are the
    ones the program reads by name; [meta_gc_delivered] is the column
    ['GC delivered'].  The imaging columns other than the viewer link are
    only displayed and are left out.  The facet columns hold strings. *)
Record MetaRow : Type := {
  meta_enhancer_id : option string;
  meta_cargo : option string;
  meta_experiment : option string;
  meta_proximal_gene : option string;
  meta_gc_delivered : option string;
  meta_neuroglancer_url : option string
}.

(** * The application module: facet options *)

Module App.

(** The value of [get_filtered_options]: a dict with six fixed keys. *)
Record FilterOptions : Type := {
  enhancers : list string;
  cargos : list string;
  experiments : list string;
  genes : list string;
  gc_delivered : list string;
  cell_types : list string
}.

(** One turn of the loop of [get_options_for_filter]. *)
Definition apply_filter (exclude_filter : string)
  (temp_metadata : list MetaRow) (item : string * string) : list MetaRow :=
  let (filter_name, filter_value) := item in
  if negb (filter_name =? exclude_filter) && negb (filter_value =? "All") then
    if filter_name =? "enhancer" then
      filter (fun r => cell_is (meta_enhancer_id r) filter_value) temp_metadata
    else if filter_name =? "cargo" then
      filter (fun r => cell_is (meta_cargo r) filter_value) temp_metadata
    else if filter_name =? "experiment" then
      filter (fun r => cell_is (meta_experiment r) filter_value) temp_metadata
    else if filter_name =? "gene" then
      filter (fun r => cell_is (meta_proximal_gene r) filter_value) temp_metadata
    else if filter_name =? "gc_delivered" then
      filter (fun r => cell_is (meta_gc_delivered r) filter_value) temp_metadata
    else temp_metadata
  else temp_metadata.

(** The mask that one turn of the loop keeps: the row passes unless the
    item is a constraint on one of the five metadata columns, other than
    the excluded one, that the row does not meet. *)
Definition passes (exclude_filter filter_name filter_value : string)
  (r : MetaRow) : bool :=
  if negb (filter_name =? exclude_filter) && negb (filter_value =? "All") then
    if filter_name =? "enhancer" then cell_is (meta_enhancer_id r) filter_value
    else if filter_name =? "cargo" then cell_is (meta_cargo r) filter_value
    else if filter_name =? "experiment" then cell_is (meta_experiment r) filter_value
    else if filter_name =? "gene" then cell_is (meta_proximal_gene r) filter_value
    else if filter_name =? "gc_delivered" then cell_is (meta_gc_delivered r) filter_value
    else true
  else true.

(** [get_options_for_filter(exclude_filter)], closed over the arguments of
    [get_filtered_options]; [selected_filters] is the list of the items of
    the dict. *)
Definition get_options_for_filter (selected_filters : list (string * string))
  (base_metadata : list MetaRow) (exclude_filter : string) : list MetaRow :=
  fold_left (apply_filter exclude_filter) selected_filters base_metadata.

(** [sorted([x for x in md[col].dropna().unique() if x != ''])
     if not md.empty else []]. *)
Definition available (column : MetaRow -> option string)
  (md : list MetaRow) : list string :=
  if is_nil md then []
  else sorted (filter (fun x => negb (x =? ""))
                 (unique string_dec (dropna (map column md)))).

(** The key [lambda x: int(x.split('_')[2])].  [IndexError] and
    [ValueError] are sent to [0]; neither occurs on the catalog
    ([cell_type_key_defined]). *)
Definition cell_type_key (x : string) : nat :=
  match nth_error (split_on "_" x) 2 with
  | Some t => match py_int t with Some n => n | None => 0 end
  | None => 0
  end.

(** [[f"cell_type_{i}" for i in range(1, 35)]]. *)
Definition catalog_labels : list string :=
  map (fun i => ("cell_type_" ++ str_of_nat i)%string) (seq 1 34).

Definition base_cell_types : list string :=
  sorted_by cell_type_key Nat.leb catalog_labels.

Definition no_options : FilterOptions :=
  {| enhancers := []; cargos := []; experiments := []; genes := [];
     gc_delivered := []; cell_types := [] |}.

(** [get_filtered_options(selected_filters, base_metadata)];
    [base_metadata] is [None] for Python's [None]. *)
Definition get_filtered_options (selected_filters : list (string * string))
  (base_metadata : option (DataFrame MetaRow)) : FilterOptions :=
  match base_metadata with
  | None => no_options
  | Some df =>
      if empty df then no_options
      else
        let base := rows_of df in
        let enhancer_metadata := get_options_for_filter selected_filters base "enhancer" in
        let cargo_metadata := get_options_for_filter selected_filters base "cargo" in
        let experiment_metadata := get_options_for_filter selected_filters base "experiment" in
        let gene_metadata := get_options_for_filter selected_filters base "gene" in
        let gc_metadata := get_options_for_filter selected_filters base "gc_delivered" in
        {| enhancers := available meta_enhancer_id enhancer_metadata;
           cargos := available meta_cargo cargo_metadata;
           experiments := available meta_experiment experiment_metadata;
           genes := available meta_proximal_gene gene_metadata;
           gc_delivered := available meta_gc_delivered gc_metadata;
           cell_types := base_cell_types |}
  end.

(** The five facets that have a metadata column, with the name each has as
    a key of [selected_filters], the column it constrains and the entry of
    the result that lists its options. *)
Inductive facet : Type := Enhancer | Cargo | Experiment | Gene | GcDelivered.

Definition facet_name (f : facet) : string :=
  match f with
  | Enhancer => "enhancer"
  | Cargo => "cargo"
  | Experiment => "experiment"
  | Gene => "gene"
  | GcDelivered => "gc_delivered"
  end.

Definition facet_column (f : facet) : MetaRow -> option string :=
  match f with
  | Enhancer => meta_enhancer_id
  | Cargo => meta_cargo
  | Experiment => meta_experiment
  | Gene => meta_proximal_gene
  | GcDelivered => meta_gc_delivered
  end.

Definition options_of (o : FilterOptions) (f : facet) : list string :=
  match f with
  | Enhancer => enhancers o
  | Cargo => cargos o
  | Experiment => experiments o
  | Gene => genes o
  | GcDelivered => gc_delivered o
  end.

(** The fixed catalog, written out. *)
Definition cell_type_catalog : list string :=
  [ "cell_type_1"; "cell_type_2"; "cell_type_3"; "cell_type_4";
    "cell_type_5"; "cell_type_6"; "cell_type_7"; "cell_type_8";
    "cell_type_9"; "cell_type_10"; "cell_type_11"; "cell_type_12";
    "cell_type_13"; "cell_type_14"; "cell_type_15"; "cell_type_16";
    "cell_type_17"; "cell_type_18"; "cell_type_19"; "cell_type_20";
    "cell_type_21"; "cell_type_22"; "cell_type_23"; "cell_type_24";
    "cell_type_25"; "cell_type_26"; "cell_type_27"; "cell_type_28";
    "cell_type_29"; "cell_type_30"; "cell_type_31"; "cell_type_32";
    "cell_type_33"; "cell_type_34" ].

(** The selection the application starts from. *)
Definition initial_filter_state : list (string * string) :=
  [ ("enhancer", "All"); ("cargo", "All"); ("experiment", "All");
    ("gene", "All"); ("gc_delivered", "All"); ("cell_type", "All") ].

(** The facet constraint that an item of the selection puts on a metadata
    row, in the words of the specification: the row's value in the facet's
    column equals the selected value.  [cell_type] names no metadata
    column and constrains no row. *)
Definition constraint_holds (r : MetaRow) (filter_name filter_value : string) : Prop :=
  forall g : facet, facet_name g = filter_name -> facet_column g r = Some filter_value.

(** The rows that satisfy the constraint of every facet other than [f]
    whose selection is not ["All"]. *)
Definition co_filtered (selected_filters : list (string * string))
  (f : facet) (r : MetaRow) : Prop :=
  forall filter_name filter_value,
    In (filter_name, filter_value) selected_filters ->
    filter_name <> facet_name f -> filter_value <> "All" ->
    constraint_holds r filter_name filter_value.

(** The option list of a facet as the specification words it: the
    distinct non-null non-empty values of the facet's column in the rows
    that meet every other active constraint, in ascending order. *)
Definition co_filtered_options (selected_filters : list (string * string))
  (base : list MetaRow) (f : facet) : list string :=
  sorted
    (unique string_dec
       (filter (fun x => negb (x =? ""))
          (dropna
             (map (facet_column f)
                (filter
                   (fun r =>
                      forallb
                        (fun item => passes (facet_name f) (fst item) (snd item) r)
                        selected_filters)
                   base))))).

(** A metadata table for the examples: two cargos, three experiments. *)
Definition example_metadata : list MetaRow :=
  [ {| meta_enhancer_id := Some "E1"; meta_cargo := Some "AAV9";
       meta_experiment := Some "lightsheet"; meta_proximal_gene := Some "Gad1";
       meta_gc_delivered := Some "1e11"; meta_neuroglancer_url := None |};
    {| meta_enhancer_id := Some "E1"; meta_cargo := Some "AAV9";
       meta_experiment := Some "epi"; meta_proximal_gene := Some "Gad1";
       meta_gc_delivered := Some "5e10"; meta_neuroglancer_url := None |};
    {| meta_enhancer_id := Some "E2"; meta_cargo := Some "PHP.eB";
       meta_experiment := Some "stpt"; meta_proximal_gene := None;
       meta_gc_delivered := Some "1e11"; meta_neuroglancer_url := Some "" |} ].

Definition example_selection : list (string * string) :=
  [ ("enhancer", "All"); ("cargo", "AAV9"); ("experiment", "stpt");
    ("gene", "All"); ("gc_delivered", "All"); ("cell_type", "cell_type_3") ].

End App.

(** * The signal table *)

(** One row of the peak accessibility table as the cleaning of
    [load_peak_data] leaves it: the enhancer id and the four numeric
    columns are present; [chr] and [cell_type] may be missing.  [end_] is the
    column ['end']. *)
Record PeakRow : Type := {
  enhancer_id : string;
  chr : option string;
  start : Q;
  end_ : Q;
  cell_type : option string;
  position_index : Q;
  accessibility_score : Q
}.

(** [str(x)] and [f"{x}"] of a value of an object column: a missing value
    is the float NaN and prints as [nan]. *)
Definition py_str (x : option string) : string :=
  match x with
  | Some s => s
  | None => "nan"
  end.

(** [int(x)] of a number: truncation towards zero. *)
Definition int_of_Q (x : Q) : Z := Z.quot (Qnum x) (Z.pos (Qden x)).

(** [Series.max()] of a numeric column with at least one row. *)
Definition Qmax_b (a b : Q) : Q := if Qle_bool a b then b else a.

Definition series_max (x : Q) (xs : list Q) : Q := fold_left Qmax_b xs x.

(** [Series.quantile(0.8)] with the default linear interpolation, on a
    column with at least one row: with the values ascending and
    [pos = 0.8 * (n - 1)], the value at [floor pos] plus the fractional part
    of [pos] times the step to the next value. *)
Definition quantile_08 (x : Q) (xs : list Q) : Q :=
  let v := sorted_by (fun q : Q => q) Qle_bool (x :: xs) in
  let pos := (0.8 * inject_Z (Z.of_nat (List.length xs)))%Q in
  let lo := Qfloor pos in
  let fraction := (pos - inject_Z lo)%Q in
  let i := nth (Z.to_nat lo) v x in
  let j := nth (S (Z.to_nat lo)) v i in
  (i + (j - i) * fraction)%Q.

(** The mask [peak_data['cell_type'] == cell_type] for a string. *)
Definition has_cell_type (label : string) (r : PeakRow) : bool :=
  cell_is (cell_type r) label.

(** A row of enhancer [e] on chr1:100-200, for the examples. *)
Definition peak_row (e : string) (ct : option string) (pos score : Q) : PeakRow :=
  {| enhancer_id := e; chr := Some "chr1"; start := 100; end_ := 200;
     cell_type := ct; position_index := pos; accessibility_score := score |}.

(** Enhancer E1 with the cell types 2_X and 1_Y, in this order. *)
Definition example_E1 : list PeakRow :=
  [ peak_row "E1" (Some "2_X") 1 0.2; peak_row "E1" (Some "2_X") 0 0.4;
    peak_row "E1" (Some "1_Y") 0 0.9 ].

(** Enhancer E1 with a cell type numbered 1000 and one without a number. *)
Definition example_1000 : list PeakRow :=
  [ peak_row "E1" (Some "1000_X") 0 0.5; peak_row "E1" (Some "X") 0 0.5 ].

(** * The visualization generator *)

Module VisualizationGenerator.

(** ** Charts

    A Plotly figure is recorded by what the builders put into it: the free
    annotations, the stacked panels with their traces and axes, the height
    and the data of the title.  Fonts, margins, grid and hover styling are
    not recorded. *)

(** The kind of a scatter trace: the filled line of a track or the
    diamond markers over it. *)
Inductive TraceMode : Type := FilledLine | Markers.

Record Trace : Type := {
  trace_mode : TraceMode;
  trace_name : option string;
  trace_color : string;
  trace_x : list Q;
  trace_y : list Q
}.

(** One row of the subplot grid. *)
Record Panel : Type := {
  panel_title : string;
  panel_traces : list Trace;
  panel_baseline : bool;
  panel_yrange : option (Q * Q);
  panel_xticklabels : bool;
  panel_xtitle : option string
}.

(** The data that the title of a track plot is formatted from. *)
Record Title : Type := {
  title_enhancer_id : string;
  title_chr_name : string;
  title_start_pos : Z;
  title_end_pos : Z;
  title_total_length : Z
}.

Record Figure : Type := {
  fig_title : option Title;
  fig_annotations : list string;
  fig_panels : list Panel;
  fig_height : nat;
  fig_axes_visible : bool
}.

(** [create_empty_plot(message)]: no trace, the message as the only
    annotation, both axes hidden. *)
Definition create_empty_plot (message : string) : Figure :=
  {| fig_title := None;
     fig_annotations := [message];
     fig_panels := [];
     fig_height := 300;
     fig_axes_visible := false |}.

(** ** Colours *)

(** [self.colors]. *)
Definition colors : list string :=
  [ "#8B0000"; "#FF6B6B"; "#4ECDC4"; "#45B7D1"; "#96CEB4";
    "#FFEAA7"; "#DDA0DD"; "#98D8C8"; "#F7DC6F"; "#BB8FCE";
    "#85C1E9"; "#F8C471"; "#82E0AA"; "#F1948A"; "#AED6F1";
    "#A9DFBF"; "#F9E79F"; "#D7BDE2"; "#A3E4D7"; "#FAD7A0";
    "#CD5C5C"; "#20B2AA"; "#87CEEB"; "#DDA0DD"; "#F0E68C";
    "#FFB6C1"; "#98FB98"; "#87CEFA"; "#F4A460"; "#DA70D6";
    "#32CD32"; "#FF69B4"; "#00CED1"; "#FF1493"; "#00FF7F" ].

(** [self.cell_type_colors]: the dict as the list of its items in
    insertion order. *)
Definition ColorMap : Type := list (string * string).

(** [d.get(k)] on the items of a dict. *)
Fixpoint lookup (k : string) (d : ColorMap) : option string :=
  match d with
  | [] => None
  | (k', v) :: d' => if k' =? k then Some v else lookup k d'
  end.

(** [self.colors[i]]; the index is always in range where it is used
    ([palette_index_in_range]). *)
Definition color_at (i : nat) : string := nth i colors "".

(** [get_cell_type_color(self, cell_type, index)]: the colour returned and
    the dict afterwards. *)
Definition get_cell_type_color (cell_type_colors : ColorMap)
  (cell_type : string) (index : nat) : string * ColorMap :=
  match lookup cell_type cell_type_colors with
  | Some color => (color, cell_type_colors)
  | None =>
      let color := color_at (List.length cell_type_colors mod List.length colors) in
      (color, cell_type_colors ++ [(cell_type, color)])
  end.

(** A session: the colour requests made one after the other on one
    generator, each with its own [index] argument; the colours answered and
    the dict at the end. *)
Fixpoint request_colors (cell_type_colors : ColorMap)
  (requests : list (string * nat)) : list string * ColorMap :=
  match requests with
  | [] => ([], cell_type_colors)
  | (cell_type, index) :: rest =>
      let (color, d) := get_cell_type_color cell_type_colors cell_type index in
      let (answers, d') := request_colors d rest in
      (color :: answers, d')
  end.

(** The number of distinct labels requested before the first request of
    [label]: its position in the list of distinct labels in first-seen
    order. *)
Fixpoint first_seen_rank (label : string) (distinct : list string) : nat :=
  match distinct with
  | [] => 0
  | l :: rest => if l =? label then 0 else S (first_seen_rank label rest)
  end.

(** The dict once the labels [distinct] have been requested for the first
    time in this order. *)
Definition colors_assigned (distinct : list string) : ColorMap :=
  map (fun label =>
         (label, color_at (first_seen_rank label distinct mod List.length colors)))
    distinct.

(** The labels known after [labels] are requested on a generator that
    already knows [known]. *)
Definition known_after (known labels : list string) : list string :=
  known ++
  unique string_dec (filter (fun l => negb (existsb (String.eqb l) known)) labels).

(** ** The track plot *)

Definition is_digit (c : ascii) : bool :=
  ((48 <=? nat_of_ascii c) && (nat_of_ascii c <=? 57))%nat.

(** The group of [re.match(r'^(\d+)', s)]: the longest run of digits that
    [s] starts with. *)
Fixpoint leading_digits (s : string) : string :=
  match s with
  | EmptyString => EmptyString
  | String c s' => if is_digit c then String c (leading_digits s') else EmptyString
  end.

(** [int(d)] for a run of digits, most significant first. *)
Fixpoint digits_value (acc : N) (d : string) : N :=
  match d with
  | EmptyString => acc
  | String c d' => digits_value (10 * acc + (N_of_ascii c - 48)) d'
  end.

(** [extract_cell_type_number], the sort key local to
    [create_peak_visualization]. *)
Definition extract_cell_type_number (cell_type : option string) : N :=
  match leading_digits (py_str cell_type) with
  | EmptyString => 999
  | digits => digits_value 0 digits
  end.

(** The traces of one track: the filled line over the rows in the order of
    [position_index], and the markers at the rows whose score is above the
    0.8 quantile of the track. *)
Definition track_traces (label color : string) (first : PeakRow)
  (others : list PeakRow) : list Trace :=
  let cell_data := first :: others in
  let line :=
    {| trace_mode := FilledLine; trace_name := Some label; trace_color := color;
       trace_x := map position_index cell_data;
       trace_y := map accessibility_score cell_data |} in
  let threshold :=
    quantile_08 (accessibility_score first) (map accessibility_score others) in
  let high_accessibility :=
    filter (fun r => negb (Qle_bool (accessibility_score r) threshold)) cell_data in
  if is_nil high_accessibility then [line]
  else [ line;
         {| trace_mode := Markers; trace_name := None; trace_color := color;
            trace_x := map position_index high_accessibility;
            trace_y := map accessibility_score high_accessibility |} ].

(** The body of the loop [for i, cell_type in enumerate(cell_types, 1)]:
    the traces and the baseline of row [i], and the colour dict
    afterwards.  A missing label selects no row, as does a label without
    rows, and the track then stays empty. *)
Definition build_track (peak_data : list PeakRow)
  (cell_type_colors : ColorMap) (i : nat) (cell_type : option string)
  : (list Trace * bool) * ColorMap :=
  match cell_type with
  | None => (([], false), cell_type_colors)
  | Some label =>
      let cell_data :=
        sorted_by position_index Qle_bool (filter (has_cell_type label) peak_data) in
      match cell_data with
      | [] => (([], false), cell_type_colors)
      | first :: others =>
          let (color, d) := get_cell_type_color cell_type_colors label (i - 1) in
          ((track_traces label color first others, true), d)
      end
  end.

Fixpoint build_tracks (peak_data : list PeakRow) (cell_type_colors : ColorMap)
  (i : nat) (cell_types : list (option string))
  : list (list Trace * bool) * ColorMap :=
  match cell_types with
  | [] => ([], cell_type_colors)
  | cell_type :: rest =>
      let (track, d) := build_track peak_data cell_type_colors i cell_type in
      let (tracks, d') := build_tracks peak_data d (S i) rest in
      (track :: tracks, d')
  end.

(** Row [i] of [num_cell_types] after the axis updates: every row gets the
    range [[0, y_max]]; the bottom row alone keeps its tick labels and gets
    the axis title. *)
Definition make_panel (num_cell_types : nat) (chr_name : string) (y_max : Q)
  (i : nat) (cell_type : option string) (track : list Trace * bool) : Panel :=
  {| panel_title := py_str cell_type;
     panel_traces := fst track;
     panel_baseline := snd track;
     panel_yrange := Some (0%Q, y_max);
     panel_xticklabels := (i =? num_cell_types)%nat;
     panel_xtitle :=
       if (i =? num_cell_types)%nat
       then Some ("<b>Genomic Position (" ++ chr_name ++ ")</b>")%string
       else None |}.

Fixpoint make_panels (num_cell_types : nat) (chr_name : string) (y_max : Q)
  (i : nat) (cell_types : list (option string))
  (tracks : list (list Trace * bool)) : list Panel :=
  match cell_types, tracks with
  | cell_type :: cts, track :: trs =>
      make_panel num_cell_types chr_name y_max i cell_type track
      :: make_panels num_cell_types chr_name y_max (S i) cts trs
  | _, _ => []
  end.

(** The panel order: [sorted(peak_data['cell_type'].unique(),
    key=extract_cell_type_number)]. *)
Definition sorted_cell_types (peak_data : list PeakRow) : list (option string) :=
  sorted_by extract_cell_type_number N.leb
    (unique (option_eq_dec string_dec) (map cell_type peak_data)).

(** [create_peak_visualization(self, peak_data, enhancer_id)]: the figure
    and the colour dict afterwards. *)
Definition create_peak_visualization (cell_type_colors : ColorMap)
  (peak_data : DataFrame PeakRow) (enhancer_id : string) : Figure * ColorMap :=
  match rows_of peak_data with
  | [] =>
      (create_empty_plot "No peak data available for visualization",
       cell_type_colors)
  | first_row :: other_rows =>
      let rows := first_row :: other_rows in
      let cell_types := sorted_cell_types rows in
      let num_cell_types := List.length cell_types in
      if (num_cell_types =? 0)%nat then
        (create_empty_plot "No cell types found in data", cell_type_colors)
      else
        let chr_name := py_str (chr first_row) in
        let start_pos := int_of_Q (start first_row) in
        let end_pos := int_of_Q (end_ first_row) in
        let total_length := (end_pos - start_pos)%Z in
        let (tracks, d) := build_tracks rows cell_type_colors 1 cell_types in
        let global_max_score :=
          series_max (accessibility_score first_row)
            (map accessibility_score other_rows) in
        let y_max := (global_max_score * 1.1)%Q in
        let plot_height := Nat.max 500 (num_cell_types * 120) in
        ({| fig_title :=
              Some {| title_enhancer_id := enhancer_id;
                      title_chr_name := chr_name;
                      title_start_pos := start_pos;
                      title_end_pos := end_pos;
                      title_total_length := total_length |};
            fig_annotations := [];
            fig_panels := make_panels num_cell_types chr_name y_max 1 cell_types tracks;
            fig_height := plot_height;
            fig_axes_visible := true |}, d)
  end.

(** ** The aggregate charts *)

(** What a builder does: it returns a figure or raises. *)
Inductive exn : Type :=
| KeyError (key : string)
| ValueError (message : string).

Inductive outcome (A : Type) : Type :=
| Returns (a : A)
| Raises (e : exn).
Arguments Returns {A} a.
Arguments Raises {A} e.

Section Builders.
(** The Plotly charts drawn from data that is there (the heat map, the
    four-panel dashboard, the ranking bars) are parameters; the guards in
    front of them are the source's. *)
Variable heatmap_chart : list PeakRow -> outcome Figure.
Variable dashboard_chart : ColorMap -> list PeakRow -> outcome Figure * ColorMap.
Variable ranking_chart : list PeakRow -> string -> outcome Figure.

(** [create_multi_enhancer_comparison(self, peak_data, enhancer_ids)].
    The group means are taken over the rows of the listed enhancers that
    have a cell type. *)
Definition create_multi_enhancer_comparison (peak_data : DataFrame PeakRow)
  (enhancer_ids : list string) : outcome Figure :=
  if empty peak_data || is_nil enhancer_ids then
    Returns (create_empty_plot "No data available for comparison")
  else
    let comparison_data :=
      filter
        (fun r =>
           existsb (String.eqb (enhancer_id r)) enhancer_ids
           && match cell_type r with Some _ => true | None => false end)
        (rows_of peak_data) in
    if is_nil comparison_data then
      Returns (create_empty_plot "No data found for selected enhancers")
    else heatmap_chart comparison_data.

(** [create_summary_dashboard(self, peak_data)]. *)
Definition create_summary_dashboard (cell_type_colors : ColorMap)
  (peak_data : DataFrame PeakRow) : outcome Figure * ColorMap :=
  if empty peak_data then
    (Returns (create_empty_plot "No peak data available for summary"),
     cell_type_colors)
  else dashboard_chart cell_type_colors (rows_of peak_data).

(** [create_cell_type_specific_view(self, peak_data, cell_type)].  The
    column ['cell_type'] is read before anything is tested. *)
Definition create_cell_type_specific_view (peak_data : DataFrame PeakRow)
  (cell_type : string) : outcome Figure :=
  match peak_data with
  | NoColumns => Raises (KeyError "cell_type")
  | Frame rows =>
      let cell_data := filter (has_cell_type cell_type) rows in
      if is_nil cell_data then
        Returns (create_empty_plot
                   ("No data available for cell type: " ++ cell_type)%string)
      else ranking_chart cell_data cell_type
  end.
End Builders.

(** The dict [d'] answers every label that [d] answers, with the same
    colour. *)
Definition extends (d d' : ColorMap) : Prop :=
  forall label color, lookup label d = Some color -> lookup label d' = Some color.

(** The points [(x, y)] of a trace. *)
Definition trace_points (t : Trace) : list (Q * Q) :=
  combine (trace_x t) (trace_y t).

(** The points [(position_index, accessibility_score)] of some rows. *)
Definition row_points (rows : list PeakRow) : list (Q * Q) :=
  map (fun r => (position_index r, accessibility_score r)) rows.

End VisualizationGenerator.

(** * Diagnostics *)

(** A message on the reporting channel: [st.info], [st.warning],
    [st.error], or a line printed by the chunked loader. *)
Inductive Severity : Type := Info | Warning | Error | Printed.

Definition Diagnostic : Type := (Severity * string)%type.

(** [f"{n:,}"]: the decimal digits in groups of three. *)
Fixpoint group_digits (k : nat) (reversed_digits : list ascii) : list ascii :=
  match reversed_digits with
  | [] => []
  | c :: cs =>
      if (k =? 3)%nat then ","%char :: c :: group_digits 1 cs
      else c :: group_digits (S k) cs
  end.

Definition format_thousands (n : nat) : string :=
  string_of_list_ascii
    (rev (group_digits 0 (rev (list_ascii_of_string (str_of_nat n))))).

(** * The processor of the single CSV file *)

Module DataProcessor.

(** A value of a column that [read_csv] could not type as numeric, or
    could: missing, a number, or a string. *)
Inductive cell : Type :=
| NaN : cell
| Num (x : Q) : cell
| Str (s : string) : cell.

(** One row of the CSV file as read; the expected columns are there. *)
Record RawPeakRow : Type := {
  raw_enhancer_id : option string;
  raw_chr : option string;
  raw_start : cell;
  raw_end : cell;
  raw_cell_type : option string;
  raw_position_index : cell;
  raw_accessibility_score : cell
}.

Definition isna (c : cell) : bool :=
  match c with NaN => true | _ => false end.

(** The mask [df['start'] >= df['end']]; a comparison with a missing value
    is false. *)
Definition cell_ge (a b : cell) : bool :=
  match a, b with
  | Num x, Num y => Qle_bool y x
  | _, _ => false
  end.

(** The row with the types its columns have after the cleaning. *)
Definition typed_row (r : RawPeakRow) : option PeakRow :=
  match raw_enhancer_id r, raw_start r, raw_end r, raw_position_index r,
        raw_accessibility_score r with
  | Some e, Num s, Num f, Num p, Num a =>
      Some {| enhancer_id := e; chr := raw_chr r; start := s; end_ := f;
              cell_type := raw_cell_type r; position_index := p;
              accessibility_score := a |}
  | _, _, _, _, _ => None
  end.

(** [self.csv_path]. *)
Definition csv_path : string :=
  "attached_assets/HOF_enhancers_peak_data_1751042112619.csv".

Section Loading.
(** What [pd.to_numeric] reads from a string, [None] where it cannot. *)
Variable parse_number : string -> option Q.

(** [pd.to_numeric(x, errors='coerce')] on one value. *)
Definition to_numeric (c : cell) : cell :=
  match c with
  | NaN => NaN
  | Num x => Num x
  | Str s => match parse_number s with Some x => Num x | None => NaN end
  end.

Definition coerce_numeric_cols (r : RawPeakRow) : RawPeakRow :=
  {| raw_enhancer_id := raw_enhancer_id r;
     raw_chr := raw_chr r;
     raw_start := to_numeric (raw_start r);
     raw_end := to_numeric (raw_end r);
     raw_cell_type := raw_cell_type r;
     raw_position_index := to_numeric (raw_position_index r);
     raw_accessibility_score := to_numeric (raw_accessibility_score r) |}.

(** The rows kept by [dropna(subset=['enhancer_id', 'accessibility_score'])]. *)
Definition has_critical_data (r : RawPeakRow) : bool :=
  match raw_enhancer_id r with Some _ => true | None => false end
  && negb (isna (raw_accessibility_score r)).

(** The rows kept by [dropna(subset=numeric_cols)]. *)
Definition has_numeric_data (r : RawPeakRow) : bool :=
  negb (isna (raw_start r)) && negb (isna (raw_end r))
  && negb (isna (raw_position_index r)) && negb (isna (raw_accessibility_score r)).

Definition invalid_coords (r : RawPeakRow) : bool :=
  cell_ge (raw_start r) (raw_end r).

(** [load_peak_data(self)]: [csv] is the content of the file, [None] when
    the file is not there; the value is the frame returned and the messages
    reported, in order. *)
Definition load_peak_data (csv : option (list RawPeakRow))
  : DataFrame RawPeakRow * list Diagnostic :=
  match csv with
  | None => (NoColumns, [(Error, ("Peak data file not found: " ++ csv_path)%string)])
  | Some df0 =>
      let initial_rows := List.length df0 in
      let df1 := filter has_critical_data df0 in
      let log1 :=
        if (List.length df1 <? initial_rows)%nat
        then [(Info, ("Removed " ++ str_of_nat (initial_rows - List.length df1)
                       ++ " rows with missing critical data")%string)]
        else [] in
      let df2 := map coerce_numeric_cols df1 in
      let df3 := filter has_numeric_data df2 in
      let invalid := filter invalid_coords df3 in
      if is_nil invalid then (Frame df3, log1)
      else
        (Frame (filter (fun r => negb (invalid_coords r)) df3),
         log1 ++ [(Warning, ("Found " ++ str_of_nat (List.length invalid)
                             ++ " records with invalid genomic coordinates")%string)])
  end.
End Loading.

(** [pd.to_numeric] on strings of decimal digits, for the examples. *)
Definition parse_digits (s : string) : option Q :=
  option_map (fun n => inject_Z (Z.of_nat n)) (py_int s).

(** A file with a clean row, a row whose end is not a number, and a row
    whose start is not below its end. *)
Definition example_csv : list RawPeakRow :=
  [ {| raw_enhancer_id := Some "E1"; raw_chr := Some "chr1";
       raw_start := Str "100"; raw_end := Str "200";
       raw_cell_type := Some "1_Y"; raw_position_index := Num 0;
       raw_accessibility_score := Num 0.5 |};
    {| raw_enhancer_id := Some "E1"; raw_chr := Some "chr1";
       raw_start := Str "100"; raw_end := Str "n/a";
       raw_cell_type := Some "1_Y"; raw_position_index := Num 1;
       raw_accessibility_score := Num 0.5 |};
    {| raw_enhancer_id := Some "E2"; raw_chr := Some "chr2";
       raw_start := Num 300; raw_end := Num 300;
       raw_cell_type := None; raw_position_index := Num 0;
       raw_accessibility_score := Num 0.25 |} ].

Definition example_clean_row : RawPeakRow :=
  {| raw_enhancer_id := Some "E1"; raw_chr := Some "chr1";
     raw_start := Num 100; raw_end := Num 200;
     raw_cell_type := Some "1_Y"; raw_position_index := Num 0;
     raw_accessibility_score := Num 0.5 |}.

(** ** The reconciler *)

(** The columns that the else-branch of the reconciler derives from the
    signal; the two rounded float statistics (mean and maximum score) are
    left out. *)
Record SignalStats : Type := {
  chromosome : option string;
  start_position : Z;
  end_position : Z;
  length_bp : Z;
  num_cell_types : nat;
  total_data_points : nat
}.

(** One row of the value of [extract_hof_enhancers]: the metadata
    columns, the column [cell_type] that the placeholders bring, and the
    derived columns, missing where the row does not have them. *)
Record HofRow : Type := {
  hof_enhancer_id : string;
  hof_cargo : option string;
  hof_experiment : option string;
  hof_cell_type : option string;
  hof_proximal_gene : option string;
  hof_neuroglancer_url : option string;
  hof_gc_delivered : option string;
  hof_stats : option SignalStats
}.

(** [metadata_df['enhancer_id'].isin(hof_enhancer_ids)]. *)
Definition id_isin (ids : list string) (m : MetaRow) : bool :=
  match meta_enhancer_id m with
  | Some e => existsb (String.eqb e) ids
  | None => false
  end.

(** A metadata row that passed [id_isin], as a row of the result. *)
Definition of_metadata (m : MetaRow) : HofRow :=
  {| hof_enhancer_id := py_str (meta_enhancer_id m);
     hof_cargo := meta_cargo m;
     hof_experiment := meta_experiment m;
     hof_cell_type := None;
     hof_proximal_gene := meta_proximal_gene m;
     hof_neuroglancer_url := meta_neuroglancer_url m;
     hof_gc_delivered := meta_gc_delivered m;
     hof_stats := None |}.

(** [peak_data[peak_data['enhancer_id'] == enhancer_id]]. *)
Definition enhancer_peaks (peak_data : list PeakRow) (e : string) : list PeakRow :=
  filter (fun r => enhancer_id r =? e) peak_data.

(** [len(enhancer_peaks['cell_type'].unique())]. *)
Definition count_cell_types (peaks : list PeakRow) : nat :=
  List.length (unique (option_eq_dec string_dec) (map cell_type peaks)).

(** The placeholder of an enhancer that the metadata does not list. *)
Definition placeholder (peak_data : list PeakRow) (e : string) : HofRow :=
  let cell_types := count_cell_types (enhancer_peaks peak_data e) in
  {| hof_enhancer_id := e;
     hof_cargo := Some "Not specified";
     hof_experiment := Some "Not specified";
     hof_cell_type := Some (str_of_nat cell_types ++ " cell types")%string;
     hof_proximal_gene := Some "Not specified";
     hof_neuroglancer_url := Some "";
     hof_gc_delivered := None;
     hof_stats := None |}.

(** The row derived from the signal alone when there is no metadata. *)
Definition enhancer_info (peak_data : list PeakRow) (e : string) : list HofRow :=
  match enhancer_peaks peak_data e with
  | [] => []
  | first_row :: others =>
      let peaks := first_row :: others in
      let cell_types := count_cell_types peaks in
      [ {| hof_enhancer_id := e;
           hof_cargo := Some "Not specified";
           hof_experiment := Some "Hall of Fame Collection";
           hof_cell_type := Some (str_of_nat cell_types ++ " cell types analyzed")%string;
           hof_proximal_gene := Some "Not specified";
           hof_neuroglancer_url := Some "";
           hof_gc_delivered := None;
           hof_stats :=
             Some {| chromosome := chr first_row;
                     start_position := int_of_Q (start first_row);
                     end_position := int_of_Q (end_ first_row);
                     length_bp := int_of_Q (end_ first_row - start first_row);
                     num_cell_types := cell_types;
                     total_data_points := List.length peaks |} |} ]
  end.

(** [sort_values('enhancer_id')].  pandas does not fix the order of rows
    with equal ids; the stable order is taken here. *)
Definition sort_by_enhancer_id (rows : list HofRow) : list HofRow :=
  sorted_by hof_enhancer_id String.leb rows.

(** [extract_hof_enhancers(self, metadata_df, peak_data)].  The set of the
    missing enhancers is walked in the order of first appearance in the
    signal; the sort that follows fixes where the placeholders go. *)
Definition extract_hof_enhancers (metadata_df : DataFrame MetaRow)
  (peak_data : DataFrame PeakRow) : DataFrame HofRow :=
  if empty peak_data then NoColumns
  else
    let peaks := rows_of peak_data in
    let hof_enhancer_ids := unique string_dec (map enhancer_id peaks) in
    let hof_metadata :=
      if negb (empty metadata_df) then
        let kept := filter (id_isin hof_enhancer_ids) (rows_of metadata_df) in
        let missing_enhancers :=
          filter
            (fun e => negb (existsb (fun m => cell_is (meta_enhancer_id m) e) kept))
            hof_enhancer_ids in
        map of_metadata kept ++ map (placeholder peaks) missing_enhancers
      else flat_map (enhancer_info peaks) hof_enhancer_ids in
    Frame (sort_by_enhancer_id hof_metadata).

(** ** The metadata file *)

(** What is found at the path of the feather file. *)
Inductive FeatherFile : Type :=
| Absent : FeatherFile
| Unreadable (message : string) : FeatherFile
| WithoutEnhancerID : FeatherFile
| Table (rows : list MetaRow) : FeatherFile.

Definition feather_path : string :=
  "attached_assets/Enhancer_and_experiment_metadata_1751044039206.feather".

(** [load_metadata(self)].  The renaming of the columns changes no value:
    a row of [Table] is given with the fields under their new names. *)
Definition load_metadata (file : FeatherFile) : DataFrame MetaRow * list Diagnostic :=
  match file with
  | Absent =>
      (NoColumns, [(Warning, ("Metadata file not found: " ++ feather_path)%string)])
  | Unreadable message =>
      (NoColumns,
       [(Warning, ("Could not load feather metadata file: " ++ message)%string)])
  | WithoutEnhancerID =>
      (NoColumns, [(Warning, "Metadata file missing Enhancer_ID column")])
  | Table rows =>
      (Frame (filter
                (fun m => match meta_enhancer_id m with
                          | Some e => negb (e =? "")
                          | None => false
                          end) rows), [])
  end.

(** ** Validation *)








(** A metadata file with a row without id and a row with an empty id. *)
Definition example_feather : FeatherFile :=
  Table
    [ {| meta_enhancer_id := Some "E1"; meta_cargo := Some "AAV9";
         meta_experiment := Some "epi"; meta_proximal_gene := None;
         meta_gc_delivered := None; meta_neuroglancer_url := None |};
      {| meta_enhancer_id := None; meta_cargo := Some "AAV9";
         meta_experiment := None; meta_proximal_gene := None;
         meta_gc_delivered := None; meta_neuroglancer_url := None |};
      {| meta_enhancer_id := Some ""; meta_cargo := None;
         meta_experiment := None; meta_proximal_gene := None;
         meta_gc_delivered := None; meta_neuroglancer_url := None |} ].

(** A file in which a row is lost to a start that is not a number, and no
    row lacks its id or score or has its start above its end. *)
Definition example_csv_silent : list RawPeakRow :=
  [ {| raw_enhancer_id := Some "E1"; raw_chr := Some "chr1";
       raw_start := Str "100"; raw_end := Str "200";
       raw_cell_type := Some "1_Y"; raw_position_index := Num 0;
       raw_accessibility_score := Num 0.5 |};
    {| raw_enhancer_id := Some "E1"; raw_chr := Some "chr1";
       raw_start := Str "unknown"; raw_end := Str "200";
       raw_cell_type := Some "1_Y"; raw_position_index := Num 1;
       raw_accessibility_score := Num 0.5 |} ].


End DataProcessor.

(** * The processor of the chunked CSV files *)

Definition PeakRow_eq_dec (x y : PeakRow) : {x = y} + {x <> y}.
Proof.
  decide equality;
    try apply Q_eq_dec; try apply string_dec;
    apply (option_eq_dec string_dec).
Defined.

Module DataProcessorChunked.

(** [fnmatch] for a pattern of literal characters and [*]. *)
Fixpoint glob_match (pattern name : string) : bool :=
  match pattern with
  | EmptyString => match name with EmptyString => true | _ => false end
  | String p pattern' =>
      if Ascii.eqb p "*" then
        (fix star (rest : string) : bool :=
           glob_match pattern' rest
           || match rest with
              | EmptyString => false
              | String _ rest' => star rest'
              end) name
      else
        match name with
        | EmptyString => false
        | String c name' => Ascii.eqb p c && glob_match pattern' name'
        end
  end.

Definition chunk_patterns : list string :=
  [ "part1*chunk*.csv"; "part2*chunk*.csv";
    "part3*chunk*.csv"; "part4*chunk*.csv" ].

Section Loading.
(** The rows of the chunk files, compared column by column. *)
Context {Row : Type}.
Variable Row_eq_dec : forall x y : Row, {x = y} + {x <> y}.

(** The directory [data_chunks]: the files by name, with the rows
    [read_csv] reads from each. *)
Definition Directory : Type := list (string * list Row).

(** [glob.glob(os.path.join(self.data_dir, pattern))] followed by
    [chunk_files.sort()]. *)
Definition chunk_files (dir : Directory) (pattern : string) : Directory :=
  sorted_by fst String.leb (filter (fun file => glob_match pattern (fst file)) dir).

(** The lines printed while the files of one pattern are read. *)
Definition loading_lines (pattern : string) (files : Directory) : list Diagnostic :=
  if is_nil files then []
  else
    (Printed, ("Loading " ++ str_of_nat (List.length files)
               ++ " chunks for pattern " ++ pattern)%string)
    :: map (fun file =>
              (Printed, ("  Loaded " ++ fst file ++ ": "
                         ++ format_thousands (List.length (snd file)) ++ " rows")%string))
         files.

(** [all_chunks] at the end of the loop over the patterns. *)
Definition all_chunks (dir : Directory) : list (list Row) :=
  flat_map (fun pattern => map snd (chunk_files dir pattern)) chunk_patterns.

(** [pd.concat(all_chunks, ignore_index=True)]. *)
Definition combined (dir : Directory) : list Row := List.concat (all_chunks dir).

(** [load_peak_data(self)]: the frame returned, [None] for Python's
    [None], and the lines printed. *)
Definition load_peak_data (dir : Directory)
  : option (DataFrame Row) * list Diagnostic :=
  let log := flat_map (fun pattern => loading_lines pattern (chunk_files dir pattern))
               chunk_patterns in
  if is_nil (all_chunks dir) then (None, log ++ [(Printed, "No chunk files found")])
  else
    let combined_df := combined dir in
    let log1 :=
      log ++ [(Printed, ("Combined all chunks: "
                         ++ format_thousands (List.length combined_df)
                         ++ " total rows")%string)] in
    let original_length := List.length combined_df in
    let deduplicated := unique Row_eq_dec combined_df in
    if (List.length deduplicated <? original_length)%nat then
      (Some (Frame deduplicated),
       log1 ++ [(Printed, ("Removed "
                           ++ format_thousands (original_length - List.length deduplicated)
                           ++ " duplicate rows")%string)])
    else (Some (Frame deduplicated), log1).
End Loading.

(** ** The reconciler *)

(** The representative metadata of an enhancer after the left merge. *)
Record MetadataSummary : Type := {
  cargo : option string;
  experiment : option string;
  proximal_gene : option string
}.

(** One row of the value of [extract_hof_enhancers]; [hof_metadata] is
    [None] when the frame has no metadata columns. *)
Record HofRow : Type := {
  hof_enhancer_id : string;
  hof_chr : option string;
  hof_start : Q;
  hof_end : Q;
  hof_metadata : option MetadataSummary
}.

(** [GroupBy.first()] on one column of one group: the first value that is
    not missing. *)
Fixpoint first_valid (column : list (option string)) : option string :=
  match column with
  | [] => None
  | Some v :: _ => Some v
  | None :: rest => first_valid rest
  end.

(** The row of [metadata_df.groupby('enhancer_id').first()] that the left
    merge joins to the enhancer [e]; all missing when the metadata has no
    row for [e]. *)
Definition metadata_summary (metadata : list MetaRow) (e : string) : MetadataSummary :=
  let group := filter (fun m => cell_is (meta_enhancer_id m) e) metadata in
  {| cargo := first_valid (map meta_cargo group);
     experiment := first_valid (map meta_experiment group);
     proximal_gene := first_valid (map meta_proximal_gene group) |}.

(** The entry of [hof_enhancers] for one enhancer id. *)
Definition base_info (peak_data : list PeakRow) (e : string) : list HofRow :=
  match filter (fun r => enhancer_id r =? e) peak_data with
  | [] => []
  | first_row :: _ =>
      [ {| hof_enhancer_id := e;
           hof_chr := chr first_row;
           hof_start := start first_row;
           hof_end := end_ first_row;
           hof_metadata := None |} ]
  end.

Definition with_metadata (metadata : list MetaRow) (h : HofRow) : HofRow :=
  {| hof_enhancer_id := hof_enhancer_id h;
     hof_chr := hof_chr h;
     hof_start := hof_start h;
     hof_end := hof_end h;
     hof_metadata := Some (metadata_summary metadata (hof_enhancer_id h)) |}.

(** [extract_hof_enhancers(self, metadata_df, peak_data)]; [None] is
    Python's [None]. *)
Definition extract_hof_enhancers (metadata_df : option (DataFrame MetaRow))
  (peak_data : option (DataFrame PeakRow)) : DataFrame HofRow :=
  match peak_data with
  | None => NoColumns
  | Some peak_df =>
      if empty peak_df then NoColumns
      else
        let peaks := rows_of peak_df in
        let hof_enhancer_ids := unique string_dec (map enhancer_id peaks) in
        let hof_df := flat_map (base_info peaks) hof_enhancer_ids in
        match metadata_df with
        | None => Frame hof_df
        | Some metadata =>
            if empty metadata then Frame hof_df
            else Frame (map (with_metadata (rows_of metadata)) hof_df)
        end
  end.


(** The value that [GroupBy.first()] gives for one column of a group, in
    words: missing when the column is missing in every row of the group,
    otherwise the value of the earliest row that has one. *)
Definition first_value_of (column : MetaRow -> option string)
  (group : list MetaRow) (v : option string) : Prop :=
  match v with
  | None => forall m, In m group -> column m = None
  | Some c =>
      exists before m after,
        group = before ++ m :: after /\ column m = Some c /\
        forall x, In x before -> column x = None
  end.

(** Metadata in which the first row of E1 has no cargo and the second has
    no experiment. *)
Definition example_metadata_mixed : list MetaRow :=
  [ {| meta_enhancer_id := Some "E1"; meta_cargo := None;
       meta_experiment := Some "epi"; meta_proximal_gene := None;
       meta_gc_delivered := None; meta_neuroglancer_url := None |};
    {| meta_enhancer_id := Some "E1"; meta_cargo := Some "AAV9";
       meta_experiment := None; meta_proximal_gene := None;
       meta_gc_delivered := None; meta_neuroglancer_url := None |} ].

(** ** Examples *)

(** Two chunk files that hold the same row 400 and 600 times, and a file
    that is not a chunk. *)
Definition example_directory : Directory (Row := PeakRow) :=
  [ ("part1_chunk_002.csv", repeat (peak_row "E1" (Some "1_Y") 0 0.5) 600);
    ("part1_chunk_001.csv", repeat (peak_row "E1" (Some "1_Y") 0 0.5) 400);
    ("notes.txt", [peak_row "E7" None 0 0]) ].

(** A chunk file with a row whose start is not below its end. *)
Definition reversed_row : PeakRow :=
  {| enhancer_id := "E1"; chr := Some "chr1"; start := 10; end_ := 5;
     cell_type := Some "1_Y"; position_index := 0; accessibility_score := 0.5 |}.

Definition example_reversed : Directory (Row := PeakRow) :=
  [ ("part1_chunk_001.csv", [reversed_row]) ].

(** Metadata that lists E1 only, and a signal with three rows of E9. *)
Definition example_metadata_E1 : list MetaRow :=
  [ {| meta_enhancer_id := Some "E1"; meta_cargo := Some "AAV9";
       meta_experiment := Some "epi"; meta_proximal_gene := Some "Gad1";
       meta_gc_delivered := None; meta_neuroglancer_url := None |} ].

Definition example_signal_E9 : list PeakRow :=
  [ peak_row "E9" (Some "1_Y") 0 0.1; peak_row "E9" (Some "2_X") 0 0.2;
    peak_row "E9" (Some "1_Y") 1 0.3 ].

(** A signal in which enhancer B comes before enhancer A. *)
Definition example_signal_B_A : list PeakRow :=
  [ peak_row "B" (Some "1_Y") 0 0.1; peak_row "A" (Some "1_Y") 0 0.2 ].

End DataProcessorChunked.

(** * The application module: sorting key, widgets and the selection *)

Module AppSession.

(** The sort key of the application module: a number, or [float('inf')]. *)
Inductive SortKey : Type :=
| Number (n : N)
| Infinity.

(** The run of digits that starts at the first digit of [s], if any. *)
Fixpoint first_digit_run (s : string) : string :=
  match s with
  | EmptyString => EmptyString
  | String c s' =>
      if VisualizationGenerator.is_digit c
      then VisualizationGenerator.leading_digits s
      else first_digit_run s'
  end.

(** [extract_cell_type_number(cell_type)] of the application module. *)
Definition extract_cell_type_number (cell_type : option string) : SortKey :=
  match cell_type with
  | None => Infinity
  | Some cell_type_str =>
      match first_digit_run cell_type_str with
      | EmptyString => Infinity
      | num_str => Number (VisualizationGenerator.digits_value 0 num_str)
      end
  end.


(** [l.index(x)]: the place of the first occurrence; it is only called
    when [x] is in [l]. *)
Fixpoint list_index (x : string) (l : list string) : nat :=
  match l with
  | [] => 0
  | y :: l' => if y =? x then 0 else S (list_index x l')
  end.

(** The [index] argument of each [st.sidebar.selectbox]:
    [0 if state == 'All' or state not in options
       else options.index(state) + 1]. *)
Definition selectbox_index (state : string) (options : list string) : nat :=
  if (state =? "All") || negb (existsb (String.eqb state) options) then 0
  else S (list_index state options).

(** The choices of the widget, [["All"] + options], and the one it shows
    before the user touches it. *)
Definition selectbox_default (state : string) (options : list string) : string :=
  nth (selectbox_index state options) ("All" :: options) "All".

(** The six values read from the widgets. *)
Record Selection : Type := {
  selected_enhancer : string;
  selected_cargo : string;
  selected_experiment : string;
  selected_gene : string;
  selected_gc_delivered : string;
  selected_cell_type : string
}.

(** The dict stored in [st.session_state.filter_state]. *)
Definition filter_state (s : Selection) : list (string * string) :=
  [ ("enhancer", selected_enhancer s); ("cargo", selected_cargo s);
    ("experiment", selected_experiment s); ("gene", selected_gene s);
    ("gc_delivered", selected_gc_delivered s);
    ("cell_type", selected_cell_type s) ].

(** [any(filter_val != "All" for filter_val in [...])] over the four
    metadata selections. *)
Definition any_metadata_filter (s : Selection) : bool :=
  negb (selected_cargo s =? "All") || negb (selected_experiment s =? "All")
  || negb (selected_gene s =? "All") || negb (selected_gc_delivered s =? "All").

(** One of the four steps [if selected != "All":
    filtered_metadata = filtered_metadata[column == selected]]. *)
Definition narrow (column : MetaRow -> option string) (selected : string)
  (filtered_metadata : list MetaRow) : list MetaRow :=
  if negb (selected =? "All")
  then filter (fun m => cell_is (column m) selected) filtered_metadata
  else filtered_metadata.

Definition filtered_metadata (s : Selection) (enhancer_metadata : list MetaRow)
  : list MetaRow :=
  narrow meta_gc_delivered (selected_gc_delivered s)
    (narrow meta_proximal_gene (selected_gene s)
       (narrow meta_experiment (selected_experiment s)
          (narrow meta_cargo (selected_cargo s) enhancer_metadata))).

(** [enhancer_ids_to_include] once the metadata filters are applied; the
    set is listed in the order of [hof_enhancers]. *)
Definition enhancer_ids_to_include (s : Selection)
  (enhancer_metadata : list MetaRow)
  (hof_enhancers : list DataProcessorChunked.HofRow) : list string :=
  let all_ids :=
    unique string_dec (map DataProcessorChunked.hof_enhancer_id hof_enhancers) in
  if any_metadata_filter s then
    let matching := filtered_metadata s enhancer_metadata in
    filter (fun e => existsb (fun m => cell_is (meta_enhancer_id m) e) matching)
      all_ids
  else all_ids.

(** [drop_duplicates(subset=['enhancer_id'], keep='first')]. *)
Fixpoint first_per_enhancer (rows : list DataProcessorChunked.HofRow)
  : list DataProcessorChunked.HofRow :=
  match rows with
  | [] => []
  | h :: rest =>
      h :: filter
             (fun h' => negb (DataProcessorChunked.hof_enhancer_id h'
                              =? DataProcessorChunked.hof_enhancer_id h))
             (first_per_enhancer rest)
  end.

(** What a stretch of the script leaves behind: the names it binds, or the
    [NameError] of the first name read before it is bound. *)
Inductive script (A : Type) : Type :=
| Bound (a : A)
| NameError (name : string).
Arguments Bound {A} a.
Arguments NameError {A} name.

(** The lines from [# Apply metadata filters] to the test
    [if filtered_enhancers.empty]: the values of [filtered_enhancers] and
    [relevant_metadata] that the display code reads.  Both names are
    assigned inside the branch of a present, non-empty metadata table. *)
Definition apply_metadata_filters (s : Selection)
  (enhancer_metadata : option (DataFrame MetaRow))
  (hof_enhancers : list DataProcessorChunked.HofRow)
  : script (list DataProcessorChunked.HofRow * list MetaRow) :=
  match enhancer_metadata with
  | None => NameError "filtered_enhancers"
  | Some df =>
      if empty df then NameError "filtered_enhancers"
      else
        let ids := enhancer_ids_to_include s (rows_of df) hof_enhancers in
        let filtered_enhancers :=
          first_per_enhancer
            (filter
               (fun h => existsb (String.eqb (DataProcessorChunked.hof_enhancer_id h)) ids)
               hof_enhancers) in
        let relevant_metadata :=
          filter
            (fun m => match meta_enhancer_id m with
                      | Some e => existsb (String.eqb e) ids
                      | None => false
                      end)
            (rows_of df) in
        Bound (filtered_enhancers, relevant_metadata)
  end.

(** The chart of the detail view: the track plot of the enhancer, replaced
    by the plot of the selected cell type when the enhancer has rows of it.
    Both plots are drawn on the one generator of the session. *)
Definition detail_chart (cell_type_colors : VisualizationGenerator.ColorMap)
  (enhancer_peak_data : list PeakRow) (enhancer_id : string)
  (selected_cell_type : string)
  : VisualizationGenerator.Figure * VisualizationGenerator.ColorMap :=
  let (fig, d) :=
    VisualizationGenerator.create_peak_visualization cell_type_colors
      (Frame enhancer_peak_data) enhancer_id in
  if negb (selected_cell_type =? "All") then
    let cell_type_data := filter (has_cell_type selected_cell_type) enhancer_peak_data in
    if negb (is_nil cell_type_data) then
      VisualizationGenerator.create_peak_visualization d (Frame cell_type_data)
        enhancer_id
    else (fig, d)
  else (fig, d).

(** ** The loader of the application module *)

(** [st.info], [st.success] and [st.error] of the loader. *)
Inductive Notice : Type :=
| StInfo (text : string)
| StSuccess (text : string)
| StError (text : string).

(** The four files of [GitHubDataProcessor.load_peak_data]. *)
Definition file_paths : list string :=
  [ "data/part1 (1)_1751576434359.csv"; "data/part2 (1)_1751576437893.csv";
    "data/part3_1751576441401.csv"; "data/part4_1751576447956.csv" ].

(** [os.path.basename(path)]. *)
Fixpoint basename (path : string) : string :=
  match path with
  | EmptyString => EmptyString
  | String c rest =>
      if existsb (Ascii.eqb "/") (list_ascii_of_string rest) then basename rest
      else if Ascii.eqb c "/" then rest else path
  end.

(** [f"{paths}"] for a list of the paths above: none of them has a quote
    or a character that [repr] escapes. *)
Definition repr_paths (paths : list string) : string :=
  ("[" ++ String.concat ", " (map (fun p => "'" ++ p ++ "'") paths) ++ "]")%string.

Section AppLoading.
Context {Row : Type}.
(** The content of the file at a path, [None] when there is no file. *)
Variable read_csv : string -> option (list Row).

(** The loop [for file_path in file_paths: if os.path.exists(file_path)]. *)
Fixpoint load_parts (paths : list string) : list (list Row) * list Notice :=
  match paths with
  | [] => ([], [])
  | file_path :: rest =>
      let (dfs, log) := load_parts rest in
      match read_csv file_path with
      | Some df =>
          (df :: dfs,
           StInfo ("Loaded " ++ str_of_nat (List.length df) ++ " records from "
                   ++ basename file_path) :: log)
      | None => (dfs, log)
      end
  end.

(** [GitHubDataProcessor.load_peak_data(self)]. *)
Definition load_peak_data : option (DataFrame Row) * list Notice :=
  let missing_files :=
    filter (fun f => match read_csv f with Some _ => false | None => true end)
      file_paths in
  if negb (is_nil missing_files) then
    (None, [StError ("Missing peak data files: " ++ repr_paths missing_files)])
  else
    let (dfs, log) := load_parts file_paths in
    if is_nil dfs then (None, log ++ [StError "No peak data files found"])
    else
      let combined_df := List.concat dfs in
      (Some (Frame combined_df),
       log ++ [StSuccess ("Combined peak data: "
                          ++ str_of_nat (List.length combined_df)
                          ++ " total records")]).
End AppLoading.

(** A data directory without its third part. *)
Definition example_read_csv (path : string) : option (list nat) :=
  if path =? "data/part1 (1)_1751576434359.csv" then Some [1%nat; 2%nat]
  else if path =? "data/part2 (1)_1751576437893.csv" then Some [2%nat]
  else if path =? "data/part4_1751576447956.csv" then Some []
  else None.

(** A metadata row meets the four metadata selections: each selection
    other than "All" is the value of the row in its column. *)
Definition meets_selection (s : Selection) (m : MetaRow) : Prop :=
  (selected_cargo s <> "All" -> meta_cargo m = Some (selected_cargo s)) /\
  (selected_experiment s <> "All" -> meta_experiment m = Some (selected_experiment s)) /\
  (selected_gene s <> "All" -> meta_proximal_gene m = Some (selected_gene s)) /\
  (selected_gc_delivered s <> "All" ->
   meta_gc_delivered m = Some (selected_gc_delivered s)).

(** A selection with cargo AAV9 and the rest "All", and the enhancers E1
    and E2 as the chunked reconciler lists them. *)
Definition example_selection : Selection :=
  {| selected_enhancer := "All"; selected_cargo := "AAV9";
     selected_experiment := "All"; selected_gene := "All";
     selected_gc_delivered := "All"; selected_cell_type := "All" |}.

Definition example_hof : list DataProcessorChunked.HofRow :=
  [ {| DataProcessorChunked.hof_enhancer_id := "E1";
       DataProcessorChunked.hof_chr := Some "chr1";
       DataProcessorChunked.hof_start := 100;
       DataProcessorChunked.hof_end := 200;
       DataProcessorChunked.hof_metadata := None |};
    {| DataProcessorChunked.hof_enhancer_id := "E2";
       DataProcessorChunked.hof_chr := Some "chr2";
       DataProcessorChunked.hof_start := 300;
       DataProcessorChunked.hof_end := 400;
       DataProcessorChunked.hof_metadata := None |} ].

End AppSession.

(** * Facts about the primitives *)

Section UniqueFacts.
Context {A : Type}.
Variable eq_dec : forall x y : A, {x = y} + {x <> y}.

Lemma unique_In (l : list A) (x : A) : In x (unique eq_dec l) <-> In x l.
Proof.
  induction l as [|a l IH]; simpl; [tauto|].
  rewrite filter_In, IH. unfold other_than.
  destruct (eq_dec a x) as [->|Hne]; [tauto|].
  intuition congruence.
Qed.

Lemma unique_NoDup (l : list A) : NoDup (unique eq_dec l).
Proof.
  induction l as [|a l IH]; simpl; constructor.
  - rewrite filter_In. unfold other_than. intros [_ H].
    destruct (eq_dec a a); congruence.
  - now apply NoDup_filter.
Qed.


End UniqueFacts.

Lemma dropna_In {A : Type} (l : list (option A)) (x : A) :
  In x (dropna l) <-> In (Some x) l.
Proof.
  induction l as [|[a|] l IH]; simpl; [tauto| |].
  - rewrite IH. intuition congruence.
  - rewrite IH. intuition congruence.
Qed.

Lemma cell_is_true (c : option string) (v : string) :
  cell_is c v = true <-> c = Some v.
Proof.
  destruct c as [s|]; simpl; [|intuition congruence].
  rewrite String.eqb_eq. intuition congruence.
Qed.

Lemma filter_filter {A : Type} (p q : A -> bool) (l : list A) :
  filter p (filter q l) = filter (fun x => q x && p x) l.
Proof.
  induction l as [|a l IH]; simpl; [reflexivity|].
  destruct (q a); simpl; [destruct (p a)|]; now rewrite IH.
Qed.

Lemma is_nil_true {A : Type} (l : list A) : is_nil l = true <-> l = [].
Proof. destruct l; simpl; intuition congruence. Qed.

(** ** The order on strings *)

Lemma ascii_compare_eq (a b : ascii) : Ascii.compare a b = Eq <-> a = b.
Proof.
  split; [apply Ascii.compare_eq_iff|].
  intros ->. unfold Ascii.compare. apply N.compare_refl.
Qed.

Lemma string_compare_refl (s : string) : String.compare s s = Eq.
Proof.
  induction s as [|a s IH]; simpl; [reflexivity|].
  now rewrite (proj2 (ascii_compare_eq a a) eq_refl).
Qed.

Lemma string_compare_trans (c : comparison) (s1 s2 s3 : string) :
  String.compare s1 s2 = c -> String.compare s2 s3 = c ->
  String.compare s1 s3 = c.
Proof.
  revert s2 s3.
  induction s1 as [|a s1 IH]; intros [|b s2] [|d s3]; simpl;
    try congruence.
  unfold Ascii.compare.
  destruct (N.compare_spec (N_of_ascii a) (N_of_ascii b)) as [Hab|Hab|Hab];
    destruct (N.compare_spec (N_of_ascii b) (N_of_ascii d)) as [Hbd|Hbd|Hbd];
    destruct (N.compare_spec (N_of_ascii a) (N_of_ascii d)) as [Had|Had|Had];
    try lia; try congruence; intros; subst; try congruence.
  eapply IH; eauto.
Qed.

Lemma str_lt_trans (s1 s2 s3 : string) :
  str_lt s1 s2 -> str_lt s2 s3 -> str_lt s1 s3.
Proof. apply string_compare_trans. Qed.

Lemma str_lt_irrefl (s : string) : ~ str_lt s s.
Proof. unfold str_lt. rewrite string_compare_refl. discriminate. Qed.

Lemma str_le_lt_or_eq (s1 s2 : string) :
  str_le s1 s2 <-> str_lt s1 s2 \/ s1 = s2.
Proof.
  unfold str_le, str_lt, String.leb.
  destruct (String.compare s1 s2) eqn:E.
  - apply String.compare_eq_iff in E. intuition.
  - intuition.
  - split; [discriminate|]. intros [H|H]; [discriminate|].
    subst. rewrite string_compare_refl in E. discriminate.
Qed.

Lemma str_le_trans (s1 s2 s3 : string) :
  str_le s1 s2 -> str_le s2 s3 -> str_le s1 s3.
Proof.
  rewrite !str_le_lt_or_eq.
  intros [H1 | ->] [H2 | ->]; auto.
  left. eapply str_lt_trans; eauto.
Qed.

(** ** The stable sort *)

Section SortedByFacts.
Context {A K : Type}.
Variable key : A -> K.
Variable leb : K -> K -> bool.

Lemma insert_by_perm (x : A) (l : list A) :
  Permutation (insert_by key leb x l) (x :: l).
Proof.
  induction l as [|y l IH]; simpl; [reflexivity|].
  destruct (leb (key x) (key y)); [reflexivity|].
  rewrite IH. apply perm_swap.
Qed.

Lemma sorted_by_perm (l : list A) : Permutation (sorted_by key leb l) l.
Proof.
  induction l as [|x l IH]; simpl; [reflexivity|].
  rewrite insert_by_perm. now constructor.
Qed.

Lemma sorted_by_In (l : list A) (x : A) :
  In x (sorted_by key leb l) <-> In x l.
Proof.
  split; apply Permutation_in;
    [apply sorted_by_perm | symmetry; apply sorted_by_perm].
Qed.

Lemma sorted_by_length (l : list A) :
  List.length (sorted_by key leb l) = List.length l.
Proof. apply Permutation_length, sorted_by_perm. Qed.

Hypothesis leb_total : forall a b, leb a b = true \/ leb b a = true.
Hypothesis leb_trans :
  forall a b c, leb a b = true -> leb b c = true -> leb a c = true.

Lemma insert_by_sorted (x : A) (l : list A) :
  StronglySorted (key_le key leb) l ->
  StronglySorted (key_le key leb) (insert_by key leb x l).
Proof.
  induction 1 as [|y l Hs IH Hall]; simpl.
  - repeat constructor.
  - destruct (leb (key x) (key y)) eqn:E.
    + constructor; [now constructor|].
      constructor; [exact E|].
      eapply Forall_impl; [|exact Hall].
      intros z Hz. eapply leb_trans; eauto.
    + constructor; [exact IH|].
      eapply Permutation_Forall; [symmetry; apply insert_by_perm|].
      constructor; [|exact Hall].
      destruct (leb_total (key x) (key y)); [congruence|assumption].
Qed.

Lemma sorted_by_sorted (l : list A) :
  StronglySorted (key_le key leb) (sorted_by key leb l).
Proof.
  induction l as [|x l IH]; simpl; [constructor|].
  now apply insert_by_sorted.
Qed.

Lemma insert_by_stable (k : K) (x : A) (l : list A) :
  filter (same_key key leb k) (insert_by key leb x l)
  = filter (same_key key leb k) (x :: l).
Proof.
  induction l as [|y l IH]; [reflexivity|].
  cbn [insert_by].
  destruct (leb (key x) (key y)) eqn:E; [reflexivity|].
  cbn [filter] in *. rewrite IH.
  destruct (same_key key leb k y) eqn:Hy; [|reflexivity].
  destruct (same_key key leb k x) eqn:Hx; [|reflexivity].
  unfold same_key in Hx, Hy.
  apply andb_prop in Hx as [Hx _]. apply andb_prop in Hy as [_ Hy].
  rewrite (leb_trans _ _ _ Hx Hy) in E. discriminate.
Qed.

(** Stability: restricted to one class of keys, the sorted list is the
    input list. *)
Lemma sorted_by_stable (k : K) (l : list A) :
  filter (same_key key leb k) (sorted_by key leb l)
  = filter (same_key key leb k) l.
Proof.
  induction l as [|x l IH]; [reflexivity|].
  cbn [sorted_by fold_right]. rewrite insert_by_stable.
  cbn [filter]. fold (sorted_by key leb l). now rewrite IH.
Qed.
End SortedByFacts.

Lemma sorted_le (l : list string) : StronglySorted str_le (sorted l).
Proof.
  apply (sorted_by_sorted (fun s => s) String.leb).
  - apply String.leb_total.
  - apply str_le_trans.
Qed.

Lemma sorted_In (l : list string) (s : string) : In s (sorted l) <-> In s l.
Proof. apply sorted_by_In. Qed.

Lemma sorted_NoDup (l : list string) : NoDup l -> NoDup (sorted l).
Proof. apply Permutation_NoDup. symmetry. apply sorted_by_perm. Qed.

Lemma le_NoDup_lt (l : list string) :
  StronglySorted str_le l -> NoDup l -> StronglySorted str_lt l.
Proof.
  induction 1 as [|a l Hs IH Hall]; intros Hnd; [constructor|].
  inversion Hnd as [|? ? Hnotin Hnd']; subst.
  constructor; [auto|].
  rewrite Forall_forall in *. intros x Hx.
  destruct (proj1 (str_le_lt_or_eq a x) (Hall x Hx)) as [H|H]; [exact H|].
  subst. contradiction.
Qed.

(** A strictly ascending list is determined by its elements. *)
Lemma strictly_sorted_ext (l1 l2 : list string) :
  StronglySorted str_lt l1 -> StronglySorted str_lt l2 ->
  (forall s, In s l1 <-> In s l2) -> l1 = l2.
Proof.
  intros H1. revert l2.
  induction H1 as [|a l1 Hs1 IH Hall1]; intros l2 H2 Hext.
  - destruct l2 as [|b l2]; [reflexivity|].
    exfalso. apply (proj2 (Hext b)). now left.
  - destruct H2 as [|b l2 Hs2 Hall2].
    + exfalso. apply (proj1 (Hext a)). now left.
    + rewrite Forall_forall in Hall1, Hall2.
      assert (a = b) as ->.
      { destruct (proj1 (Hext a) (or_introl eq_refl)) as [E|Ha]; [now symmetry|].
        destruct (proj2 (Hext b) (or_introl eq_refl)) as [E|Hb]; [exact E|].
        exfalso. apply (str_lt_irrefl a).
        eapply str_lt_trans; [apply Hall1, Hb|apply Hall2, Ha]. }
      f_equal. apply IH; [exact Hs2|].
      intros s. split; intros Hin.
      * destruct (proj1 (Hext s) (or_intror Hin)) as [E|H]; [|exact H].
        subst. exfalso. apply (str_lt_irrefl s), Hall1, Hin.
      * destruct (proj2 (Hext s) (or_intror Hin)) as [E|H]; [|exact H].
        subst. exfalso. apply (str_lt_irrefl s), Hall2, Hin.
Qed.

(** * The facet filter engine *)

Lemma apply_filter_passes (exclude_filter : string) (temp : list MetaRow)
  (filter_name filter_value : string) :
  App.apply_filter exclude_filter temp (filter_name, filter_value)
  = filter (App.passes exclude_filter filter_name filter_value) temp.
Proof.
  unfold App.apply_filter, App.passes.
  assert (Hid : filter (fun _ : MetaRow => true) temp = temp).
  { apply forallb_filter_id, forallb_forall. reflexivity. }
  destruct (negb (filter_name =? exclude_filter) && negb (filter_value =? "All"));
    [|now rewrite Hid].
  repeat match goal with
         | |- context [if ?b then _ else _] => destruct b; [reflexivity|]
         end.
  now rewrite Hid.
Qed.

Lemma get_options_for_filter_mask (selected_filters : list (string * string))
  (base : list MetaRow) (exclude_filter : string) :
  App.get_options_for_filter selected_filters base exclude_filter
  = filter
      (fun r =>
         forallb (fun item => App.passes exclude_filter (fst item) (snd item) r)
           selected_filters)
      base.
Proof.
  unfold App.get_options_for_filter.
  revert base.
  induction selected_filters as [|[n v] sel IH]; intros base; cbn [fold_left].
  - symmetry. apply forallb_filter_id, forallb_forall. reflexivity.
  - rewrite apply_filter_passes, IH, filter_filter. reflexivity.
Qed.

Lemma passes_constraint (f : App.facet) (filter_name filter_value : string)
  (r : MetaRow) :
  App.passes (App.facet_name f) filter_name filter_value r = true <->
  (filter_name <> App.facet_name f -> filter_value <> "All" ->
   App.constraint_holds r filter_name filter_value).
Proof.
  unfold App.passes, App.constraint_holds.
  destruct (String.eqb_spec filter_name (App.facet_name f)) as [Hex|Hex];
    [simpl; intuition congruence|].
  destruct (String.eqb_spec filter_value "All") as [Hall|Hall];
    [simpl; intuition congruence|].
  cbn [negb andb].
  split.
  - intros H _ _ g Hg. subst filter_name.
    destruct g; cbn in H |- *; now apply cell_is_true.
  - intros H. specialize (H Hex Hall).
    repeat match goal with
           | |- (if (?a =? ?b)%string then _ else _) = true =>
               destruct (String.eqb_spec a b)
           end; try reflexivity; apply cell_is_true.
    + apply (H App.Enhancer). now symmetry.
    + apply (H App.Cargo). now symmetry.
    + apply (H App.Experiment). now symmetry.
    + apply (H App.Gene). now symmetry.
    + apply (H App.GcDelivered). now symmetry.
Qed.

Lemma get_options_for_filter_In (selected_filters : list (string * string))
  (base : list MetaRow) (f : App.facet) (r : MetaRow) :
  In r (App.get_options_for_filter selected_filters base (App.facet_name f)) <->
  In r base /\ App.co_filtered selected_filters f r.
Proof.
  rewrite get_options_for_filter_mask, filter_In, forallb_forall.
  unfold App.co_filtered.
  split; intros [Hin H]; split; try exact Hin.
  - intros n v Hnv. apply passes_constraint. apply (H (n, v) Hnv).
  - intros [n v] Hnv. apply passes_constraint. now apply H.
Qed.

Lemma available_In (column : MetaRow -> option string) (md : list MetaRow)
  (v : string) :
  In v (App.available column md) <->
  v <> "" /\ exists r, In r md /\ column r = Some v.
Proof.
  unfold App.available.
  destruct md as [|r0 md]; cbn [is_nil].
  - split; [contradiction|]. intros [_ [r [[] _]]].
  - rewrite sorted_In, filter_In, unique_In, dropna_In, in_map_iff, negb_true_iff.
    split.
    + intros [[r [Hr Hin]] Hne]. split; [|now exists r].
      now apply String.eqb_neq.
    + intros [Hne [r [Hin Hr]]]. split; [now exists r|].
      now apply String.eqb_neq.
Qed.

Lemma available_sorted (column : MetaRow -> option string) (md : list MetaRow) :
  StronglySorted str_lt (App.available column md).
Proof.
  unfold App.available.
  destruct (is_nil md); [constructor|].
  apply le_NoDup_lt; [apply sorted_le|].
  apply sorted_NoDup, NoDup_filter, unique_NoDup.
Qed.

Lemma options_of_available (selected_filters : list (string * string))
  (df : DataFrame MetaRow) (f : App.facet) :
  empty df = false ->
  App.options_of (App.get_filtered_options selected_filters (Some df)) f
  = App.available (App.facet_column f)
      (App.get_options_for_filter selected_filters (rows_of df) (App.facet_name f)).
Proof.
  intros He. unfold App.get_filtered_options. rewrite He.
  destruct f; reflexivity.
Qed.

(** The catalog keys are read without [IndexError] or [ValueError]: the
    third field of [cell_type_i] parses to [i]. *)
Lemma cell_type_key_defined :
  map (fun x => match nth_error (split_on "_" x) 2 with
                | Some t => py_int t
                | None => None
                end) App.catalog_labels
  = map Some (seq 1 34).
Proof. vm_compute. reflexivity. Qed.

Lemma base_cell_types_catalog : App.base_cell_types = App.cell_type_catalog.
Proof. vm_compute. reflexivity. Qed.

Lemma co_filtered_options_In (selected_filters : list (string * string))
  (base : list MetaRow) (f : App.facet) (v : string) :
  In v (App.co_filtered_options selected_filters base f) <->
  v <> "" /\
  exists r, In r base /\ App.co_filtered selected_filters f r /\
            App.facet_column f r = Some v.
Proof.
  unfold App.co_filtered_options.
  rewrite sorted_In, unique_In, filter_In, dropna_In, in_map_iff, negb_true_iff,
    String.eqb_neq.
  rewrite <- get_options_for_filter_mask.
  split.
  - intros [[r [Hr Hin]] Hne]. split; [exact Hne|].
    apply get_options_for_filter_In in Hin. exists r. tauto.
  - intros [Hne [r [Hin [Hco Hr]]]]. split; [|exact Hne].
    exists r. split; [exact Hr|]. now apply get_options_for_filter_In.
Qed.

Lemma co_filtered_options_sorted (selected_filters : list (string * string))
  (base : list MetaRow) (f : App.facet) :
  StronglySorted str_lt (App.co_filtered_options selected_filters base f).
Proof.
  apply le_NoDup_lt; [apply sorted_le|].
  apply sorted_NoDup, unique_NoDup.
Qed.

(** C3.  On a non-empty metadata table, the option list of each of the
    five facets that have a metadata column is strictly ascending in the
    order of strings (so its entries are distinct), and holds exactly the
    non-empty values that the facet's column takes in the rows meeting the
    equality constraint of every other facet whose selection is not "All";
    it is the list [co_filtered_options] computes from the table filtered
    once by the conjunction of those constraints. *)
Theorem C3_options_are_co_filtered_values
  (selected_filters : list (string * string)) (df : DataFrame MetaRow)
  (f : App.facet) :
  empty df = false ->
  let options :=
    App.options_of (App.get_filtered_options selected_filters (Some df)) f in
  StronglySorted str_lt options /\
  (forall v, In v options <->
     v <> "" /\
     exists r, In r (rows_of df) /\ App.co_filtered selected_filters f r /\
               App.facet_column f r = Some v) /\
  options = App.co_filtered_options selected_filters (rows_of df) f.
Proof.
  intros He options.
  assert (Hin : forall v, In v options <->
     v <> "" /\
     exists r, In r (rows_of df) /\ App.co_filtered selected_filters f r /\
               App.facet_column f r = Some v).
  { intros v. subst options. rewrite options_of_available by exact He.
    rewrite available_In.
    split; intros [Hne [r H]]; (split; [exact Hne|]); exists r.
    - destruct H as [Hr Hv]. apply get_options_for_filter_In in Hr. tauto.
    - destruct H as [Hr [Hco Hv]]. split; [|exact Hv].
      now apply get_options_for_filter_In. }
  assert (Hs : StronglySorted str_lt options).
  { subst options. rewrite options_of_available by exact He.
    apply available_sorted. }
  split; [exact Hs|]. split; [exact Hin|].
  apply strictly_sorted_ext; [exact Hs|apply co_filtered_options_sorted|].
  intros v. rewrite Hin. symmetry. apply co_filtered_options_In.
Qed.

(** With cargo "AAV9" selected (and an experiment and a cell type
    selected as well), the experiments offered are those that occur with
    "AAV9" in some row. *)
Lemma C3_options_witness :
  App.options_of
    (App.get_filtered_options App.example_selection
       (Some (Frame App.example_metadata))) App.Experiment
  = ["epi"; "lightsheet"] /\
  let options :=
    App.options_of
      (App.get_filtered_options App.example_selection
         (Some (Frame App.example_metadata))) App.Experiment in
  StronglySorted str_lt options /\
  (forall v, In v options <->
     v <> "" /\
     exists r, In r App.example_metadata /\
               App.co_filtered App.example_selection App.Experiment r /\
               meta_experiment r = Some v) /\
  options = App.co_filtered_options App.example_selection
              App.example_metadata App.Experiment.
Proof.
  split; [reflexivity|].
  exact (C3_options_are_co_filtered_values App.example_selection
           (Frame App.example_metadata) App.Experiment eq_refl).
Defined.

(** C1, as the code has it.  On every non-empty metadata table and for
    every selection the cell_type options are the fixed 34-entry catalog
    cell_type_1 ... cell_type_34 in the order of the embedded integer;
    when the table is absent or empty (with or without columns) the guard
    at the head of the function returns the empty list for cell_type as
    for every other facet. *)
Theorem C1_cell_type_options (selected_filters : list (string * string)) :
  (forall (r : MetaRow) (md : list MetaRow),
     App.cell_types
       (App.get_filtered_options selected_filters (Some (Frame (r :: md))))
     = App.cell_type_catalog) /\
  App.cell_types (App.get_filtered_options selected_filters None) = [] /\
  App.cell_types (App.get_filtered_options selected_filters (Some NoColumns)) = [] /\
  App.cell_types (App.get_filtered_options selected_filters (Some (Frame []))) = [].
Proof.
  split; [|repeat split].
  intros r md. cbn [App.get_filtered_options empty rows_of is_nil App.cell_types].
  apply base_cell_types_catalog.
Qed.

(** C1 as stated fails on an absent metadata table: the cell_type list
    returned is empty, not the catalog. *)
Lemma C1_absent_metadata_counterexample :
  App.cell_types (App.get_filtered_options App.initial_filter_state None)
  <> App.cell_type_catalog.
Proof. discriminate. Qed.

(** * The track plot *)

Import VisualizationGenerator.

Lemma Qmax_b_cases (a b : Q) :
  (Qmax_b a b = a \/ Qmax_b a b = b) /\ (a <= Qmax_b a b)%Q /\ (b <= Qmax_b a b)%Q.
Proof.
  unfold Qmax_b. destruct (Qle_bool a b) eqn:E.
  - apply Qle_bool_iff in E. repeat split; auto. apply Qle_refl.
  - repeat split; auto; [apply Qle_refl|].
    apply Qlt_le_weak, Qnot_le_lt. intros H.
    apply Qle_bool_iff in H. congruence.
Qed.

(** [series_max] is a value of the column and bounds every value. *)
Lemma series_max_spec (x : Q) (xs : list Q) :
  In (series_max x xs) (x :: xs) /\
  forall y, In y (x :: xs) -> (y <= series_max x xs)%Q.
Proof.
  unfold series_max. revert x.
  induction xs as [|a xs IH]; intros x; cbn [fold_left].
  - split; [now left|]. intros y [<-|[]]. apply Qle_refl.
  - destruct (IH (Qmax_b x a)) as [Hin Hle].
    destruct (Qmax_b_cases x a) as [Hc [Hx Ha]].
    split.
    + destruct Hin as [Hin|Hin]; [|now right; right].
      rewrite <- Hin. destruct Hc as [-> | ->]; [now left|now right; left].
    + intros y [<-|[<-|Hy]].
      * eapply Qle_trans; [exact Hx|]. apply Hle. now left.
      * eapply Qle_trans; [exact Ha|]. apply Hle. now left.
      * apply Hle. now right.
Qed.

Lemma build_tracks_length (peak_data : list PeakRow) (d : ColorMap) (i : nat)
  (cell_types : list (option string)) :
  List.length (fst (build_tracks peak_data d i cell_types)) = List.length cell_types.
Proof.
  revert d i.
  induction cell_types as [|ct cts IH]; intros d i; cbn [build_tracks]; [reflexivity|].
  destruct (build_track peak_data d i ct) as [track d1].
  specialize (IH d1 (S i)).
  destruct (build_tracks peak_data d1 (S i) cts) as [tracks d2].
  cbn in *. now rewrite IH.
Qed.

Lemma make_panels_titles (n : nat) (chr_name : string) (y_max : Q) (i : nat)
  (cell_types : list (option string)) (tracks : list (list Trace * bool)) :
  List.length tracks = List.length cell_types ->
  map panel_title (make_panels n chr_name y_max i cell_types tracks)
  = map py_str cell_types.
Proof.
  revert i tracks.
  induction cell_types as [|ct cts IH]; intros i [|t ts] Hlen;
    cbn in *; try reflexivity; try discriminate.
  f_equal. apply IH. now injection Hlen.
Qed.

Lemma make_panels_yrange (n : nat) (chr_name : string) (y_max : Q) (i : nat)
  (cell_types : list (option string)) (tracks : list (list Trace * bool))
  (p : Panel) :
  In p (make_panels n chr_name y_max i cell_types tracks) ->
  panel_yrange p = Some (0%Q, y_max).
Proof.
  revert i tracks.
  induction cell_types as [|ct cts IH]; intros i [|t ts]; cbn; try contradiction.
  intros [<-|Hin]; [reflexivity|]. eapply IH; eauto.
Qed.

Lemma sorted_cell_types_In (peak_data : list PeakRow) (ct : option string) :
  In ct (sorted_cell_types peak_data) <-> In ct (map cell_type peak_data).
Proof.
  unfold sorted_cell_types. now rewrite sorted_by_In, unique_In.
Qed.

Lemma sorted_cell_types_nonempty (r : PeakRow) (rows : list PeakRow) :
  List.length (sorted_cell_types (r :: rows)) <> 0%nat.
Proof.
  intros H. apply length_zero_iff_nil in H.
  assert (Hin : In (cell_type r) (sorted_cell_types (r :: rows))).
  { apply sorted_cell_types_In. now left. }
  rewrite H in Hin. contradiction.
Qed.

(** The figure of a non-empty table, with the loop and the guards
    unfolded. *)
Lemma create_peak_visualization_panels (d : ColorMap) (r : PeakRow)
  (rows : list PeakRow) (enhancer_id : string) :
  fig_panels (fst (create_peak_visualization d (Frame (r :: rows)) enhancer_id))
  = make_panels (List.length (sorted_cell_types (r :: rows))) (py_str (chr r))
      (series_max (accessibility_score r) (map accessibility_score rows) * 1.1)%Q
      1 (sorted_cell_types (r :: rows))
      (fst (build_tracks (r :: rows) d 1 (sorted_cell_types (r :: rows)))).
Proof.
  unfold create_peak_visualization. cbn [rows_of].
  destruct (Nat.eqb_spec (List.length (sorted_cell_types (r :: rows))) 0) as [E|E].
  - now apply sorted_cell_types_nonempty in E.
  - destruct (build_tracks (r :: rows) d 1 (sorted_cell_types (r :: rows))).
    reflexivity.
Qed.

(** The panels are titled by the cell types in sorted order. *)
Lemma create_peak_visualization_titles (d : ColorMap) (r : PeakRow)
  (rows : list PeakRow) (enhancer_id : string) :
  map panel_title
    (fig_panels (fst (create_peak_visualization d (Frame (r :: rows)) enhancer_id)))
  = map py_str (sorted_cell_types (r :: rows)).
Proof.
  rewrite create_peak_visualization_panels.
  apply make_panels_titles, build_tracks_length.
Qed.

(** C2.  For a non-empty table of signal rows, every panel of the track
    plot has the y-axis range [0, 1.1 * M], where M is the maximum of
    accessibility_score over all rows of the table, whatever their cell
    type: M is the score of some row and no row has a larger score.  There
    is one panel per cell type, so the range is shared by all of them. *)
Theorem C2_uniform_y_range (d : ColorMap) (rows : list PeakRow)
  (enhancer_id : string) :
  rows <> [] ->
  let fig := fst (create_peak_visualization d (Frame rows) enhancer_id) in
  exists M : Q,
    In M (map accessibility_score rows) /\
    (forall r, In r rows -> (accessibility_score r <= M)%Q) /\
    map panel_title (fig_panels fig) = map py_str (sorted_cell_types rows) /\
    fig_panels fig <> [] /\
    forall p, In p (fig_panels fig) -> panel_yrange p = Some (0%Q, (M * 1.1)%Q).
Proof.
  destruct rows as [|r rows]; [congruence|]. intros _ fig.
  exists (series_max (accessibility_score r) (map accessibility_score rows)).
  destruct (series_max_spec (accessibility_score r) (map accessibility_score rows))
    as [Hin Hle].
  assert (Ht : map panel_title (fig_panels fig)
               = map py_str (sorted_cell_types (r :: rows))).
  { apply create_peak_visualization_titles. }
  repeat split.
  - exact Hin.
  - intros r' Hr'. apply Hle. change (In (accessibility_score r')
      (map accessibility_score (r :: rows))). now apply in_map.
  - exact Ht.
  - intros Hnil. apply (sorted_cell_types_nonempty r rows).
    rewrite <- (length_map py_str), <- Ht, Hnil. reflexivity.
  - intros p Hp. subst fig. rewrite create_peak_visualization_panels in Hp.
    eapply make_panels_yrange; eauto.
Qed.

(** Enhancer E1 has the scores 0.2 and 0.4 in cell type 2_X and 0.9 in
    1_Y: both panels get the range of the overall maximum 0.9. *)
Lemma C2_uniform_y_range_witness :
  map panel_yrange
    (fig_panels (fst (create_peak_visualization [] (Frame example_E1) "E1")))
  = [ Some (0%Q, (0.9 * 1.1)%Q); Some (0%Q, (0.9 * 1.1)%Q) ] /\
  exists M : Q,
    In M (map accessibility_score example_E1) /\
    (forall r, In r example_E1 -> (accessibility_score r <= M)%Q) /\
    map panel_title
      (fig_panels (fst (create_peak_visualization [] (Frame example_E1) "E1")))
    = map py_str (sorted_cell_types example_E1) /\
    fig_panels (fst (create_peak_visualization [] (Frame example_E1) "E1")) <> [] /\
    forall p,
      In p (fig_panels (fst (create_peak_visualization [] (Frame example_E1) "E1"))) ->
      panel_yrange p = Some (0%Q, (M * 1.1)%Q).
Proof.
  split; [reflexivity|].
  apply (C2_uniform_y_range [] example_E1 "E1"). discriminate.
Defined.

(** ** The order of the panels *)

Lemma N_leb_total (a b : N) : N.leb a b = true \/ N.leb b a = true.
Proof. rewrite !N.leb_le. lia. Qed.

Lemma N_leb_trans (a b c : N) :
  N.leb a b = true -> N.leb b c = true -> N.leb a c = true.
Proof. rewrite !N.leb_le. lia. Qed.

(** The cell types are in ascending order of [extract_cell_type_number]. *)
Lemma sorted_cell_types_ascending (peak_data : list PeakRow) :
  StronglySorted
    (fun a b => (extract_cell_type_number a <= extract_cell_type_number b)%N)
    (sorted_cell_types peak_data).
Proof.
  unfold sorted_cell_types.
  pose proof (sorted_by_sorted extract_cell_type_number N.leb
                N_leb_total N_leb_trans
                (unique (option_eq_dec string_dec) (map cell_type peak_data))) as H.
  induction H as [|a l Hs IH Hall]; constructor; [exact IH|].
  eapply Forall_impl; [|exact Hall].
  intros b Hb. now apply N.leb_le.
Qed.

(** Cell types with the same number keep the order of their first rows. *)
Lemma sorted_cell_types_stable (peak_data : list PeakRow) (k : N) :
  filter (fun ct => (extract_cell_type_number ct =? k)%N) (sorted_cell_types peak_data)
  = filter (fun ct => (extract_cell_type_number ct =? k)%N)
      (unique (option_eq_dec string_dec) (map cell_type peak_data)).
Proof.
  unfold sorted_cell_types.
  rewrite !(filter_ext (fun ct => (extract_cell_type_number ct =? k)%N)
              (same_key extract_cell_type_number N.leb k)).
  - apply sorted_by_stable. apply N_leb_trans.
  - intros ct. unfold same_key.
    destruct (N.eqb_spec (extract_cell_type_number ct) k) as [E|E];
      symmetry; [apply andb_true_iff|apply andb_false_iff];
      rewrite ?N.leb_le, ?N.leb_gt; lia.
  - intros ct. unfold same_key.
    destruct (N.eqb_spec (extract_cell_type_number ct) k) as [E|E];
      symmetry; [apply andb_true_iff|apply andb_false_iff];
      rewrite ?N.leb_le, ?N.leb_gt; lia.
Qed.

(** A label that does not start with a digit has the key 999. *)
Lemma extract_cell_type_number_unprefixed (label : option string) :
  leading_digits (py_str label) = "" -> extract_cell_type_number label = 999%N.
Proof. unfold extract_cell_type_number. now intros ->. Qed.

(** A label without a leading number is followed by no label whose number
    is below 999. *)
Lemma unprefixed_label_followers (peak_data : list PeakRow)
  (before after : list (option string)) (label later : option string) :
  sorted_cell_types peak_data = before ++ label :: after ->
  leading_digits (py_str label) = "" ->
  In later after ->
  (999 <= extract_cell_type_number later)%N.
Proof.
  intros Hsplit Hlabel Hin.
  pose proof (sorted_cell_types_ascending peak_data) as Hs.
  rewrite Hsplit in Hs. clear Hsplit.
  induction before as [|x before IH]; cbn [app] in Hs.
  - apply StronglySorted_inv in Hs as [_ Hall].
    rewrite Forall_forall in Hall. specialize (Hall later Hin).
    now rewrite (extract_cell_type_number_unprefixed label Hlabel) in Hall.
  - apply StronglySorted_inv in Hs as [Hs _]. now apply IH.
Qed.

(** Scenario 1: with the cell types 2_X and 1_Y, the panel of 1_Y comes
    first. *)
Lemma scenario_1_panel_order :
  map panel_title
    (fig_panels (fst (create_peak_visualization [] (Frame example_E1) "E1")))
  = ["1_Y"; "2_X"].
Proof. reflexivity. Qed.

(** C4, at the input on which the code departs from it.  The key of a
    label without leading digits is the number 999, not a value above every
    number: for an enhancer with the cell types 1000_X and X the panel of X
    comes before the panel of 1000_X. *)
Theorem C4_unprefixed_label_before_1000 :
  extract_cell_type_number (Some "X") = 999%N /\
  extract_cell_type_number (Some "1000_X") = 1000%N /\
  map panel_title
    (fig_panels (fst (create_peak_visualization [] (Frame example_1000) "E1")))
  = ["X"; "1000_X"].
Proof. repeat split. Qed.

(** * The colours of the cell types *)

Lemma first_seen_rank_known (label : string) (known more : list string) :
  In label known ->
  first_seen_rank label (known ++ more) = first_seen_rank label known.
Proof.
  induction known as [|l known IH]; cbn; [contradiction|].
  intros [->|Hin]; [now rewrite String.eqb_refl|].
  destruct (l =? label); [reflexivity|]. now rewrite IH.
Qed.

Lemma first_seen_rank_new (label : string) (known more : list string) :
  ~ In label known ->
  first_seen_rank label (known ++ label :: more) = List.length known.
Proof.
  induction known as [|l known IH]; cbn; intros Hnin.
  - now rewrite String.eqb_refl.
  - destruct (String.eqb_spec l label) as [E|E]; [tauto|].
    rewrite IH; tauto.
Qed.

Lemma lookup_map_known (f : string -> string) (label : string)
  (known : list string) :
  In label known ->
  lookup label (map (fun l => (l, f l)) known) = Some (f label).
Proof.
  induction known as [|l known IH]; cbn [map lookup In]; [contradiction|].
  intros Hin. destruct (String.eqb_spec l label) as [E|E]; [now subst|].
  apply IH. destruct Hin; [contradiction|assumption].
Qed.

Lemma lookup_map_new (f : string -> string) (label : string)
  (known : list string) :
  ~ In label known ->
  lookup label (map (fun l => (l, f l)) known) = None.
Proof.
  induction known as [|l known IH]; cbn [map lookup In]; [reflexivity|].
  intros Hnin. destruct (String.eqb_spec l label) as [E|E]; [tauto|].
  apply IH. tauto.
Qed.

Lemma colors_assigned_length (known : list string) :
  List.length (colors_assigned known) = List.length known.
Proof. apply length_map. Qed.

Lemma colors_assigned_snoc (known : list string) (label : string) :
  ~ In label known ->
  colors_assigned (known ++ [label])
  = colors_assigned known
    ++ [(label, color_at (List.length known mod List.length colors))].
Proof.
  intros Hnin. unfold colors_assigned.
  rewrite map_app. cbn [map].
  rewrite first_seen_rank_new by exact Hnin. f_equal.
  apply map_ext_in. intros l Hl.
  now rewrite first_seen_rank_known.
Qed.

Lemma filter_unique (p : string -> bool) (l : list string) :
  filter p (unique string_dec l) = unique string_dec (filter p l).
Proof.
  induction l as [|x l IH]; [reflexivity|].
  cbn [unique filter].
  destruct (p x) eqn:Hx; cbn [unique].
  - f_equal. rewrite <- IH, !filter_filter.
    apply filter_ext. intros y. apply andb_comm.
  - rewrite <- IH, filter_filter.
    apply filter_ext. intros y. unfold other_than.
    destruct (string_dec x y) as [->|]; [now rewrite Hx|reflexivity].
Qed.

Lemma known_after_known (known labels : list string) (label : string) :
  In label known ->
  known_after known (label :: labels) = known_after known labels.
Proof.
  intros Hin. unfold known_after. cbn [filter].
  assert (E : existsb (String.eqb label) known = true).
  { apply existsb_exists. exists label. split; [exact Hin|apply String.eqb_refl]. }
  now rewrite E.
Qed.

Lemma known_after_new (known labels : list string) (label : string) :
  ~ In label known ->
  known_after known (label :: labels) = known_after (known ++ [label]) labels.
Proof.
  intros Hnin. unfold known_after. cbn [filter].
  assert (E : existsb (String.eqb label) known = false).
  { apply not_true_is_false. intros H. apply existsb_exists in H as [x [Hx Hlx]].
    apply String.eqb_eq in Hlx. now subst. }
  rewrite E. cbn [negb unique]. rewrite <- app_assoc. cbn [app].
  do 2 f_equal. rewrite filter_unique, filter_filter. f_equal.
  apply filter_ext. intros y.
  rewrite existsb_app. cbn [existsb]. rewrite orb_false_r, negb_orb.
  f_equal. rewrite String.eqb_sym. unfold other_than.
  destruct (string_dec label y) as [->|Hne].
  - now rewrite String.eqb_refl.
  - apply String.eqb_neq in Hne. now rewrite Hne.
Qed.

(** A session that starts on a generator knowing [known]. *)
Lemma request_colors_from (known : list string) (requests : list (string * nat)) :
  request_colors (colors_assigned known) requests
  = (map (fun req =>
            color_at (first_seen_rank (fst req)
                        (known_after known (map fst requests))
                      mod List.length colors))
       requests,
     colors_assigned (known_after known (map fst requests))).
Proof.
  revert known.
  induction requests as [|[label index] rest IH]; intros known.
  - cbn. unfold known_after. cbn. now rewrite app_nil_r.
  - cbn [request_colors map fst].
    unfold get_cell_type_color.
    destruct (in_dec string_dec label known) as [Hin|Hnin].
    + unfold colors_assigned at 1. rewrite lookup_map_known by exact Hin.
      rewrite IH, known_after_known by exact Hin.
      do 2 f_equal. unfold known_after.
      now rewrite first_seen_rank_known.
    + unfold colors_assigned at 1. rewrite lookup_map_new by exact Hnin.
      rewrite colors_assigned_length, <- colors_assigned_snoc by exact Hnin.
      rewrite IH, known_after_new by exact Hnin.
      do 2 f_equal. unfold known_after.
      rewrite <- app_assoc. cbn [app].
      now rewrite first_seen_rank_new.
Qed.

Lemma known_after_nil (labels : list string) :
  known_after [] labels = unique string_dec labels.
Proof.
  unfold known_after. cbn. f_equal.
  apply forallb_filter_id, forallb_forall. reflexivity.
Qed.

Lemma palette_index_in_range (n : nat) :
  (n mod List.length colors < List.length colors)%nat.
Proof. apply Nat.mod_upper_bound. discriminate. Qed.

Lemma color_at_in_palette (n : nat) : In (color_at (n mod List.length colors)) colors.
Proof. apply nth_In, palette_index_in_range. Qed.

(** C10.  The colour answered by [get_cell_type_color] does not depend on
    the index argument.  In a session that starts on a fresh generator,
    every request is answered with the palette entry at the number of
    distinct cell types requested before the first request of its label,
    modulo the 35 entries of the palette; the dict at the end is fixed by
    the first-seen order of the labels alone, so two sessions with the same
    first-seen order assign the same colours; and every answer is an entry
    of the palette, however many distinct cell types are requested. *)
Theorem C10_color_assignment :
  List.length colors = 35%nat /\
  (forall (d : ColorMap) (label : string) (i j : nat),
     get_cell_type_color d label i = get_cell_type_color d label j) /\
  (forall requests : list (string * nat),
     let distinct := unique string_dec (map fst requests) in
     fst (request_colors [] requests)
     = map (fun req => color_at (first_seen_rank (fst req) distinct mod 35)) requests
     /\ snd (request_colors [] requests) = colors_assigned distinct
     /\ Forall (fun color => In color colors) (fst (request_colors [] requests))).
Proof.
  split; [reflexivity|]. split; [reflexivity|].
  intros requests distinct.
  pose proof (request_colors_from [] requests) as H.
  rewrite known_after_nil in H. change (colors_assigned []) with (@nil (string * string)) in H.
  fold distinct in H. rewrite H. cbn [fst snd].
  repeat split.
  apply Forall_forall. intros color Hc.
  apply in_map_iff in Hc as [req [<- _]].
  apply color_at_in_palette.
Qed.

(** * The builders on an empty table *)

Section BuilderFacts.
Variable heatmap_chart : list PeakRow -> outcome Figure.
Variable dashboard_chart : ColorMap -> list PeakRow -> outcome Figure * ColorMap.
Variable ranking_chart : list PeakRow -> string -> outcome Figure.

(** On a frame without rows, with or without columns, the track plot, the
    comparison and the dashboard are the placeholder chart with a message,
    and the colour dict is left as it was. *)
Lemma guarded_builders_on_empty (d : ColorMap) (peak_data : DataFrame PeakRow)
  (enhancer_id : string) (enhancer_ids : list string) :
  empty peak_data = true ->
  create_peak_visualization d peak_data enhancer_id
  = (create_empty_plot "No peak data available for visualization", d) /\
  create_multi_enhancer_comparison heatmap_chart peak_data enhancer_ids
  = Returns (create_empty_plot "No data available for comparison") /\
  create_summary_dashboard dashboard_chart d peak_data
  = (Returns (create_empty_plot "No peak data available for summary"), d).
Proof.
  intros He.
  unfold create_peak_visualization, create_multi_enhancer_comparison,
    create_summary_dashboard.
  rewrite He. apply is_nil_true in He. rewrite He. repeat split.
Qed.

(** On a frame that has the column and no rows, the cell type view is the
    placeholder chart as well. *)
Lemma cell_type_view_on_no_rows (cell_type : string) :
  create_cell_type_specific_view ranking_chart (Frame []) cell_type
  = Returns (create_empty_plot ("No data available for cell type: " ++ cell_type)%string).
Proof. reflexivity. Qed.

(** C9, at the input on which the code departs from it.  [pd.DataFrame()],
    the empty frame that the loader returns when the file is missing, has
    no column 'cell_type': the cell type view reads that column before it
    tests for emptiness and raises KeyError, where the three other builders
    return the placeholder chart. *)
Theorem C9_cell_type_view_raises_on_empty_frame (cell_type : string) :
  empty (@NoColumns PeakRow) = true /\
  create_cell_type_specific_view ranking_chart NoColumns cell_type
  = Raises (KeyError "cell_type") /\
  create_multi_enhancer_comparison heatmap_chart NoColumns ["E1"]
  = Returns (create_empty_plot "No data available for comparison").
Proof. repeat split. Qed.
End BuilderFacts.

(** * Ingestion of the single CSV file *)

Section CleaningFacts.
Variable parse_number : string -> option Q.

Lemma to_numeric_not_str (c : DataProcessor.cell) (s : string) :
  DataProcessor.to_numeric parse_number c <> DataProcessor.Str s.
Proof.
  destruct c as [|x|t]; cbn; try discriminate.
  destruct (parse_number t); discriminate.
Qed.

Lemma to_numeric_present (c : DataProcessor.cell) :
  DataProcessor.isna (DataProcessor.to_numeric parse_number c) = false ->
  exists x, DataProcessor.to_numeric parse_number c = DataProcessor.Num x.
Proof.
  pose proof (to_numeric_not_str c) as Hs.
  destruct (DataProcessor.to_numeric parse_number c) as [|x|t]; cbn; intros H.
  - discriminate.
  - now exists x.
  - now destruct (Hs t).
Qed.

(** The rows that [load_peak_data] returns are rows that passed the three
    filters of the cleaning. *)
Lemma load_peak_data_rows (csv : option (list DataProcessor.RawPeakRow))
  (r : DataProcessor.RawPeakRow) :
  In r (rows_of (fst (DataProcessor.load_peak_data parse_number csv))) ->
  exists r0 df0,
    csv = Some df0 /\ In r0 df0 /\
    DataProcessor.has_critical_data r0 = true /\
    r = DataProcessor.coerce_numeric_cols parse_number r0 /\
    DataProcessor.has_numeric_data r = true /\
    DataProcessor.invalid_coords r = false.
Proof.
  destruct csv as [df0|]; [|contradiction].
  unfold DataProcessor.load_peak_data.
  set (df3 := filter DataProcessor.has_numeric_data
                (map (DataProcessor.coerce_numeric_cols parse_number)
                   (filter DataProcessor.has_critical_data df0))).
  intros Hin.
  assert (H : In r df3 /\ DataProcessor.invalid_coords r = false).
  { destruct (filter DataProcessor.invalid_coords df3) as [|bad invalid] eqn:E;
      cbn [is_nil fst rows_of] in Hin.
    - split; [exact Hin|].
      destruct (DataProcessor.invalid_coords r) eqn:Hr; [|reflexivity].
      assert (Hbad : In r (filter DataProcessor.invalid_coords df3))
        by (apply filter_In; auto).
      rewrite E in Hbad. contradiction.
    - apply filter_In in Hin as [Hin Hr]. split; [exact Hin|].
      now apply negb_true_iff. }
  destruct H as [H3 Hvalid].
  apply filter_In in H3 as [H2 Hnum].
  apply in_map_iff in H2 as [r0 [<- H1]].
  apply filter_In in H1 as [H0 Hcrit].
  exists r0, df0. repeat split; assumption.
Qed.

(** C5, for the loader that has a cleaning pipeline.  Every row that
    [DataProcessor.load_peak_data] of the single-file processor returns has
    its enhancer id and its four numeric columns present, and its start is
    strictly below its end: the rows with start >= end were dropped. *)
Theorem C5_cleaned_rows_start_before_end
  (csv : option (list DataProcessor.RawPeakRow)) (r : DataProcessor.RawPeakRow) :
  In r (rows_of (fst (DataProcessor.load_peak_data parse_number csv))) ->
  exists p : PeakRow,
    DataProcessor.typed_row r = Some p /\ (start p < end_ p)%Q.
Proof.
  intros Hin.
  apply load_peak_data_rows in Hin
    as (r0 & df0 & _ & _ & Hcrit & -> & Hnum & Hvalid).
  unfold DataProcessor.has_critical_data in Hcrit.
  unfold DataProcessor.has_numeric_data, DataProcessor.invalid_coords in *.
  unfold DataProcessor.typed_row.
  cbn [DataProcessor.coerce_numeric_cols DataProcessor.raw_enhancer_id
       DataProcessor.raw_start DataProcessor.raw_end DataProcessor.raw_chr
       DataProcessor.raw_cell_type DataProcessor.raw_position_index
       DataProcessor.raw_accessibility_score] in *.
  destruct (DataProcessor.raw_enhancer_id r0) as [e|]; [|discriminate].
  repeat (apply andb_prop in Hnum as [Hnum ?]).
  repeat match goal with
         | H : negb _ = true |- _ => apply negb_true_iff in H
         end.
  destruct (to_numeric_present (DataProcessor.raw_start r0)) as [s Hs]; [assumption|].
  destruct (to_numeric_present (DataProcessor.raw_end r0)) as [f Hf]; [assumption|].
  destruct (to_numeric_present (DataProcessor.raw_position_index r0)) as [q Hq];
    [assumption|].
  destruct (to_numeric_present (DataProcessor.raw_accessibility_score r0)) as [a Ha];
    [assumption|].
  rewrite Hs, Hf, Hq, Ha in *.
  eexists. split; [reflexivity|]. cbn.
  cbn in Hvalid. apply Qnot_le_lt. intros Hle.
  apply Qle_bool_iff in Hle. congruence.
Qed.
End CleaningFacts.

(** Of the three rows of the example file, the one with start 100 and end
    200 is returned; the other two are dropped. *)
Lemma C5_cleaned_rows_witness :
  rows_of (fst (DataProcessor.load_peak_data DataProcessor.parse_digits
                  (Some DataProcessor.example_csv)))
  = [DataProcessor.example_clean_row] /\
  exists p : PeakRow,
    DataProcessor.typed_row DataProcessor.example_clean_row = Some p /\
    (start p < end_ p)%Q.
Proof.
  split; [reflexivity|].
  apply (C5_cleaned_rows_start_before_end DataProcessor.parse_digits
           (Some DataProcessor.example_csv)).
  left. reflexivity.
Defined.

(** The chunked loader has no such step: a row whose start is above its
    end is returned as it was read. *)
Lemma C5_chunked_loader_counterexample :
  exists r : PeakRow,
    In r (match fst (DataProcessorChunked.load_peak_data PeakRow_eq_dec
                       DataProcessorChunked.example_reversed) with
          | Some df => rows_of df
          | None => []
          end) /\
    ~ (start r < end_ r)%Q.
Proof.
  exists DataProcessorChunked.reversed_row. split.
  - vm_compute. left. reflexivity.
  - cbn. unfold Qlt. cbn. lia.
Qed.

(** * Ingestion of the chunked CSV files *)

Section DuplicateFacts.
Context {Row : Type}.
Variable Row_eq_dec : forall x y : Row, {x = y} + {x <> y}.

Lemma count_occ_others_length (l : list Row) (r : Row) :
  List.length l = (count_occ Row_eq_dec l r + List.length (filter (other_than Row_eq_dec r) l))%nat.
Proof.
  induction l as [|x l IH]; [reflexivity|].
  cbn [count_occ filter List.length]. unfold other_than at 1.
  destruct (Row_eq_dec x r) as [->|Hne].
  - destruct (Row_eq_dec r r); [|congruence]. cbn. lia.
  - destruct (Row_eq_dec r x); [congruence|]. cbn [List.length]. lia.
Qed.

Lemma unique_count_occ (l : list Row) (r : Row) :
  In r l -> count_occ Row_eq_dec (unique Row_eq_dec l) r = 1%nat.
Proof.
  intros Hin.
  apply (proj1 (NoDup_count_occ' Row_eq_dec (unique Row_eq_dec l))).
  - apply unique_NoDup.
  - now apply unique_In.
Qed.

Lemma unique_length_one_duplicated (l : list Row) (r : Row) :
  In r l -> NoDup (filter (other_than Row_eq_dec r) l) ->
  List.length (unique Row_eq_dec l) = S (List.length (filter (other_than Row_eq_dec r) l)).
Proof.
  intros Hin Hnd.
  change (S (List.length (filter (other_than Row_eq_dec r) l)))
    with (List.length (r :: filter (other_than Row_eq_dec r) l)).
  apply Permutation_length, NoDup_Permutation.
  - apply unique_NoDup.
  - constructor; [|exact Hnd].
    rewrite filter_In. unfold other_than. intros [_ H].
    destruct (Row_eq_dec r r); congruence.
  - intros x. rewrite unique_In. cbn [In]. rewrite filter_In. unfold other_than.
    destruct (Row_eq_dec r x) as [->|Hne]; [tauto|].
    intuition congruence.
Qed.

(** C6.  When the chunk files together hold 1000 copies of one row, and
    no other row twice, the chunked loader returns a table in which that row
    occurs exactly once and prints that 999 duplicate rows were removed. *)
Theorem C6_thousand_identical_rows
  (dir : DataProcessorChunked.Directory) (r : Row) :
  count_occ Row_eq_dec (DataProcessorChunked.combined dir) r = 1000%nat ->
  NoDup (filter (other_than Row_eq_dec r) (DataProcessorChunked.combined dir)) ->
  exists table,
    fst (DataProcessorChunked.load_peak_data Row_eq_dec dir) = Some (Frame table) /\
    count_occ Row_eq_dec table r = 1%nat /\
    In (Printed, "Removed 999 duplicate rows")
      (snd (DataProcessorChunked.load_peak_data Row_eq_dec dir)).
Proof.
  intros Hcount Hnd.
  assert (Hin : In r (DataProcessorChunked.combined dir)).
  { apply (count_occ_In Row_eq_dec). lia. }
  pose proof (count_occ_others_length (DataProcessorChunked.combined dir) r) as Hlen.
  pose proof (unique_length_one_duplicated _ r Hin Hnd) as Huniq.
  exists (unique Row_eq_dec (DataProcessorChunked.combined dir)).
  unfold DataProcessorChunked.load_peak_data.
  destruct (DataProcessorChunked.all_chunks dir) as [|c cs] eqn:Hchunks.
  { unfold DataProcessorChunked.combined in Hin. rewrite Hchunks in Hin.
    contradiction. }
  cbn [is_nil].
  destruct (Nat.ltb_spec
              (List.length (unique Row_eq_dec (DataProcessorChunked.combined dir)))
              (List.length (DataProcessorChunked.combined dir))) as [Hlt|Hge];
    [|lia].
  cbn [fst snd]. split; [reflexivity|]. split; [now apply unique_count_occ|].
  apply in_or_app. right. left.
  replace (List.length (DataProcessorChunked.combined dir)
           - List.length (unique Row_eq_dec (DataProcessorChunked.combined dir)))%nat
    with 999%nat by lia.
  reflexivity.
Qed.
End DuplicateFacts.

(** The same row 400 times in one chunk file and 600 times in another:
    one copy is returned and 999 are reported as removed. *)
Lemma C6_thousand_identical_rows_witness :
  fst (DataProcessorChunked.load_peak_data PeakRow_eq_dec
         DataProcessorChunked.example_directory)
  = Some (Frame [peak_row "E1" (Some "1_Y") 0 0.5]) /\
  exists table,
    fst (DataProcessorChunked.load_peak_data PeakRow_eq_dec
           DataProcessorChunked.example_directory) = Some (Frame table) /\
    count_occ PeakRow_eq_dec table (peak_row "E1" (Some "1_Y") 0 0.5) = 1%nat /\
    In (Printed, "Removed 999 duplicate rows")
      (snd (DataProcessorChunked.load_peak_data PeakRow_eq_dec
              DataProcessorChunked.example_directory)).
Proof.
  split; [vm_compute; reflexivity|].
  apply (C6_thousand_identical_rows PeakRow_eq_dec
           DataProcessorChunked.example_directory
           (peak_row "E1" (Some "1_Y") 0 0.5)).
  - vm_compute. reflexivity.
  - vm_compute. constructor.
Defined.

(** * The reconciler *)

Lemma StronglySorted_map {A B : Type} (f : A -> B) (R : B -> B -> Prop)
  (l : list A) :
  StronglySorted (fun a b => R (f a) (f b)) l -> StronglySorted R (map f l).
Proof.
  induction 1 as [|a l Hs IH Hall]; cbn; constructor; [exact IH|].
  apply Forall_map. exact Hall.
Qed.

(** C8, for the reconciler that sorts.  Whatever the metadata and the
    signal, the enhancer ids of the table that
    [DataProcessor.extract_hof_enhancers] of the single-file processor
    returns are in non-decreasing order of strings. *)
Theorem C8_reconciled_output_sorted (metadata_df : DataFrame MetaRow)
  (peak_data : DataFrame PeakRow) :
  StronglySorted str_le
    (map DataProcessor.hof_enhancer_id
       (rows_of (DataProcessor.extract_hof_enhancers metadata_df peak_data))).
Proof.
  unfold DataProcessor.extract_hof_enhancers.
  destruct (empty peak_data); [constructor|].
  cbn [rows_of]. apply StronglySorted_map.
  apply (sorted_by_sorted DataProcessor.hof_enhancer_id String.leb).
  - apply String.leb_total.
  - apply str_le_trans.
Qed.

(** The reconciler of the chunked processor does not sort: with enhancer
    B before enhancer A in the signal, it returns B before A. *)
Lemma C8_chunked_reconciler_counterexample :
  map DataProcessorChunked.hof_enhancer_id
    (rows_of (DataProcessorChunked.extract_hof_enhancers None
                (Some (Frame DataProcessorChunked.example_signal_B_A))))
  = ["B"; "A"] /\
  ~ StronglySorted str_le
      (map DataProcessorChunked.hof_enhancer_id
         (rows_of (DataProcessorChunked.extract_hof_enhancers None
                     (Some (Frame DataProcessorChunked.example_signal_B_A))))).
Proof.
  split; [reflexivity|].
  intros H. apply StronglySorted_inv in H as [_ H].
  apply Forall_inv in H. discriminate H.
Qed.

Lemma enhancer_peaks_nonempty (peaks : list PeakRow) (e : string) :
  In e (map enhancer_id peaks) -> DataProcessor.enhancer_peaks peaks e <> [].
Proof.
  intros Hin Hnil. apply in_map_iff in Hin as [r [Hr Hin]].
  assert (H : In r (DataProcessor.enhancer_peaks peaks e)).
  { apply filter_In. split; [exact Hin|]. now apply String.eqb_eq. }
  rewrite Hnil in H. contradiction.
Qed.

(** C7, for the reconciler that writes placeholders.  For an enhancer id
    that occurs in the signal and in no row of the metadata, the table that
    [DataProcessor.extract_hof_enhancers] of the single-file processor
    returns has a row of that id with cargo and proximal_gene "Not
    specified", with experiment "Not specified", or "Hall of Fame
    Collection" when there is no metadata at all, and with a cell_type text
    that starts with the number of distinct cell types in the signal rows of
    the enhancer. *)
Theorem C7_placeholder_for_unlisted_enhancer (metadata_df : DataFrame MetaRow)
  (peak_data : DataFrame PeakRow) (e : string) :
  In e (map enhancer_id (rows_of peak_data)) ->
  ~ In (Some e) (map meta_enhancer_id (rows_of metadata_df)) ->
  let n := DataProcessor.count_cell_types
             (DataProcessor.enhancer_peaks (rows_of peak_data) e) in
  exists h : DataProcessor.HofRow,
    In h (rows_of (DataProcessor.extract_hof_enhancers metadata_df peak_data)) /\
    DataProcessor.hof_enhancer_id h = e /\
    DataProcessor.hof_cargo h = Some "Not specified" /\
    DataProcessor.hof_proximal_gene h = Some "Not specified" /\
    DataProcessor.hof_experiment h
    = Some (if empty metadata_df then "Hall of Fame Collection" else "Not specified") /\
    DataProcessor.hof_cell_type h
    = Some (str_of_nat n
            ++ (if empty metadata_df then " cell types analyzed" else " cell types"))%string.
Proof.
  intros Hsig Hmeta n.
  unfold DataProcessor.extract_hof_enhancers.
  destruct (empty peak_data) eqn:Hpk.
  { apply is_nil_true in Hpk. rewrite Hpk in Hsig. contradiction. }
  cbn [rows_of]. unfold DataProcessor.sort_by_enhancer_id.
  assert (Hid : In e (unique string_dec (map enhancer_id (rows_of peak_data))))
    by now apply unique_In.
  destruct (empty metadata_df) eqn:Hmd; cbn [negb].
  - pose proof (enhancer_peaks_nonempty _ _ Hsig) as Hne.
    destruct (DataProcessor.enhancer_peaks (rows_of peak_data) e)
      as [|first_row others] eqn:Hpeaks; [congruence|].
    eexists. split.
    + apply sorted_by_In, in_flat_map. exists e. split; [exact Hid|].
      unfold DataProcessor.enhancer_info. rewrite Hpeaks. left. reflexivity.
    + cbn. subst n. repeat split.
  - exists (DataProcessor.placeholder (rows_of peak_data) e). split.
    + apply sorted_by_In, in_or_app. right. apply in_map, filter_In.
      split; [exact Hid|]. apply negb_true_iff, not_true_is_false.
      intros H. apply existsb_exists in H as [m [Hm Hcell]].
      apply filter_In in Hm as [Hm _]. apply cell_is_true in Hcell.
      apply Hmeta. rewrite <- Hcell. now apply in_map.
    + cbn. subst n. repeat split.
Qed.

(** Scenario 2: the metadata lists E1 only and the signal has three rows
    of E9 in two cell types. *)
Lemma C7_placeholder_witness :
  rows_of (DataProcessor.extract_hof_enhancers
             (Frame DataProcessorChunked.example_metadata_E1)
             (Frame DataProcessorChunked.example_signal_E9))
  = [DataProcessor.placeholder DataProcessorChunked.example_signal_E9 "E9"] /\
  exists h : DataProcessor.HofRow,
    In h (rows_of (DataProcessor.extract_hof_enhancers
                     (Frame DataProcessorChunked.example_metadata_E1)
                     (Frame DataProcessorChunked.example_signal_E9))) /\
    DataProcessor.hof_enhancer_id h = "E9" /\
    DataProcessor.hof_cargo h = Some "Not specified" /\
    DataProcessor.hof_proximal_gene h = Some "Not specified" /\
    DataProcessor.hof_experiment h = Some "Not specified" /\
    DataProcessor.hof_cell_type h = Some "2 cell types".
Proof.
  split; [reflexivity|].
  apply (C7_placeholder_for_unlisted_enhancer
           (Frame DataProcessorChunked.example_metadata_E1)
           (Frame DataProcessorChunked.example_signal_E9) "E9").
  - left. reflexivity.
  - cbn. intros [H|[]]. discriminate H.
Defined.

(** The reconciler of the chunked processor writes no placeholder: in
    scenario 2 the row of E9 has its cargo, experiment and proximal_gene
    missing. *)
Lemma C7_chunked_reconciler_counterexample :
  map DataProcessorChunked.hof_metadata
    (rows_of (DataProcessorChunked.extract_hof_enhancers
                (Some (Frame DataProcessorChunked.example_metadata_E1))
                (Some (Frame DataProcessorChunked.example_signal_E9))))
  = [ Some {| DataProcessorChunked.cargo := None;
              DataProcessorChunked.experiment := None;
              DataProcessorChunked.proximal_gene := None |} ] /\
  ~ exists h m,
      In h (rows_of (DataProcessorChunked.extract_hof_enhancers
                       (Some (Frame DataProcessorChunked.example_metadata_E1))
                       (Some (Frame DataProcessorChunked.example_signal_E9)))) /\
      DataProcessorChunked.hof_enhancer_id h = "E9" /\
      DataProcessorChunked.hof_metadata h = Some m /\
      DataProcessorChunked.cargo m = Some "Not specified".
Proof.
  split; [reflexivity|].
  intros (h & m & Hin & _ & Hm & Hcargo).
  cbn in Hin. destruct Hin as [<-|[]].
  cbn in Hm. injection Hm as <-. discriminate Hcargo.
Qed.

(** * The application module: sort key and widgets *)






Lemma nth_list_index (x : string) (l : list string) (d : string) :
  In x l -> nth (AppSession.list_index x l) l d = x.
Proof.
  induction l as [|y l IH]; cbn; [contradiction|].
  intros Hin. destruct (String.eqb_spec y x) as [E|E]; [exact E|].
  apply IH. destruct Hin; [contradiction|assumption].
Qed.

Lemma existsb_eqb_In (x : string) (l : list string) :
  existsb (String.eqb x) l = true <-> In x l.
Proof.
  rewrite existsb_exists. split.
  - intros [y [Hy E]]. apply String.eqb_eq in E. now subst.
  - intros H. exists x. split; [exact H|apply String.eqb_refl].
Qed.

Lemma list_index_in_range (x : string) (l : list string) :
  In x l -> (AppSession.list_index x l < List.length l)%nat.
Proof.
  induction l as [|y l IH]; cbn; [contradiction|].
  intros Hin. destruct (String.eqb_spec y x) as [E|E]; [lia|].
  apply PeanoNat.Nat.succ_lt_mono in IH; [lia|].
  destruct Hin; [contradiction|assumption].
Qed.

(** X3.  The index handed to a select box is a valid index of its choices
    ["All"] + options, and the choice at that index is the stored selection
    when the stored selection is one of the options, and "All" otherwise. *)
Theorem selectbox_shows_stored_selection (state : string) (options : list string) :
  (AppSession.selectbox_index state options < List.length ("All" :: options))%nat /\
  AppSession.selectbox_default state options
  = if existsb (String.eqb state) options then state else "All".
Proof.
  unfold AppSession.selectbox_default, AppSession.selectbox_index.
  destruct (String.eqb_spec state "All") as [E|E]; cbn [orb].
  - subst. split; [cbn; lia|]. now destruct (existsb (String.eqb "All") options).
  - destruct (existsb (String.eqb state) options) eqn:Hin; cbn [negb].
    + apply existsb_eqb_In in Hin. split.
      * cbn [List.length]. pose proof (list_index_in_range state options Hin). lia.
      * cbn [nth]. now apply nth_list_index.
    + split; [cbn; lia|reflexivity].
Qed.

(** * The application module: applying the selection *)

Lemma narrow_In (column : MetaRow -> option string) (selected : string)
  (l : list MetaRow) (m : MetaRow) :
  In m (AppSession.narrow column selected l) <->
  In m l /\ (selected <> "All" -> column m = Some selected).
Proof.
  unfold AppSession.narrow.
  destruct (String.eqb_spec selected "All") as [E|E]; cbn [negb].
  - tauto.
  - rewrite filter_In, cell_is_true. tauto.
Qed.

Lemma filtered_metadata_In (s : AppSession.Selection) (md : list MetaRow)
  (m : MetaRow) :
  In m (AppSession.filtered_metadata s md) <->
  In m md /\ AppSession.meets_selection s m.
Proof.
  unfold AppSession.filtered_metadata, AppSession.meets_selection.
  rewrite !narrow_In. tauto.
Qed.

Lemma first_per_enhancer_In (rows : list DataProcessorChunked.HofRow)
  (h : DataProcessorChunked.HofRow) :
  In h (AppSession.first_per_enhancer rows) -> In h rows.
Proof.
  induction rows as [|x rows IH]; cbn; [tauto|].
  rewrite filter_In. intros [H|[H _]]; auto.
Qed.

Lemma first_per_enhancer_ids (rows : list DataProcessorChunked.HofRow) (e : string) :
  In e (map DataProcessorChunked.hof_enhancer_id (AppSession.first_per_enhancer rows))
  <-> In e (map DataProcessorChunked.hof_enhancer_id rows).
Proof.
  induction rows as [|x rows IH]; cbn [AppSession.first_per_enhancer map In]; [tauto|].
  rewrite <- IH, !in_map_iff.
  destruct (string_dec (DataProcessorChunked.hof_enhancer_id x) e) as [E|E]; [tauto|].
  split.
  - intros [H|[h [Hh Hin]]]; [contradiction|].
    apply filter_In in Hin as [Hin _]. right. now exists h.
  - intros [H|[h [Hh Hin]]]; [contradiction|].
    right. exists h. split; [exact Hh|]. apply filter_In. split; [exact Hin|].
    apply negb_true_iff, String.eqb_neq. congruence.
Qed.

Lemma first_per_enhancer_NoDup (rows : list DataProcessorChunked.HofRow) :
  NoDup (map DataProcessorChunked.hof_enhancer_id (AppSession.first_per_enhancer rows)).
Proof.
  induction rows as [|x rows IH]; cbn [AppSession.first_per_enhancer map];
    constructor.
  - rewrite in_map_iff. intros [h [Hh Hin]].
    apply filter_In in Hin as [_ Hne].
    apply negb_true_iff, String.eqb_neq in Hne. contradiction.
  - clear -IH.
    induction (AppSession.first_per_enhancer rows) as [|y l IHl]; cbn; [constructor|].
    cbn in IH. apply NoDup_cons_iff in IH as [Hy Hl].
    destruct (negb _); cbn; auto.
    constructor; auto.
    rewrite in_map_iff. intros [h [Hh Hin]]. apply filter_In in Hin as [Hin _].
    apply Hy, in_map_iff. now exists h.
Qed.

Lemma enhancer_ids_to_include_In (s : AppSession.Selection) (md : list MetaRow)
  (hof : list DataProcessorChunked.HofRow) (e : string) :
  In e (AppSession.enhancer_ids_to_include s md hof) <->
  In e (map DataProcessorChunked.hof_enhancer_id hof) /\
  (AppSession.any_metadata_filter s = true ->
   exists m, In m md /\ meta_enhancer_id m = Some e /\ AppSession.meets_selection s m).
Proof.
  unfold AppSession.enhancer_ids_to_include.
  destruct (AppSession.any_metadata_filter s).
  - rewrite filter_In, unique_In, existsb_exists. split.
    + intros [Hin [m [Hm Hid]]]. split; [exact Hin|]. intros _.
      apply filtered_metadata_In in Hm. apply cell_is_true in Hid.
      exists m. tauto.
    + intros [Hin H]. split; [exact Hin|].
      destruct (H eq_refl) as [m [Hm [Hid Hmeets]]].
      exists m. split; [now apply filtered_metadata_In|now apply cell_is_true].
  - rewrite unique_In. split; [|tauto]. intros H. split; [exact H|discriminate].
Qed.

Lemma kept_enhancer_ids (s : AppSession.Selection) (md : list MetaRow)
  (hof : list DataProcessorChunked.HofRow) (e : string) :
  In e (map DataProcessorChunked.hof_enhancer_id
          (AppSession.first_per_enhancer
             (filter
                (fun h =>
                   existsb (String.eqb (DataProcessorChunked.hof_enhancer_id h))
                     (AppSession.enhancer_ids_to_include s md hof))
                hof)))
  <-> In e (AppSession.enhancer_ids_to_include s md hof).
Proof.
  rewrite first_per_enhancer_ids, in_map_iff. split.
  - intros [h [<- Hin]]. apply filter_In in Hin as [_ Hin].
    now apply existsb_eqb_In.
  - intros Hin. pose proof Hin as Hin'.
    apply enhancer_ids_to_include_In in Hin' as [Hhof _].
    apply in_map_iff in Hhof as [h [<- Hh]].
    exists h. split; [reflexivity|]. apply filter_In. split; [exact Hh|].
    now apply existsb_eqb_In.
Qed.

(** X4.  With a metadata table that has rows, the enhancers kept by the
    selection are one record per enhancer id, and their ids are the ids of
    the reconciled list that, when one of cargo, experiment, gene and GC
    delivered is selected, have a metadata row meeting all the selected
    values at once; the metadata kept are the rows of those enhancers.  The
    selections of enhancer and cell type play no part. *)
Theorem selection_is_conjunctive (s : AppSession.Selection) (md : list MetaRow)
  (hof : list DataProcessorChunked.HofRow) :
  md <> [] ->
  exists filtered_enhancers relevant_metadata,
    AppSession.apply_metadata_filters s (Some (Frame md)) hof
    = AppSession.Bound (filtered_enhancers, relevant_metadata) /\
    NoDup (map DataProcessorChunked.hof_enhancer_id filtered_enhancers) /\
    (forall e,
       In e (map DataProcessorChunked.hof_enhancer_id filtered_enhancers) <->
       In e (map DataProcessorChunked.hof_enhancer_id hof) /\
       (AppSession.any_metadata_filter s = true ->
        exists m, In m md /\ meta_enhancer_id m = Some e /\
                  AppSession.meets_selection s m)) /\
    (forall m,
       In m relevant_metadata <->
       In m md /\
       exists e, meta_enhancer_id m = Some e /\
                 In e (map DataProcessorChunked.hof_enhancer_id filtered_enhancers)).
Proof.
  intros Hmd. unfold AppSession.apply_metadata_filters.
  destruct md as [|m0 md]; [congruence|]. cbn [empty rows_of is_nil].
  pose proof (kept_enhancer_ids s (m0 :: md) hof) as Hids.
  eexists. eexists. split; [reflexivity|]. split; [apply first_per_enhancer_NoDup|].
  split.
  - intros e. rewrite Hids. apply enhancer_ids_to_include_In.
  - intros m. rewrite filter_In. split.
    + intros [Hin Hid]. split; [exact Hin|].
      destruct (meta_enhancer_id m) as [e|]; [|discriminate].
      exists e. split; [reflexivity|]. apply Hids. now apply existsb_eqb_In.
    + intros [Hin [e [He Hfe]]]. split; [exact Hin|].
      rewrite He. apply existsb_eqb_In. now apply Hids.
Qed.

Lemma selection_is_conjunctive_witness :
  exists filtered_enhancers relevant_metadata,
    AppSession.apply_metadata_filters AppSession.example_selection
      (Some (Frame App.example_metadata)) AppSession.example_hof
    = AppSession.Bound (filtered_enhancers, relevant_metadata) /\
    NoDup (map DataProcessorChunked.hof_enhancer_id filtered_enhancers) /\
    (forall e,
       In e (map DataProcessorChunked.hof_enhancer_id filtered_enhancers) <->
       In e (map DataProcessorChunked.hof_enhancer_id AppSession.example_hof) /\
       (AppSession.any_metadata_filter AppSession.example_selection = true ->
        exists m, In m App.example_metadata /\ meta_enhancer_id m = Some e /\
                  AppSession.meets_selection AppSession.example_selection m)) /\
    (forall m,
       In m relevant_metadata <->
       In m App.example_metadata /\
       exists e, meta_enhancer_id m = Some e /\
                 In e (map DataProcessorChunked.hof_enhancer_id filtered_enhancers)).
Proof.
  apply (selection_is_conjunctive AppSession.example_selection
           App.example_metadata AppSession.example_hof).
  discriminate.
Defined.


(** X6.  While the selection is the stored one, an enhancer that the
    enhancer select box offers and that the reconciled list has is kept by
    the selection together with a metadata row of its own: choosing it leads
    neither to "Selected enhancer not found in filtered results" nor to "No
    metadata available for this enhancer". *)
Theorem offered_enhancer_is_found (s : AppSession.Selection) (md : list MetaRow)
  (hof : list DataProcessorChunked.HofRow) (e : string) :
  In e (App.enhancers
          (App.get_filtered_options (AppSession.filter_state s) (Some (Frame md)))) ->
  In e (map DataProcessorChunked.hof_enhancer_id hof) ->
  exists filtered_enhancers relevant_metadata,
    AppSession.apply_metadata_filters s (Some (Frame md)) hof
    = AppSession.Bound (filtered_enhancers, relevant_metadata) /\
    In e (map DataProcessorChunked.hof_enhancer_id filtered_enhancers) /\
    exists m, In m relevant_metadata /\ meta_enhancer_id m = Some e.
Proof.
  intros Hopt Hhof.
  assert (Hmd : md <> []).
  { intros ->. cbn in Hopt. contradiction. }
  assert (He : empty (Frame md) = false).
  { destruct md; [congruence|reflexivity]. }
  change (App.enhancers ?o) with (App.options_of o App.Enhancer) in Hopt.
  rewrite options_of_available in Hopt by exact He.
  apply available_In in Hopt as [Hne [r [Hr Hid]]].
  apply get_options_for_filter_In in Hr as [Hr Hco].
  cbn [rows_of] in Hr. cbn [App.facet_column] in Hid.
  assert (Hmeets : AppSession.meets_selection s r).
  { unfold AppSession.meets_selection. unfold App.co_filtered in Hco.
    repeat split; intros Hsel.
    - apply (Hco "cargo" _) with (g := App.Cargo); cbn; try tauto; discriminate.
    - apply (Hco "experiment" _) with (g := App.Experiment); cbn; try tauto; discriminate.
    - apply (Hco "gene" _) with (g := App.Gene); cbn; try tauto; discriminate.
    - apply (Hco "gc_delivered" _) with (g := App.GcDelivered); cbn; try tauto; discriminate. }
  assert (Hids : In e (AppSession.enhancer_ids_to_include s md hof)).
  { apply enhancer_ids_to_include_In. split; [exact Hhof|].
    intros _. exists r. tauto. }
  unfold AppSession.apply_metadata_filters. rewrite He. cbn [rows_of].
  eexists. eexists. split; [reflexivity|].
  split; [now apply kept_enhancer_ids|].
  exists r. split; [|exact Hid]. apply filter_In. split; [exact Hr|].
  rewrite Hid. now apply existsb_eqb_In.
Qed.

Lemma offered_enhancer_is_found_witness :
  exists filtered_enhancers relevant_metadata,
    AppSession.apply_metadata_filters AppSession.example_selection
      (Some (Frame App.example_metadata)) AppSession.example_hof
    = AppSession.Bound (filtered_enhancers, relevant_metadata) /\
    In "E1" (map DataProcessorChunked.hof_enhancer_id filtered_enhancers) /\
    exists m, In m relevant_metadata /\ meta_enhancer_id m = Some "E1".
Proof.
  apply (offered_enhancer_is_found AppSession.example_selection
           App.example_metadata AppSession.example_hof "E1").
  - vm_compute. left. reflexivity.
  - vm_compute. left. reflexivity.
Defined.

(** * The colour dict across renders *)

Lemma lookup_app_known (label color : string) (d more : ColorMap) :
  lookup label d = Some color -> lookup label (d ++ more) = Some color.
Proof.
  induction d as [|[k v] d IH]; cbn; [discriminate|].
  destruct (k =? label); auto.
Qed.

Lemma lookup_app_new (label color : string) (d : ColorMap) :
  lookup label d = None -> lookup label (d ++ [(label, color)]) = Some color.
Proof.
  induction d as [|[k v] d IH]; cbn.
  - now rewrite String.eqb_refl.
  - destruct (k =? label); [discriminate|auto].
Qed.

Lemma extends_refl (d : ColorMap) : extends d d.
Proof. intros label color H. exact H. Qed.

Lemma extends_trans (d1 d2 d3 : ColorMap) :
  extends d1 d2 -> extends d2 d3 -> extends d1 d3.
Proof. intros H12 H23 label color H. auto. Qed.

Lemma get_cell_type_color_known (d : ColorMap) (label color : string) (i : nat) :
  lookup label d = Some color -> get_cell_type_color d label i = (color, d).
Proof. intros H. unfold get_cell_type_color. now rewrite H. Qed.

Lemma get_cell_type_color_assigns (d d' : ColorMap) (label color : string) (i : nat) :
  get_cell_type_color d label i = (color, d') ->
  lookup label d' = Some color /\ extends d d'.
Proof.
  unfold get_cell_type_color.
  destruct (lookup label d) as [c|] eqn:E; intros H; injection H as <- <-.
  - split; [exact E|apply extends_refl].
  - split; [now apply lookup_app_new|].
    intros l c Hl. now apply lookup_app_known.
Qed.

Lemma build_track_replay (peak_data : list PeakRow) (d d' : ColorMap) (i : nat)
  (ct : option string) (track : list Trace * bool) :
  build_track peak_data d i ct = (track, d') ->
  extends d d' /\
  forall d2, extends d' d2 -> build_track peak_data d2 i ct = (track, d2).
Proof.
  unfold build_track.
  destruct ct as [label|].
  2:{ intros H. injection H as <- <-. split; [apply extends_refl|reflexivity]. }
  destruct (sorted_by position_index Qle_bool (filter (has_cell_type label) peak_data))
    as [|first others].
  { intros H. injection H as <- <-. split; [apply extends_refl|reflexivity]. }
  destruct (get_cell_type_color d label (i - 1)) as [color d1] eqn:Hc.
  intros H. injection H as <- <-.
  apply get_cell_type_color_assigns in Hc as [Hl Hext].
  split; [exact Hext|].
  intros d2 H2. rewrite (get_cell_type_color_known d2 label color) by auto.
  reflexivity.
Qed.

Lemma build_tracks_replay (peak_data : list PeakRow) (cts : list (option string))
  (d d' : ColorMap) (i : nat) (tracks : list (list Trace * bool)) :
  build_tracks peak_data d i cts = (tracks, d') ->
  extends d d' /\
  forall d2, extends d' d2 -> build_tracks peak_data d2 i cts = (tracks, d2).
Proof.
  revert d d' i tracks.
  induction cts as [|ct cts IH]; intros d d' i tracks; cbn [build_tracks].
  - intros H. injection H as <- <-. split; [apply extends_refl|reflexivity].
  - destruct (build_track peak_data d i ct) as [track d1] eqn:Ht.
    destruct (build_tracks peak_data d1 (S i) cts) as [rest d2] eqn:Hr.
    intros H. injection H as <- <-.
    apply build_track_replay in Ht as [He1 Ht].
    apply IH in Hr as [He2 Hr].
    split; [eapply extends_trans; eauto|].
    intros d3 H3.
    rewrite (Ht d3) by (eapply extends_trans; eauto).
    now rewrite (Hr d3).
Qed.

(** X7.  Colours are kept from one render to the next: drawing the track
    plot of a table a second time on the same generator, or on the generator
    after any further requests that only add to its dict, gives the figure
    of the first time and leaves the dict as it is. *)
Theorem repeated_render_keeps_colors (d : ColorMap) (peak_data : DataFrame PeakRow)
  (enhancer_id : string) (later : ColorMap) :
  extends (snd (create_peak_visualization d peak_data enhancer_id)) later ->
  create_peak_visualization later peak_data enhancer_id
  = (fst (create_peak_visualization d peak_data enhancer_id), later).
Proof.
  unfold create_peak_visualization.
  destruct (rows_of peak_data) as [|r rows]; [reflexivity|].
  destruct (List.length (sorted_cell_types (r :: rows)) =? 0)%nat; [reflexivity|].
  destruct (build_tracks (r :: rows) d 1 (sorted_cell_types (r :: rows)))
    as [tracks d1] eqn:Hb.
  cbn [fst snd]. intros Hext.
  apply build_tracks_replay in Hb as [_ Hb].
  now rewrite (Hb later Hext).
Qed.

Lemma repeated_render_witness :
  create_peak_visualization
    (snd (create_peak_visualization [] (Frame example_E1) "E1"))
    (Frame example_E1) "E1"
  = (fst (create_peak_visualization [] (Frame example_E1) "E1"),
     snd (create_peak_visualization [] (Frame example_E1) "E1")).
Proof.
  apply (repeated_render_keeps_colors [] (Frame example_E1) "E1").
  apply extends_refl.
Defined.

(** * The tracks of the plot *)

Lemma Qle_bool_total (a b : Q) : Qle_bool a b = true \/ Qle_bool b a = true.
Proof.
  rewrite !Qle_bool_iff.
  destruct (Qlt_le_dec a b) as [H|H]; [left; now apply Qlt_le_weak|now right].
Qed.

Lemma Qle_bool_trans (a b c : Q) :
  Qle_bool a b = true -> Qle_bool b c = true -> Qle_bool a c = true.
Proof. rewrite !Qle_bool_iff. apply Qle_trans. Qed.

Lemma combine_map_pair {A B C : Type} (f : A -> B) (g : A -> C) (l : list A) :
  combine (map f l) (map g l) = map (fun a => (f a, g a)) l.
Proof. induction l as [|a l IH]; cbn; [reflexivity|now rewrite IH]. Qed.

Lemma StronglySorted_weaken {A : Type} (R S : A -> A -> Prop) (l : list A) :
  (forall a b, R a b -> S a b) -> StronglySorted R l -> StronglySorted S l.
Proof.
  intros HRS. induction 1 as [|a l Hs IH Hall]; constructor; [exact IH|].
  eapply Forall_impl; [|exact Hall]. intros b. apply HRS.
Qed.

Lemma sorted_by_position (rows : list PeakRow) :
  StronglySorted (fun a b => (position_index a <= position_index b)%Q)
    (sorted_by position_index Qle_bool rows).
Proof.
  eapply StronglySorted_weaken;
    [|apply (sorted_by_sorted position_index Qle_bool Qle_bool_total Qle_bool_trans)].
  intros a b H. now apply Qle_bool_iff.
Qed.

(** The track of a label that has rows, as [build_tracks] leaves it. *)
Lemma build_tracks_track (peak_data : list PeakRow) (cts : list (option string))
  (d d' : ColorMap) (i : nat) (tracks : list (list Trace * bool))
  (label : string) (first : PeakRow) (others : list PeakRow) :
  build_tracks peak_data d i cts = (tracks, d') ->
  In (Some label) cts ->
  sorted_by position_index Qle_bool (filter (has_cell_type label) peak_data)
  = first :: others ->
  exists color,
    lookup label d' = Some color /\
    In (Some label, (track_traces label color first others, true)) (combine cts tracks).
Proof.
  revert d d' i tracks.
  induction cts as [|ct cts IH]; intros d d' i tracks Hb Hin Hs; [contradiction|].
  cbn [build_tracks] in Hb.
  destruct (build_track peak_data d i ct) as [track d1] eqn:Ht.
  destruct (build_tracks peak_data d1 (S i) cts) as [rest d2] eqn:Hr.
  injection Hb as <- <-.
  destruct Hin as [->|Hin].
  - unfold build_track in Ht. rewrite Hs in Ht.
    destruct (get_cell_type_color d label (i - 1)) as [color dc] eqn:Hc.
    injection Ht as <- <-.
    apply get_cell_type_color_assigns in Hc as [Hl _].
    apply build_tracks_replay in Hr as [Hext _].
    exists color. split; [now apply Hext|]. now left.
  - destruct (IH _ _ _ _ Hr Hin Hs) as [color [Hl Hc]].
    exists color. split; [exact Hl|]. now right.
Qed.

Lemma make_panels_In (n : nat) (chr_name : string) (y_max : Q) (i : nat)
  (cts : list (option string)) (tracks : list (list Trace * bool))
  (ct : option string) (track : list Trace * bool) :
  In (ct, track) (combine cts tracks) ->
  exists p,
    In p (make_panels n chr_name y_max i cts tracks) /\
    panel_title p = py_str ct /\ panel_traces p = fst track /\
    panel_baseline p = snd track.
Proof.
  revert i tracks.
  induction cts as [|c cts IH]; intros i [|t tracks]; cbn [combine make_panels];
    try contradiction.
  intros [H|H].
  - injection H as <- <-. eexists. split; [now left|]. repeat split.
  - destruct (IH (S i) tracks H) as [p [Hp Hrest]]. exists p. split; [now right|exact Hrest].
Qed.

(** The panel of a label that has rows in a table. *)
Lemma panel_of_label (d : ColorMap) (r : PeakRow) (rows : list PeakRow)
  (enhancer_id label : string) (first : PeakRow) (others : list PeakRow) :
  In (Some label) (map cell_type (r :: rows)) ->
  sorted_by position_index Qle_bool (filter (has_cell_type label) (r :: rows))
  = first :: others ->
  exists p color,
    In p (fig_panels (fst (create_peak_visualization d (Frame (r :: rows)) enhancer_id))) /\
    lookup label (snd (create_peak_visualization d (Frame (r :: rows)) enhancer_id))
    = Some color /\
    panel_title p = label /\
    panel_traces p = track_traces label color first others /\
    panel_baseline p = true.
Proof.
  intros Hin Hs.
  rewrite create_peak_visualization_panels.
  unfold create_peak_visualization. cbn [rows_of].
  destruct (Nat.eqb_spec (List.length (sorted_cell_types (r :: rows))) 0) as [E|E];
    [now apply sorted_cell_types_nonempty in E|].
  destruct (build_tracks (r :: rows) d 1 (sorted_cell_types (r :: rows)))
    as [tracks d1] eqn:Hb.
  cbn [fst snd].
  apply sorted_cell_types_In in Hin.
  destruct (build_tracks_track _ _ _ _ _ _ _ _ _ Hb Hin Hs) as [color [Hl Hc]].
  eapply make_panels_In in Hc. destruct Hc as [p [Hp [Ht [Htr Hbl]]]].
  exists p, color. split; [exact Hp|]. split; [exact Hl|].
  split; [exact Ht|]. split; [exact Htr|exact Hbl].
Qed.

Lemma rows_of_label_sorted (label : string) (rows : list PeakRow) :
  In (Some label) (map cell_type rows) ->
  exists first others,
    sorted_by position_index Qle_bool (filter (has_cell_type label) rows)
    = first :: others.
Proof.
  intros Hin. apply in_map_iff in Hin as [r [Hr Hin]].
  assert (H : In r (sorted_by position_index Qle_bool
                      (filter (has_cell_type label) rows))).
  { apply sorted_by_In, filter_In. split; [exact Hin|].
    unfold has_cell_type. now apply cell_is_true. }
  destruct (sorted_by position_index Qle_bool (filter (has_cell_type label) rows))
    as [|first others]; [contradiction|]. eauto.
Qed.

Lemma track_traces_shape (label color : string) (first : PeakRow)
  (others : list PeakRow) :
  exists line markers,
    track_traces label color first others = line :: markers /\
    trace_mode line = FilledLine /\ trace_name line = Some label /\
    trace_color line = color /\
    trace_points line = row_points (first :: others) /\
    trace_x line = map position_index (first :: others) /\
    forall m, In m markers ->
      trace_mode m = Markers /\ trace_color m = color /\
      incl (trace_points m) (trace_points line).
Proof.
  unfold track_traces.
  set (high := filter _ (first :: others)).
  assert (Hincl : incl (row_points high) (row_points (first :: others))).
  { intros pt Hpt. unfold row_points in *. apply in_map_iff in Hpt as [x [<- Hx]].
    apply filter_In in Hx as [Hx _].
    now apply (in_map (fun r => (position_index r, accessibility_score r))). }
  destruct (is_nil high).
  - eexists. exists []. split; [reflexivity|].
    unfold trace_points. cbn [trace_mode trace_name trace_color trace_x trace_y].
    rewrite combine_map_pair.
    split; [reflexivity|]. split; [reflexivity|]. split; [reflexivity|].
    split; [reflexivity|]. split; [reflexivity|].
    intros m [].
  - eexists. eexists. split; [reflexivity|].
    unfold trace_points. cbn [trace_mode trace_name trace_color trace_x trace_y].
    rewrite combine_map_pair.
    split; [reflexivity|]. split; [reflexivity|]. split; [reflexivity|].
    split; [reflexivity|]. split; [reflexivity|].
    intros m [<-|[]]. cbn [trace_mode trace_color trace_x trace_y].
    rewrite combine_map_pair. split; [reflexivity|]. split; [reflexivity|exact Hincl].
Qed.

(** X8.  For every cell type that has rows in the table, the track plot
    has a panel titled by it whose first trace is the filled line named
    after the cell type: its points are the (position_index,
    accessibility_score) pairs of the rows of that cell type and of no other
    row, in ascending order of position_index.  Any further trace of the
    panel is a marker trace of the same colour whose points are points of
    the line. *)
Theorem track_shows_rows_of_cell_type (d : ColorMap) (rows : list PeakRow)
  (enhancer_id label : string) :
  In (Some label) (map cell_type rows) ->
  exists p line markers,
    In p (fig_panels (fst (create_peak_visualization d (Frame rows) enhancer_id))) /\
    panel_title p = label /\
    panel_traces p = line :: markers /\
    trace_mode line = FilledLine /\ trace_name line = Some label /\
    StronglySorted Qle (trace_x line) /\
    Permutation (trace_points line)
      (row_points (filter (has_cell_type label) rows)) /\
    forall m, In m markers ->
      trace_mode m = Markers /\ trace_color m = trace_color line /\
      incl (trace_points m) (trace_points line).
Proof.
  intros Hin.
  destruct rows as [|r rows]; [contradiction|].
  destruct (rows_of_label_sorted label (r :: rows) Hin) as [first [others Hs]].
  destruct (panel_of_label d r rows enhancer_id label first others Hin Hs)
    as (p & color & Hp & _ & Ht & Htr & _).
  destruct (track_traces_shape label color first others)
    as (line & markers & Hshape & Hmode & Hname & Hcolor & Hpts & Hx & Hmarkers).
  exists p, line, markers.
  split; [exact Hp|]. split; [exact Ht|]. split; [congruence|].
  split; [exact Hmode|]. split; [exact Hname|].
  split; [|split].
  - rewrite Hx, <- Hs. apply StronglySorted_map, sorted_by_position.
  - rewrite Hpts, <- Hs. unfold row_points. apply Permutation_map, sorted_by_perm.
  - intros m Hm. destruct (Hmarkers m Hm) as [H1 [H2 H3]].
    split; [exact H1|]. split; [congruence|exact H3].
Qed.

Lemma track_shows_rows_witness :
  exists p line markers,
    In p (fig_panels (fst (create_peak_visualization [] (Frame example_E1) "E1"))) /\
    panel_title p = "2_X" /\
    panel_traces p = line :: markers /\
    trace_mode line = FilledLine /\ trace_name line = Some "2_X" /\
    StronglySorted Qle (trace_x line) /\
    Permutation (trace_points line)
      (row_points (filter (has_cell_type "2_X") example_E1)) /\
    forall m, In m markers ->
      trace_mode m = Markers /\ trace_color m = trace_color line /\
      incl (trace_points m) (trace_points line).
Proof.
  apply (track_shows_rows_of_cell_type [] example_E1 "E1" "2_X").
  left. reflexivity.
Defined.

(** * The chart of the detail view *)

Lemma filter_idempotent {A : Type} (p : A -> bool) (l : list A) :
  filter p (filter p l) = filter p l.
Proof.
  rewrite filter_filter. apply filter_ext. intros a. now destruct (p a).
Qed.

Lemma unique_constant {A : Type} (eq_dec : forall x y : A, {x = y} + {x <> y})
  (x : A) (l : list A) :
  l <> [] -> (forall y, In y l -> y = x) -> unique eq_dec l = [x].
Proof.
  induction l as [|a l IH]; [congruence|]. intros _ Hall.
  assert (a = x) as -> by (apply Hall; now left).
  cbn [unique]. f_equal.
  destruct l as [|b l]; [reflexivity|].
  rewrite IH; [|discriminate|intros y Hy; apply Hall; now right].
  cbn. unfold other_than. destruct (eq_dec x x); [reflexivity|congruence].
Qed.

Lemma sorted_cell_types_one_label (label : string) (rows : list PeakRow) :
  rows <> [] -> (forall r, In r rows -> cell_type r = Some label) ->
  sorted_cell_types rows = [Some label].
Proof.
  intros Hne Hall. unfold sorted_cell_types.
  rewrite (unique_constant _ (Some label)); [reflexivity| |].
  - destruct rows; [congruence|discriminate].
  - intros y Hy. apply in_map_iff in Hy as [r [<- Hr]]. now apply Hall.
Qed.

(** X9.  When a cell type other than "All" is selected and the enhancer
    has rows of it, the chart of the detail view has a single panel, titled
    by that cell type, and its traces are the traces that the panel of the
    cell type has in the full track plot of the enhancer: the same points,
    the same markers and the same colour. *)
Theorem cell_type_view_reuses_track (d : ColorMap) (rows : list PeakRow)
  (enhancer_id selected_cell_type : string) :
  selected_cell_type <> "All" ->
  In (Some selected_cell_type) (map cell_type rows) ->
  exists p_full p,
    In p_full
      (fig_panels (fst (create_peak_visualization d (Frame rows) enhancer_id))) /\
    panel_title p_full = selected_cell_type /\
    fig_panels (fst (AppSession.detail_chart d rows enhancer_id selected_cell_type))
    = [p] /\
    panel_title p = selected_cell_type /\
    panel_traces p = panel_traces p_full /\
    panel_traces p <> [].
Proof.
  intros Hall Hin.
  destruct rows as [|r rows]; [contradiction|].
  set (label := selected_cell_type) in *.
  destruct (rows_of_label_sorted label (r :: rows) Hin) as [first [others Hs]].
  destruct (panel_of_label d r rows enhancer_id label first others Hin Hs)
    as (p_full & color & Hp & Hl & Ht & Htr & _).
  unfold AppSession.detail_chart.
  destruct (create_peak_visualization d (Frame (r :: rows)) enhancer_id)
    as [fig d1] eqn:Hfull.
  cbn [fst snd] in Hp, Hl.
  apply String.eqb_neq in Hall. rewrite Hall. cbn [negb].
  set (cell_type_data := filter (has_cell_type label) (r :: rows)).
  assert (Hne : cell_type_data <> []).
  { intros E. subst cell_type_data. rewrite E in Hs. discriminate. }
  destruct cell_type_data as [|r' rows'] eqn:Hdata; [congruence|].
  cbn [is_nil negb].
  assert (Hrows : forall x, In x (r' :: rows') -> cell_type x = Some label).
  { intros x Hx. rewrite <- Hdata in Hx. apply filter_In in Hx as [_ Hx].
    now apply cell_is_true. }
  assert (Hin' : In (Some label) (map cell_type (r' :: rows'))).
  { cbn [map]. left. apply Hrows. now left. }
  assert (Hs' : sorted_by position_index Qle_bool
                  (filter (has_cell_type label) (r' :: rows')) = first :: others).
  { rewrite <- Hdata. subst cell_type_data. now rewrite filter_idempotent. }
  destruct (panel_of_label d1 r' rows' enhancer_id label first others Hin' Hs')
    as (p & color' & Hp' & Hl' & Ht' & Htr' & _).
  assert (Hsame : create_peak_visualization d1 (Frame (r' :: rows')) enhancer_id
                  = (fst (create_peak_visualization d1 (Frame (r' :: rows')) enhancer_id),
                     d1)).
  { unfold create_peak_visualization. cbn [rows_of].
    rewrite (sorted_cell_types_one_label label) by (auto; discriminate).
    cbn [List.length Nat.eqb build_tracks].
    unfold build_track. rewrite Hs'.
    rewrite (get_cell_type_color_known d1 label color) by exact Hl.
    reflexivity. }
  rewrite Hsame in Hl'. cbn [snd] in Hl'.
  assert (color' = color) as -> by congruence.
  assert (Hone : fig_panels (fst (create_peak_visualization d1 (Frame (r' :: rows'))
                                    enhancer_id)) = [p]).
  { rewrite create_peak_visualization_panels in Hp' |- *.
    rewrite (sorted_cell_types_one_label label) in Hp' |- * by (auto; discriminate).
    cbn [build_tracks] in Hp' |- *.
    destruct (build_track (r' :: rows') d1 1 (Some label)) as [track d2].
    cbn [fst make_panels] in Hp' |- *.
    destruct Hp' as [<-|[]]. reflexivity. }
  exists p_full, p. split; [exact Hp|]. split; [exact Ht|].
  split; [exact Hone|]. split; [exact Ht'|].
  split; [congruence|].
  rewrite Htr'. destruct (track_traces_shape label color first others)
    as (line & markers & Hshape & _). rewrite Hshape. discriminate.
Qed.

Lemma cell_type_view_reuses_track_witness :
  exists p_full p,
    In p_full
      (fig_panels (fst (create_peak_visualization [] (Frame example_E1) "E1"))) /\
    panel_title p_full = "2_X" /\
    fig_panels (fst (AppSession.detail_chart [] example_E1 "E1" "2_X")) = [p] /\
    panel_title p = "2_X" /\
    panel_traces p = panel_traces p_full /\
    panel_traces p <> [].
Proof.
  apply (cell_type_view_reuses_track [] example_E1 "E1" "2_X").
  - discriminate.
  - left. reflexivity.
Defined.



(** * The layout of the track plot *)

Lemma create_peak_visualization_figure (d : ColorMap) (r : PeakRow)
  (rows : list PeakRow) (enhancer_id : string) :
  let cell_types := sorted_cell_types (r :: rows) in
  let y_max :=
    (series_max (accessibility_score r) (map accessibility_score rows) * 1.1)%Q in
  fst (create_peak_visualization d (Frame (r :: rows)) enhancer_id)
  = {| fig_title :=
         Some {| title_enhancer_id := enhancer_id;
                 title_chr_name := py_str (chr r);
                 title_start_pos := int_of_Q (start r);
                 title_end_pos := int_of_Q (end_ r);
                 title_total_length := (int_of_Q (end_ r) - int_of_Q (start r))%Z |};
       fig_annotations := [];
       fig_panels :=
         make_panels (List.length cell_types) (py_str (chr r)) y_max 1 cell_types
           (fst (build_tracks (r :: rows) d 1 cell_types));
       fig_height := Nat.max 500 (List.length cell_types * 120);
       fig_axes_visible := true |}.
Proof.
  intros cell_types y_max. subst cell_types y_max.
  unfold create_peak_visualization. cbn [rows_of].
  destruct (Nat.eqb_spec (List.length (sorted_cell_types (r :: rows))) 0) as [E|E].
  - now apply sorted_cell_types_nonempty in E.
  - destruct (build_tracks (r :: rows) d 1 (sorted_cell_types (r :: rows))).
    reflexivity.
Qed.

Lemma make_panels_length (n : nat) (chr_name : string) (y_max : Q) (i : nat)
  (cts : list (option string)) (tracks : list (list Trace * bool)) :
  List.length tracks = List.length cts ->
  List.length (make_panels n chr_name y_max i cts tracks) = List.length cts.
Proof.
  revert i tracks.
  induction cts as [|c cts IH]; intros i [|t tracks] H; cbn in *;
    try reflexivity; try discriminate.
  f_equal. apply IH. now injection H.
Qed.

Lemma make_panels_bottom (n : nat) (chr_name : string) (y_max : Q) (i : nat)
  (cts : list (option string)) (tracks : list (list Trace * bool)) :
  List.length tracks = List.length cts -> cts <> [] ->
  (i + List.length cts = S n)%nat ->
  map panel_xticklabels (make_panels n chr_name y_max i cts tracks)
  = repeat false (List.length cts - 1) ++ [true] /\
  map panel_xtitle (make_panels n chr_name y_max i cts tracks)
  = repeat None (List.length cts - 1)
    ++ [Some ("<b>Genomic Position (" ++ chr_name ++ ")</b>")%string].
Proof.
  revert i tracks.
  induction cts as [|c cts IH]; intros i [|t tracks] Hlen Hne Hi;
    try congruence; try discriminate.
  cbn [make_panels map List.length] in *.
  destruct cts as [|c' cts].
  - destruct tracks; [|discriminate]. cbn [make_panels map List.length repeat app Nat.sub].
    cbn [List.length] in Hi.
    assert (i = n) as -> by lia. cbn [make_panel panel_xticklabels panel_xtitle].
    rewrite Nat.eqb_refl. split; reflexivity.
  - destruct (IH (S i) tracks) as [H1 H2];
      [now injection Hlen|discriminate|cbn [List.length] in *; lia|].
    rewrite H1, H2. cbn [make_panel panel_xticklabels panel_xtitle].
    destruct (Nat.eqb_spec i n) as [E|E]; [cbn [List.length] in Hi; lia|].
    cbn [List.length Nat.sub]. rewrite !Nat.sub_0_r. split; reflexivity.
Qed.

(** X11.  The track plot of a non-empty table has one panel per distinct
    value of the cell_type column, is 120 units high per panel and at least
    500 high, carries no placeholder message, and shows x tick labels and
    the x-axis title on its bottom panel only. *)
Theorem track_plot_layout (d : ColorMap) (rows : list PeakRow)
  (enhancer_id : string) :
  rows <> [] ->
  let fig := fst (create_peak_visualization d (Frame rows) enhancer_id) in
  let n := List.length (fig_panels fig) in
  n = List.length (unique (option_eq_dec string_dec) (map cell_type rows)) /\
  fig_height fig = Nat.max 500 (n * 120) /\
  fig_annotations fig = [] /\
  map panel_xticklabels (fig_panels fig) = repeat false (n - 1) ++ [true] /\
  exists title,
    map panel_xtitle (fig_panels fig) = repeat None (n - 1) ++ [Some title].
Proof.
  destruct rows as [|r rows]; [congruence|]. intros _ fig n.
  subst n fig. rewrite create_peak_visualization_figure.
  cbn [fig_panels fig_height fig_annotations].
  pose proof (build_tracks_length (r :: rows) d 1 (sorted_cell_types (r :: rows)))
    as Hlen.
  rewrite make_panels_length by exact Hlen.
  destruct (make_panels_bottom (List.length (sorted_cell_types (r :: rows)))
              (py_str (chr r))
              (series_max (accessibility_score r) (map accessibility_score rows) * 1.1)%Q
              1 (sorted_cell_types (r :: rows))
              (fst (build_tracks (r :: rows) d 1 (sorted_cell_types (r :: rows))))
              Hlen) as [H1 H2].
  { intros E. apply (sorted_cell_types_nonempty r rows). now rewrite E. }
  { reflexivity. }
  split; [apply sorted_by_length|]. split; [reflexivity|]. split; [reflexivity|].
  split; [exact H1|]. eexists. exact H2.
Qed.

Lemma track_plot_layout_witness :
  let fig := fst (create_peak_visualization [] (Frame example_E1) "E1") in
  let n := List.length (fig_panels fig) in
  n = List.length (unique (option_eq_dec string_dec) (map cell_type example_E1)) /\
  fig_height fig = Nat.max 500 (n * 120) /\
  fig_annotations fig = [] /\
  map panel_xticklabels (fig_panels fig) = repeat false (n - 1) ++ [true] /\
  exists title,
    map panel_xtitle (fig_panels fig) = repeat None (n - 1) ++ [Some title].
Proof.
  apply (track_plot_layout [] example_E1 "E1"). discriminate.
Defined.

(** X12.  The panels of the track plot are titled by the distinct values
    of the cell_type column, each once, in non-decreasing order of the
    number that [extract_cell_type_number] reads (999 for a label without
    leading digits); cell types with the same number follow each other in
    the order of their first rows in the table. *)
Theorem panel_order_is_stable_by_number (d : ColorMap) (rows : list PeakRow)
  (enhancer_id : string) :
  rows <> [] ->
  exists order : list (option string),
    map panel_title
      (fig_panels (fst (create_peak_visualization d (Frame rows) enhancer_id)))
    = map py_str order /\
    NoDup order /\
    (forall ct, In ct order <-> In ct (map cell_type rows)) /\
    StronglySorted
      (fun a b => (extract_cell_type_number a <= extract_cell_type_number b)%N)
      order /\
    forall k : N,
      filter (fun ct => (extract_cell_type_number ct =? k)%N) order
      = filter (fun ct => (extract_cell_type_number ct =? k)%N)
          (unique (option_eq_dec string_dec) (map cell_type rows)).
Proof.
  destruct rows as [|r rows]; [congruence|]. intros _.
  exists (sorted_cell_types (r :: rows)).
  split; [apply create_peak_visualization_titles|].
  split.
  { unfold sorted_cell_types.
    eapply Permutation_NoDup; [symmetry; apply sorted_by_perm|apply unique_NoDup]. }
  split; [apply sorted_cell_types_In|].
  split; [apply sorted_cell_types_ascending|apply sorted_cell_types_stable].
Qed.

Lemma panel_order_witness :
  exists order : list (option string),
    map panel_title
      (fig_panels (fst (create_peak_visualization [] (Frame example_1000) "E1")))
    = map py_str order /\
    NoDup order /\
    (forall ct, In ct order <-> In ct (map cell_type example_1000)) /\
    StronglySorted
      (fun a b => (extract_cell_type_number a <= extract_cell_type_number b)%N)
      order /\
    forall k : N,
      filter (fun ct => (extract_cell_type_number ct =? k)%N) order
      = filter (fun ct => (extract_cell_type_number ct =? k)%N)
          (unique (option_eq_dec string_dec) (map cell_type example_1000)).
Proof.
  apply (panel_order_is_stable_by_number [] example_1000 "E1"). discriminate.
Defined.

(** * More on the single-file loader *)

Section CleaningMore.
Variable parse_number : string -> option Q.

Lemma to_numeric_idempotent (c : DataProcessor.cell) :
  DataProcessor.to_numeric parse_number (DataProcessor.to_numeric parse_number c)
  = DataProcessor.to_numeric parse_number c.
Proof.
  destruct c as [|x|s]; cbn; try reflexivity.
  destruct (parse_number s); reflexivity.
Qed.

Lemma coerce_numeric_cols_idempotent (r : DataProcessor.RawPeakRow) :
  DataProcessor.coerce_numeric_cols parse_number
    (DataProcessor.coerce_numeric_cols parse_number r)
  = DataProcessor.coerce_numeric_cols parse_number r.
Proof.
  unfold DataProcessor.coerce_numeric_cols. cbn.
  now rewrite !to_numeric_idempotent.
Qed.

Lemma filter_all {A : Type} (p : A -> bool) (l : list A) :
  (forall x, In x l -> p x = true) -> filter p l = l.
Proof. intros H. apply forallb_filter_id, forallb_forall. exact H. Qed.

Lemma filter_none {A : Type} (p : A -> bool) (l : list A) :
  (forall x, In x l -> p x = false) -> filter p l = [].
Proof.
  induction l as [|a l IH]; intros H; cbn; [reflexivity|].
  rewrite (H a) by now left. apply IH. intros x Hx. apply H. now right.
Qed.

(** The table is returned as it is, without a message, when every row has
    its id and score, is already coerced, has its numeric columns and has
    its start below its end. *)
Lemma load_peak_data_clean (rows : list DataProcessor.RawPeakRow) :
  (forall r, In r rows ->
     DataProcessor.has_critical_data r = true /\
     DataProcessor.coerce_numeric_cols parse_number r = r /\
     DataProcessor.has_numeric_data r = true /\
     DataProcessor.invalid_coords r = false) ->
  DataProcessor.load_peak_data parse_number (Some rows) = (Frame rows, []).
Proof.
  intros H. unfold DataProcessor.load_peak_data.
  rewrite (filter_all DataProcessor.has_critical_data rows) by (intros x Hx; apply H, Hx).
  rewrite Nat.ltb_irrefl.
  assert (Hmap : map (DataProcessor.coerce_numeric_cols parse_number) rows = rows).
  { rewrite <- (map_id rows) at 2. apply map_ext_in. intros x Hx. apply H, Hx. }
  rewrite Hmap.
  rewrite (filter_all DataProcessor.has_numeric_data rows) by (intros x Hx; apply H, Hx).
  rewrite (filter_none DataProcessor.invalid_coords rows) by (intros x Hx; apply H, Hx).
  reflexivity.
Qed.

(** X13.  Cleaning is idempotent: the table that [load_peak_data]
    returns, read again as the content of the file, is returned unchanged
    and without any message. *)
Theorem cleaning_is_idempotent (csv : option (list DataProcessor.RawPeakRow)) :
  let cleaned := rows_of (fst (DataProcessor.load_peak_data parse_number csv)) in
  DataProcessor.load_peak_data parse_number (Some cleaned) = (Frame cleaned, []).
Proof.
  intros cleaned. apply load_peak_data_clean.
  intros r Hr. subst cleaned.
  apply load_peak_data_rows in Hr
    as (r0 & df0 & _ & _ & Hcrit & -> & Hnum & Hvalid).
  split; [|split; [apply coerce_numeric_cols_idempotent|split; assumption]].
  unfold DataProcessor.has_critical_data in *.
  unfold DataProcessor.has_numeric_data in Hnum.
  cbn [DataProcessor.coerce_numeric_cols DataProcessor.raw_enhancer_id
       DataProcessor.raw_accessibility_score] in *.
  apply andb_prop in Hcrit as [Hid _].
  apply andb_prop in Hnum as [_ Hscore].
  now rewrite Hid, Hscore.
Qed.

(** X14.  A row that is dropped because one of its numeric columns does
    not read as a number is dropped without a message: when every row has
    its id and score and no row that keeps its four numbers has its start at
    or above its end, nothing is reported, and the rows returned are the
    coerced rows that have their four numbers. *)
Theorem unparsable_rows_are_dropped_silently
  (rows : list DataProcessor.RawPeakRow) :
  (forall r, In r rows -> DataProcessor.has_critical_data r = true) ->
  (forall r, In r rows ->
     DataProcessor.has_numeric_data (DataProcessor.coerce_numeric_cols parse_number r)
     = true ->
     DataProcessor.invalid_coords (DataProcessor.coerce_numeric_cols parse_number r)
     = false) ->
  DataProcessor.load_peak_data parse_number (Some rows)
  = (Frame (filter DataProcessor.has_numeric_data
              (map (DataProcessor.coerce_numeric_cols parse_number) rows)), []).
Proof.
  intros Hcrit Hvalid. unfold DataProcessor.load_peak_data.
  rewrite (filter_all DataProcessor.has_critical_data rows) by exact Hcrit.
  rewrite Nat.ltb_irrefl.
  rewrite (filter_none DataProcessor.invalid_coords).
  - reflexivity.
  - intros x Hx. apply filter_In in Hx as [Hx Hnum].
    apply in_map_iff in Hx as [r [<- Hr]]. now apply Hvalid.
Qed.
End CleaningMore.

Lemma unparsable_rows_witness :
  DataProcessor.load_peak_data DataProcessor.parse_digits
    (Some DataProcessor.example_csv_silent)
  = (Frame (filter DataProcessor.has_numeric_data
              (map (DataProcessor.coerce_numeric_cols DataProcessor.parse_digits)
                 DataProcessor.example_csv_silent)), []) /\
  List.length
    (filter DataProcessor.has_numeric_data
       (map (DataProcessor.coerce_numeric_cols DataProcessor.parse_digits)
          DataProcessor.example_csv_silent)) = 1%nat.
Proof.
  split; [|reflexivity].
  apply (unparsable_rows_are_dropped_silently DataProcessor.parse_digits
           DataProcessor.example_csv_silent).
  - intros r [<-|[<-|[]]]; reflexivity.
  - intros r [<-|[<-|[]]]; intros H; [reflexivity|discriminate H].
Defined.

(** X15.  [load_metadata] never fails and reports warnings only; a frame
    with rows is returned only when the file is a table, and then every row
    returned has an enhancer id that is neither missing nor empty and is a
    row of the file. *)
Theorem load_metadata_ids_present (file : DataProcessor.FeatherFile) :
  (forall diagnostic, In diagnostic (snd (DataProcessor.load_metadata file)) ->
     fst diagnostic = Warning) /\
  (forall m, In m (rows_of (fst (DataProcessor.load_metadata file))) ->
     exists rows e,
       file = DataProcessor.Table rows /\ In m rows /\
       meta_enhancer_id m = Some e /\ e <> "").
Proof.
  destruct file as [|message| |rows]; cbn [DataProcessor.load_metadata fst snd rows_of].
  - split; [intros diagnostic [<-|[]]; reflexivity|contradiction].
  - split; [intros diagnostic [<-|[]]; reflexivity|contradiction].
  - split; [intros diagnostic [<-|[]]; reflexivity|contradiction].
  - split; [contradiction|].
    intros m Hm. apply filter_In in Hm as [Hm Hid].
    destruct (meta_enhancer_id m) as [e|] eqn:E; [|discriminate].
    exists rows, e. repeat split; auto.
    apply negb_true_iff in Hid. now apply String.eqb_neq.
Qed.

Lemma load_metadata_witness :
  List.length (rows_of (fst (DataProcessor.load_metadata DataProcessor.example_feather)))
  = 1%nat /\
  forall m,
    In m (rows_of (fst (DataProcessor.load_metadata DataProcessor.example_feather))) ->
    exists rows e,
      DataProcessor.example_feather = DataProcessor.Table rows /\ In m rows /\
      meta_enhancer_id m = Some e /\ e <> "".
Proof.
  split; [reflexivity|].
  exact (proj2 (load_metadata_ids_present DataProcessor.example_feather)).
Defined.

(** * More on the single-file reconciler *)

Lemma id_isin_true (ids : list string) (m : MetaRow) :
  DataProcessor.id_isin ids m = true <->
  exists e, meta_enhancer_id m = Some e /\ In e ids.
Proof.
  unfold DataProcessor.id_isin.
  destruct (meta_enhancer_id m) as [e|].
  - rewrite existsb_eqb_In. split.
    + intros H. now exists e.
    + intros [e' [He' Hin]]. now injection He' as ->.
  - split; [discriminate|]. intros [e [He _]]. discriminate.
Qed.

Lemma enhancer_info_rows (peaks : list PeakRow) (e : string)
  (h : DataProcessor.HofRow) :
  In h (DataProcessor.enhancer_info peaks e) ->
  DataProcessor.hof_enhancer_id h = e /\
  DataProcessor.hof_experiment h = Some "Hall of Fame Collection" /\
  DataProcessor.hof_stats h <> None.
Proof.
  unfold DataProcessor.enhancer_info.
  destruct (DataProcessor.enhancer_peaks peaks e) as [|first_row others];
    [contradiction|].
  intros [<-|[]]. cbn. repeat split. discriminate.
Qed.

(** X16.  Referential completeness of the single-file reconciler: the
    enhancer ids of the table it returns are exactly the enhancer ids of the
    signal table, whatever the metadata; no row is without signal and no
    enhancer of the signal is without a row. *)
Theorem reconciled_ids_are_signal_ids (metadata_df : DataFrame MetaRow)
  (peak_data : DataFrame PeakRow) (e : string) :
  In e (map DataProcessor.hof_enhancer_id
          (rows_of (DataProcessor.extract_hof_enhancers metadata_df peak_data)))
  <-> In e (map enhancer_id (rows_of peak_data)).
Proof.
  unfold DataProcessor.extract_hof_enhancers.
  destruct (empty peak_data) eqn:Hpk.
  { apply is_nil_true in Hpk. rewrite Hpk. cbn. tauto. }
  cbn [rows_of]. unfold DataProcessor.sort_by_enhancer_id.
  set (peaks := rows_of peak_data).
  set (ids := unique string_dec (map enhancer_id peaks)).
  assert (Hids : forall x, In x ids <-> In x (map enhancer_id peaks))
    by (intros x; apply unique_In).
  rewrite <- Hids, in_map_iff.
  destruct (empty metadata_df); cbn [negb].
  - split.
    + intros [h [<- Hin]]. apply sorted_by_In, in_flat_map in Hin as [x [Hx Hh]].
      apply enhancer_info_rows in Hh as [-> _]. exact Hx.
    + intros Hin. pose proof Hin as Hsig. apply Hids in Hsig.
      pose proof (enhancer_peaks_nonempty _ _ Hsig) as Hne.
      destruct (DataProcessor.enhancer_peaks peaks e) as [|first_row others] eqn:Hp;
        [congruence|].
      eexists. split; [|apply sorted_by_In, in_flat_map; exists e; split; [exact Hin|]].
      2:{ unfold DataProcessor.enhancer_info. fold peaks. rewrite Hp. now left. }
      reflexivity.
  - split.
    + intros [h [<- Hin]]. apply sorted_by_In, in_app_or in Hin as [Hin|Hin].
      * apply in_map_iff in Hin as [m [<- Hm]]. apply filter_In in Hm as [_ Hm].
        apply id_isin_true in Hm as [x [Hx Hin]]. cbn. now rewrite Hx.
      * apply in_map_iff in Hin as [x [<- Hx]]. apply filter_In in Hx as [Hx _].
        exact Hx.
    + intros Hin.
      set (kept := filter (DataProcessor.id_isin ids) (rows_of metadata_df)).
      destruct (existsb (fun m => cell_is (meta_enhancer_id m) e) kept) eqn:Hk.
      * apply existsb_exists in Hk as [m [Hm Hid]]. apply cell_is_true in Hid.
        exists (DataProcessor.of_metadata m). split; [cbn; now rewrite Hid|].
        apply sorted_by_In, in_or_app. left. now apply in_map.
      * exists (DataProcessor.placeholder peaks e). split; [reflexivity|].
        apply sorted_by_In, in_or_app. right. apply in_map, filter_In.
        split; [exact Hin|]. fold kept. now rewrite Hk.
Qed.

(** X17.  With a metadata table that has rows, the signal decides which
    enhancers exist and the metadata is kept in full for them: a metadata
    row is carried into the result exactly when its enhancer has signal, and
    a placeholder, the only kind of row with a cell_type text, is written
    for no enhancer that the metadata lists. *)
Theorem metadata_rows_are_retained (md : list MetaRow)
  (peak_data : DataFrame PeakRow) :
  md <> [] ->
  let result :=
    rows_of (DataProcessor.extract_hof_enhancers (Frame md) peak_data) in
  (forall m e, In m md -> meta_enhancer_id m = Some e ->
     (In (DataProcessor.of_metadata m) result <->
      In e (map enhancer_id (rows_of peak_data)))) /\
  (forall h, In h result -> DataProcessor.hof_cell_type h <> None ->
     ~ In (Some (DataProcessor.hof_enhancer_id h)) (map meta_enhancer_id md)).
Proof.
  intros Hmd result. subst result.
  unfold DataProcessor.extract_hof_enhancers.
  destruct (empty peak_data) eqn:Hpk.
  { apply is_nil_true in Hpk. rewrite Hpk. cbn. split; [tauto|contradiction]. }
  assert (Hemp : empty (Frame md) = false) by (destruct md; [congruence|reflexivity]).
  rewrite Hemp. cbn [negb rows_of]. unfold DataProcessor.sort_by_enhancer_id.
  set (peaks := rows_of peak_data).
  set (ids := unique string_dec (map enhancer_id peaks)).
  set (kept := filter (DataProcessor.id_isin ids) md).
  assert (Hids : forall x, In x ids <-> In x (map enhancer_id peaks))
    by (intros x; apply unique_In).
  split.
  - intros m e Hm He. rewrite sorted_by_In, in_app_iff, <- Hids. split.
    + intros [Hin|Hin].
      * apply in_map_iff in Hin as [m' [Heq Hm']].
        apply filter_In in Hm' as [_ Hm']. apply id_isin_true in Hm' as [x [Hx Hin]].
        apply (f_equal DataProcessor.hof_enhancer_id) in Heq. cbn in Heq.
        rewrite Hx, He in Heq. cbn in Heq. now subst.
      * apply in_map_iff in Hin as [x [Heq Hx]].
        apply (f_equal DataProcessor.hof_cell_type) in Heq. discriminate Heq.
    + intros Hin. left. apply in_map, filter_In. split; [exact Hm|].
      apply id_isin_true. now exists e.
  - intros h Hh Hct Hin. apply sorted_by_In, in_app_or in Hh as [Hh|Hh].
    + apply in_map_iff in Hh as [m [<- _]]. now apply Hct.
    + apply in_map_iff in Hh as [x [<- Hx]]. cbn in Hin.
      apply filter_In in Hx as [Hx Hnot].
      apply negb_true_iff in Hnot.
      apply in_map_iff in Hin as [m [Hid Hm]].
      assert (Hk : existsb (fun m => cell_is (meta_enhancer_id m) x) kept = true).
      { apply existsb_exists. exists m. split; [|now apply cell_is_true].
        apply filter_In. split; [exact Hm|]. apply id_isin_true. now exists x. }
      fold kept in Hnot. congruence.
Qed.

Lemma metadata_rows_are_retained_witness :
  let result :=
    rows_of (DataProcessor.extract_hof_enhancers
               (Frame DataProcessorChunked.example_metadata_E1)
               (Frame example_E1)) in
  (forall m e, In m DataProcessorChunked.example_metadata_E1 ->
     meta_enhancer_id m = Some e ->
     (In (DataProcessor.of_metadata m) result <->
      In e (map enhancer_id example_E1))) /\
  (forall h, In h result -> DataProcessor.hof_cell_type h <> None ->
     ~ In (Some (DataProcessor.hof_enhancer_id h))
         (map meta_enhancer_id DataProcessorChunked.example_metadata_E1)).
Proof.
  apply (metadata_rows_are_retained DataProcessorChunked.example_metadata_E1
           (Frame example_E1)).
  discriminate.
Defined.

(** * Validation *)










(** * More on the chunked loader *)







Lemma sorted_by_key_unique {A : Type} (key : A -> string) (l1 l2 : list A) :
  Permutation l1 l2 -> NoDup (map key l1) ->
  StronglySorted (key_le key String.leb) l1 ->
  StronglySorted (key_le key String.leb) l2 ->
  l1 = l2.
Proof.
  revert l2.
  induction l1 as [|a l1 IH]; intros l2 Hperm Hnd H1 H2.
  - apply Permutation_nil in Hperm. now subst.
  - destruct l2 as [|b l2].
    { symmetry in Hperm. apply Permutation_nil in Hperm. discriminate. }
    apply StronglySorted_inv in H1 as [H1 Hall1].
    apply StronglySorted_inv in H2 as [H2 Hall2].
    rewrite Forall_forall in Hall1, Hall2.
    inversion Hnd as [|? ? Hnotin Hnd']; subst.
    assert (Hab : a = b).
    { assert (Ha : In a (b :: l2)) by (eapply Permutation_in; [exact Hperm|now left]).
      assert (Hb : In b (a :: l1))
        by (eapply Permutation_in; [symmetry; exact Hperm|now left]).
      destruct Ha as [Ha|Ha]; [now symmetry|].
      destruct Hb as [Hb|Hb]; [exact Hb|].
      exfalso. apply Hnotin.
      assert (Hk : key a = key b).
      { apply String.leb_antisym; [apply Hall1, Hb|apply Hall2, Ha]. }
      rewrite Hk. now apply in_map. }
    subst b. f_equal. apply IH; auto.
    eapply Permutation_cons_inv. exact Hperm.
Qed.

Lemma sorted_by_listing_order {A : Type} (key : A -> string) (l1 l2 : list A) :
  Permutation l1 l2 -> NoDup (map key l1) ->
  sorted_by key String.leb l1 = sorted_by key String.leb l2.
Proof.
  intros Hperm Hnd.
  apply (sorted_by_key_unique key).
  - rewrite !sorted_by_perm. exact Hperm.
  - eapply Permutation_NoDup; [|exact Hnd].
    apply Permutation_map. symmetry. apply sorted_by_perm.
  - apply sorted_by_sorted; [apply String.leb_total|apply str_le_trans].
  - apply sorted_by_sorted; [apply String.leb_total|apply str_le_trans].
Qed.

(** Selecting files of a listing by name keeps the names distinct. *)
Lemma selected_names_distinct {Name Content : Type} (keep : Name -> bool)
  (dir : list (Name * Content)) :
  NoDup (map fst dir) ->
  NoDup (map fst (filter (fun file => keep (fst file)) dir)).
Proof.
  induction dir as [|[name content] dir IH]; cbn; intros Hnd; [assumption|].
  inversion Hnd as [|? ? Hfresh Hrest]; subst.
  destruct (keep name); cbn; [|now apply IH].
  constructor; [|now apply IH].
  intros Hin. apply Hfresh.
  apply in_map_iff in Hin as [file [Hname Hin]].
  apply filter_In in Hin as [Hin _].
  apply in_map_iff. now exists file.
Qed.

Section ChunkedLoaderFacts.
Context {Row : Type}.
Variable Row_eq_dec : forall x y : Row, {x = y} + {x <> y}.

Lemma chunk_files_listing_order (dir dir' : DataProcessorChunked.Directory (Row := Row))
  (pattern : string) :
  Permutation dir dir' -> NoDup (map fst dir) ->
  DataProcessorChunked.chunk_files dir pattern
  = DataProcessorChunked.chunk_files dir' pattern.
Proof.
  intros Hperm Hnd. unfold DataProcessorChunked.chunk_files.
  apply sorted_by_listing_order.
  - clear Hnd. induction Hperm; cbn.
    + constructor.
    + destruct (DataProcessorChunked.glob_match pattern (fst x)); auto.
    + destruct (DataProcessorChunked.glob_match pattern (fst x));
        destruct (DataProcessorChunked.glob_match pattern (fst y)); auto.
      apply perm_swap.
    + etransitivity; eauto.
  - now apply selected_names_distinct.
Qed.

(** X19.  The result of the chunked loader does not depend on the order in
    which the directory lists its files: two listings of the same files,
    each name once, give the same table and the same printed lines. *)
Theorem chunked_load_ignores_listing_order
  (dir dir' : DataProcessorChunked.Directory (Row := Row)) :
  Permutation dir dir' -> NoDup (map fst dir) ->
  DataProcessorChunked.load_peak_data Row_eq_dec dir
  = DataProcessorChunked.load_peak_data Row_eq_dec dir'.
Proof.
  intros Hperm Hnd.
  unfold DataProcessorChunked.load_peak_data, DataProcessorChunked.combined,
    DataProcessorChunked.all_chunks.
  assert (H : forall pattern,
            DataProcessorChunked.chunk_files dir pattern
            = DataProcessorChunked.chunk_files dir' pattern)
    by (intros pattern; now apply chunk_files_listing_order).
  rewrite (flat_map_ext _ _ (fun pattern => f_equal (map snd) (H pattern))).
  rewrite (flat_map_ext
             (fun pattern => DataProcessorChunked.loading_lines pattern
                               (DataProcessorChunked.chunk_files dir pattern))
             (fun pattern => DataProcessorChunked.loading_lines pattern
                               (DataProcessorChunked.chunk_files dir' pattern))).
  - reflexivity.
  - intros pattern. now rewrite H.
Qed.


End ChunkedLoaderFacts.

Lemma chunked_load_listing_witness :
  DataProcessorChunked.load_peak_data PeakRow_eq_dec
    DataProcessorChunked.example_directory
  = DataProcessorChunked.load_peak_data PeakRow_eq_dec
      (rev DataProcessorChunked.example_directory).
Proof.
  apply (chunked_load_ignores_listing_order PeakRow_eq_dec
           DataProcessorChunked.example_directory
           (rev DataProcessorChunked.example_directory)).
  - apply Permutation_rev.
  - cbn. repeat constructor; cbn; intuition discriminate.
Defined.


(** * More on the chunked reconciler *)

Lemma filter_first_split {A : Type} (p : A -> bool) (l : list A) (r : A)
  (rest : list A) :
  filter p l = r :: rest ->
  exists before after,
    l = before ++ r :: after /\ p r = true /\
    forall x, In x before -> p x = false.
Proof.
  induction l as [|a l IH]; cbn; [discriminate|].
  destruct (p a) eqn:Ha.
  - intros H. injection H as -> _. exists [], l. repeat split; auto.
    intros x [].
  - intros H. destruct (IH H) as (before & after & -> & Hr & Hb).
    exists (a :: before), after. repeat split; auto.
    intros x [<-|Hx]; auto.
Qed.

Lemma base_info_ids (peaks : list PeakRow) (ids : list string) :
  (forall e, In e ids -> In e (map enhancer_id peaks)) ->
  map DataProcessorChunked.hof_enhancer_id
    (flat_map (DataProcessorChunked.base_info peaks) ids) = ids.
Proof.
  induction ids as [|e ids IH]; intros H; cbn [flat_map]; [reflexivity|].
  rewrite map_app, IH by (intros x Hx; apply H; now right).
  pose proof (enhancer_peaks_nonempty peaks e (H e (or_introl eq_refl))) as Hne.
  unfold DataProcessor.enhancer_peaks in Hne. unfold DataProcessorChunked.base_info.
  destruct (filter (fun r => enhancer_id r =? e) peaks); [congruence|reflexivity].
Qed.

Lemma base_info_first_row (peaks : list PeakRow) (e : string)
  (h : DataProcessorChunked.HofRow) :
  In h (DataProcessorChunked.base_info peaks e) ->
  DataProcessorChunked.hof_enhancer_id h = e /\
  DataProcessorChunked.hof_metadata h = None /\
  exists before r after,
    peaks = before ++ r :: after /\ enhancer_id r = e /\
    (forall x, In x before -> enhancer_id x <> e) /\
    DataProcessorChunked.hof_chr h = chr r /\
    DataProcessorChunked.hof_start h = start r /\
    DataProcessorChunked.hof_end h = end_ r.
Proof.
  unfold DataProcessorChunked.base_info.
  destruct (filter (fun r => enhancer_id r =? e) peaks) as [|r rest] eqn:E;
    [contradiction|].
  intros [<-|[]]. cbn. split; [reflexivity|]. split; [reflexivity|].
  apply filter_first_split in E as (before & after & -> & Hr & Hb).
  exists before, r, after. repeat split; auto.
  - now apply String.eqb_eq.
  - intros x Hx. apply String.eqb_neq. now apply Hb.
Qed.

Lemma chunked_rows (metadata_df : option (DataFrame MetaRow))
  (peaks : list PeakRow) :
  exists decorate : DataProcessorChunked.HofRow -> DataProcessorChunked.HofRow,
    rows_of (DataProcessorChunked.extract_hof_enhancers metadata_df
               (Some (Frame peaks)))
    = map decorate
        (flat_map (DataProcessorChunked.base_info peaks)
           (unique string_dec (map enhancer_id peaks))) /\
    (decorate = (fun h => h) \/
     exists md, metadata_df = Some md /\ rows_of md <> [] /\
                decorate = DataProcessorChunked.with_metadata (rows_of md)).
Proof.
  unfold DataProcessorChunked.extract_hof_enhancers, empty. cbn [rows_of].
  destruct peaks as [|r peaks]; cbn [is_nil].
  { exists (fun h => h). split; [reflexivity|now left]. }
  destruct metadata_df as [md|].
  - destruct (rows_of md) as [|m ms] eqn:E; cbn [is_nil rows_of].
    + exists (fun h => h). split; [now rewrite map_id|now left].
    + exists (DataProcessorChunked.with_metadata (m :: ms)).
      split; [reflexivity|]. right. exists md. rewrite E.
      repeat split. discriminate.
  - exists (fun h => h). split; [now rewrite map_id|now left].
Qed.

Lemma with_metadata_keeps (metadata : list MetaRow)
  (h : DataProcessorChunked.HofRow) :
  DataProcessorChunked.hof_enhancer_id (DataProcessorChunked.with_metadata metadata h)
  = DataProcessorChunked.hof_enhancer_id h.
Proof. reflexivity. Qed.


(** X22.  The chunked reconciler lists every enhancer of the signal
    exactly once, in the order in which the enhancers first appear in the
    signal, and gives each the chr, start and end of its first signal row,
    with or without metadata. *)
Theorem chunked_reconciler_lists_first_rows
  (metadata_df : option (DataFrame MetaRow)) (peaks : list PeakRow) :
  let result :=
    rows_of (DataProcessorChunked.extract_hof_enhancers metadata_df
               (Some (Frame peaks))) in
  map DataProcessorChunked.hof_enhancer_id result
  = unique string_dec (map enhancer_id peaks) /\
  NoDup (map DataProcessorChunked.hof_enhancer_id result) /\
  forall h, In h result ->
    exists before r after,
      peaks = before ++ r :: after /\
      enhancer_id r = DataProcessorChunked.hof_enhancer_id h /\
      (forall x, In x before ->
         enhancer_id x <> DataProcessorChunked.hof_enhancer_id h) /\
      DataProcessorChunked.hof_chr h = chr r /\
      DataProcessorChunked.hof_start h = start r /\
      DataProcessorChunked.hof_end h = end_ r.
Proof.
  intros result. subst result.
  destruct (chunked_rows metadata_df peaks) as [decorate [-> Hdec]].
  assert (Hkeep : forall h,
            DataProcessorChunked.hof_enhancer_id (decorate h)
            = DataProcessorChunked.hof_enhancer_id h /\
            DataProcessorChunked.hof_chr (decorate h) = DataProcessorChunked.hof_chr h /\
            DataProcessorChunked.hof_start (decorate h)
            = DataProcessorChunked.hof_start h /\
            DataProcessorChunked.hof_end (decorate h) = DataProcessorChunked.hof_end h).
  { intros h. destruct Hdec as [->|(md & _ & _ & ->)]; repeat split. }
  assert (Hids : map DataProcessorChunked.hof_enhancer_id
                   (map decorate
                      (flat_map (DataProcessorChunked.base_info peaks)
                         (unique string_dec (map enhancer_id peaks))))
                 = unique string_dec (map enhancer_id peaks)).
  { rewrite map_map.
    rewrite (map_ext _ DataProcessorChunked.hof_enhancer_id)
      by (intros h; apply Hkeep).
    apply base_info_ids. intros e. apply unique_In. }
  split; [exact Hids|]. split; [rewrite Hids; apply unique_NoDup|].
  intros h Hh. apply in_map_iff in Hh as [h0 [<- Hh0]].
  apply in_flat_map in Hh0 as [e [_ Hh0]].
  apply base_info_first_row in Hh0 as (He & _ & before & r & after & Hp & Hr & Hb & H1 & H2 & H3).
  destruct (Hkeep h0) as (K1 & K2 & K3 & K4).
  exists before, r, after. rewrite K1, K2, K3, K4, He.
  repeat split; auto.
Qed.

Lemma first_valid_first_value (column : MetaRow -> option string)
  (group : list MetaRow) :
  DataProcessorChunked.first_value_of column group
    (DataProcessorChunked.first_valid (map column group)).
Proof.
  induction group as [|m group IH]; cbn [map DataProcessorChunked.first_valid].
  - intros m [].
  - destruct (column m) as [c|] eqn:E.
    + exists [], m, group. repeat split; auto. intros x [].
    + unfold DataProcessorChunked.first_value_of in *.
      destruct (DataProcessorChunked.first_valid (map column group)) as [c|].
      * destruct IH as (before & m' & after & -> & Hc & Hb).
        exists (m :: before), m', after. repeat split; auto.
        intros x [<-|Hx]; auto.
      * intros x [<-|Hx]; auto.
Qed.

(** X23.  With a metadata table that has rows, every enhancer listed by
    the chunked reconciler carries a cargo, an experiment and a proximal
    gene that are chosen column by column: each is the value of the earliest
    metadata row of the enhancer that has one in that column, and is missing
    only when no row of the enhancer has one.  The three values need not
    come from the same row. *)
Theorem chunked_metadata_is_first_value_per_column (md : list MetaRow)
  (peaks : list PeakRow) (h : DataProcessorChunked.HofRow) :
  md <> [] ->
  In h (rows_of (DataProcessorChunked.extract_hof_enhancers (Some (Frame md))
                   (Some (Frame peaks)))) ->
  let group :=
    filter (fun m => cell_is (meta_enhancer_id m)
                       (DataProcessorChunked.hof_enhancer_id h)) md in
  exists s,
    DataProcessorChunked.hof_metadata h = Some s /\
    DataProcessorChunked.first_value_of meta_cargo group
      (DataProcessorChunked.cargo s) /\
    DataProcessorChunked.first_value_of meta_experiment group
      (DataProcessorChunked.experiment s) /\
    DataProcessorChunked.first_value_of meta_proximal_gene group
      (DataProcessorChunked.proximal_gene s).
Proof.
  intros Hmd Hin group. subst group.
  unfold DataProcessorChunked.extract_hof_enhancers, empty in Hin.
  cbn [rows_of] in Hin.
  destruct peaks as [|r peaks]; [contradiction|].
  destruct md as [|m md]; [congruence|].
  cbn [is_nil rows_of] in Hin.
  apply in_map_iff in Hin as [h0 [<- _]].
  cbn [DataProcessorChunked.with_metadata DataProcessorChunked.hof_metadata
       DataProcessorChunked.hof_enhancer_id].
  eexists. split; [reflexivity|].
  unfold DataProcessorChunked.metadata_summary.
  cbn [DataProcessorChunked.cargo DataProcessorChunked.experiment
       DataProcessorChunked.proximal_gene].
  repeat split; apply first_valid_first_value.
Qed.

Lemma chunked_metadata_witness :
  map DataProcessorChunked.hof_metadata
    (rows_of (DataProcessorChunked.extract_hof_enhancers
                (Some (Frame DataProcessorChunked.example_metadata_mixed))
                (Some (Frame example_E1))))
  = [ Some {| DataProcessorChunked.cargo := Some "AAV9";
              DataProcessorChunked.experiment := Some "epi";
              DataProcessorChunked.proximal_gene := None |} ] /\
  forall h,
    In h (rows_of (DataProcessorChunked.extract_hof_enhancers
                     (Some (Frame DataProcessorChunked.example_metadata_mixed))
                     (Some (Frame example_E1)))) ->
    let group :=
      filter (fun m => cell_is (meta_enhancer_id m)
                         (DataProcessorChunked.hof_enhancer_id h))
        DataProcessorChunked.example_metadata_mixed in
    exists s,
      DataProcessorChunked.hof_metadata h = Some s /\
      DataProcessorChunked.first_value_of meta_cargo group
        (DataProcessorChunked.cargo s) /\
      DataProcessorChunked.first_value_of meta_experiment group
        (DataProcessorChunked.experiment s) /\
      DataProcessorChunked.first_value_of meta_proximal_gene group
        (DataProcessorChunked.proximal_gene s).
Proof.
  split; [reflexivity|].
  intros h Hh.
  apply (chunked_metadata_is_first_value_per_column
           DataProcessorChunked.example_metadata_mixed example_E1 h);
    [discriminate|exact Hh].
Defined.

(** * The loader of the application module *)

Section AppLoaderFacts.
Context {Row : Type}.
Variable read_csv : string -> option (list Row).

End AppLoaderFacts.

(** * The chunked pipeline *)


(** * The comparison chart without data *)

Section ComparisonFacts.
Variable heatmap_chart : list PeakRow -> outcome Figure.

(** X26.  The comparison of enhancers draws a heat map only from rows of
    the listed enhancers that have a cell type.  When the table has no such
    row (an empty table, an empty list, enhancers that are not in the
    table) the builder does not call the heat map and returns the
    placeholder chart with one of its two messages. *)
Theorem comparison_without_data_is_placeholder (peak_data : DataFrame PeakRow)
  (enhancer_ids : list string) :
  (forall r, In r (rows_of peak_data) -> In (enhancer_id r) enhancer_ids ->
             cell_type r = None) ->
  exists message,
    create_multi_enhancer_comparison heatmap_chart peak_data enhancer_ids
    = Returns (create_empty_plot message) /\
    (message = "No data available for comparison" \/
     message = "No data found for selected enhancers").
Proof.
  intros H. unfold create_multi_enhancer_comparison.
  destruct (empty peak_data || is_nil enhancer_ids).
  - eexists. split; [reflexivity|now left].
  - rewrite filter_none.
    + eexists. split; [reflexivity|now right].
    + intros r Hr. apply andb_false_iff.
      destruct (existsb (String.eqb (enhancer_id r)) enhancer_ids) eqn:E;
        [|now left].
      right. apply existsb_eqb_In in E. now rewrite (H r Hr E).
Qed.
End ComparisonFacts.

Lemma comparison_without_data_witness :
  exists message,
    create_multi_enhancer_comparison (fun _ => Raises (ValueError "heat map"))
      (Frame example_E1) ["E7"; "E8"]
    = Returns (create_empty_plot message) /\
    (message = "No data available for comparison" \/
     message = "No data found for selected enhancers").
Proof.
  apply (comparison_without_data_is_placeholder
           (fun _ => Raises (ValueError "heat map")) (Frame example_E1) ["E7"; "E8"]).
  intros r [<-|[<-|[<-|[]]]] [H|[H|[]]]; discriminate H.
Defined.
